(** * pdnstui: a shallow embedding of the PowerDNS terminal manager

    The program is a single Python module, [pdnstui.py].  Its classes are
    embedded as records, its methods as programs of a small state and
    exception monad, and the client library it talks to (python-powerdns)
    as a record of primitive operations over an abstract server state.

    Python strings are modelled by [string], as sequences of characters of
    code point below 256.  Python integers are [Z]. *)

From Stdlib Require Import String Ascii ZArith List Lia DecimalString Bool.
From Stdlib Require DecimalPos.
Import ListNotations.
Open Scope string_scope.
Open Scope Z_scope.

(* ------------------------------------------------------------------ *)
(** ** Python built-ins used by the module *)

Module Py.

(** [s.endswith(suffix)] *)
Fixpoint endswith (s suffix : string) : bool :=
  if String.eqb s suffix then true
  else match s with
       | EmptyString => false
       | String _ s' => endswith s' suffix
       end.

(** [needle in hay] on strings *)
Fixpoint contains (needle hay : string) : bool :=
  if String.prefix needle hay then true
  else match hay with
       | EmptyString => false
       | String _ hay' => contains needle hay'
       end.

(** The lower-case letter of an upper-case one: A to Z, and the accented
    capitals of code points 192 to 222, the sign at 215 apart. *)
Definition lower_char (c : ascii) : ascii :=
  let n := nat_of_ascii c in
  if (((65 <=? n) && (n <=? 90))
      || ((192 <=? n) && (n <=? 222) && negb (n =? 215)))%nat
  then ascii_of_nat (n + 32) else c.

(** [s.lower()] *)
Fixpoint lower (s : string) : string :=
  match s with
  | EmptyString => EmptyString
  | String c s' => String (lower_char c) (lower s')
  end.

(** Characters removed by [str.strip()] and skipped by [int()]. *)
Definition is_space (c : ascii) : bool :=
  let n := nat_of_ascii c in
  (((9 <=? n) && (n <=? 13)) || ((28 <=? n) && (n <=? 32))
   || (n =? 133) || (n =? 160))%nat.

Fixpoint lstrip (s : string) : string :=
  match s with
  | EmptyString => EmptyString
  | String c s' => if is_space c then lstrip s' else s
  end.

Fixpoint rstrip (s : string) : string :=
  match s with
  | EmptyString => EmptyString
  | String c s' =>
      match rstrip s' with
      | EmptyString => if is_space c then EmptyString else String c EmptyString
      | r => String c r
      end
  end.

(** [s.strip()] *)
Definition strip (s : string) : string := rstrip (lstrip s).

(** Truth value of a string: [if s:] *)
Definition truthy (s : string) : bool :=
  match s with EmptyString => false | _ => true end.

(** [str(n)] for an integer *)
Definition str_int (n : Z) : string := NilZero.string_of_int (Z.to_int n).

Definition digit_of (c : ascii) : option Z :=
  let n := nat_of_ascii c in
  if ((48 <=? n) && (n <=? 57))%nat then Some (Z.of_nat (n - 48)) else None.

(** The digits of an integer literal as [int()] reads them: decimal
    digits, with single underscores allowed between two digits.
    [acc] is the value read so far, [after_digit] tells whether the
    previous character was a digit. *)
Fixpoint int_digits (s : string) (acc : Z) (after_digit : bool) : option Z :=
  match s with
  | EmptyString => if after_digit then Some acc else None
  | String c s' =>
      match digit_of c with
      | Some d => int_digits s' (10 * acc + d) true
      | None =>
          if (Ascii.eqb c "_" && after_digit)%bool
          then int_digits s' acc false
          else None
      end
  end.

(** [int(s)]: [None] stands for [ValueError]. *)
Definition int (s : string) : option Z :=
  match strip s with
  | String "-" ds => option_map Z.opp (int_digits ds 0 false)
  | String "+" ds => int_digits ds 0 false
  | ds => int_digits ds 0 false
  end.

(** [s[:n]] *)
Definition take (n : nat) (s : string) : string := substring 0 n s.

(** Zero-padded decimal field of [strftime], [width] digits at least. *)
Definition zero_pad (width : nat) (n : Z) : string :=
  let d := str_int n in
  String.concat "" (repeat "0" (width - String.length d)) ++ d.

End Py.

(* ------------------------------------------------------------------ *)
(** ** Exceptions and the program monad *)

(** A raised exception: its class and its message, [str(e)]. *)
Record exn := Exc { exn_class : string; str : string }.

(** [Exception(msg)], the only class the module itself raises. *)
Definition Exception (msg : string) : exn := Exc "Exception" msg.

Definition IndexError (msg : string) : exn := Exc "IndexError" msg.

Definition ValueError (msg : string) : exn := Exc "ValueError" msg.

(** Attribute access on [None]. *)
Definition none_has_no_attribute (attr : string) : exn :=
  Exc "AttributeError" ("'NoneType' object has no attribute '" ++ attr ++ "'").

(** A program over a state [S]: it ends with a value or with a raised
    exception, and in both cases leaves a state behind, as the mutations a
    Python statement made before raising stay in place. *)
Definition M (S A : Type) : Type := S -> (exn + A) * S.

Definition ret {S A} (a : A) : M S A := fun s => (inr a, s).

Definition bind {S A B} (m : M S A) (f : A -> M S B) : M S B :=
  fun s => match m s with
           | (inl e, s') => (inl e, s')
           | (inr a, s') => f a s'
           end.

Definition raise {S A} (e : exn) : M S A := fun s => (inl e, s).

(** [try: body except Exception as e: handler e] *)
Definition try_except {S A} (body : M S A) (handler : exn -> M S A) : M S A :=
  fun s => match body s with
           | (inl e, s') => handler e s'
           | (inr a, s') => (inr a, s')
           end.

Definition gets {S A} (f : S -> A) : M S A := fun s => (inr (f s), s).

Definition modify {S} (f : S -> S) : M S unit := fun s => (inr tt, f s).

Notation "x <- c1 ;; c2" := (bind c1 (fun x => c2))
  (at level 61, c1 at next level, right associativity).
Notation "c1 ;; c2" := (bind c1 (fun _ => c2))
  (at level 61, right associativity).

(** [for x in xs: body x] *)
Fixpoint for_each {S A} (xs : list A) (body : A -> M S unit) : M S unit :=
  match xs with
  | [] => ret tt
  | x :: xs' => body x ;; for_each xs' body
  end.

(** [if c: body] *)
Definition when {S} (c : bool) (body : M S unit) : M S unit :=
  if c then body else ret tt.

(** [d.get(key, default)] on a document whose key may be absent. *)
Definition get_default {A} (field : option A) (default : A) : A :=
  match field with Some v => v | None => default end.

(* ------------------------------------------------------------------ *)
(** ** The system clock and [date.today()] *)

Record date := Date { year : Z; month : Z; day : Z }.

(** The civil date of a day number counted from 1970-01-01. *)
Definition civil_from_days (days : Z) : date :=
  let z := days + 719468 in
  let era := z / 146097 in
  let doe := z - era * 146097 in
  let yoe := (doe - doe / 1460 + doe / 36524 - doe / 146096) / 365 in
  let doy := doe - (365 * yoe + yoe / 4 - yoe / 100) in
  let mp := (5 * doy + 2) / 153 in
  let d := doy - (153 * mp + 2) / 5 + 1 in
  let m := if mp <? 10 then mp + 3 else mp - 9 in
  let y := yoe + era * 400 in
  Date (if m <=? 2 then y + 1 else y) m d.

(** What the process can read of time: the POSIX time in seconds and the
    offset of the local time zone from UTC, in seconds. *)
Record Clock := { posix_time : Z; utc_offset : Z }.

(** The date [date.today()] is built from: the local one. *)
Definition local_date (c : Clock) : date :=
  civil_from_days ((posix_time c + utc_offset c) / 86400).

Definition utc_date (c : Clock) : date :=
  civil_from_days (posix_time c / 86400).

(** [d.strftime("%Y%m%d")] *)
Definition yyyymmdd (d : date) : string :=
  Py.zero_pad 4 (year d) ++ Py.zero_pad 2 (month d) ++ Py.zero_pad 2 (day d).

(* ------------------------------------------------------------------ *)
(** ** Documents of the remote API and arguments of the client library *)

(** [RRSet(name=..., rtype=..., records=[(content, disabled), ...], ttl=...)]:
    the arguments the module passes to the library's constructor.  [None]
    for the TTL is a call that leaves it to the library's default. *)
Record RRSet := mkRRSet {
  rr_name : string;
  rr_rtype : string;
  rr_records : list (string * bool);
  rr_ttl : option Z
}.

(** One entry of [rrset['records']]. *)
Record RecordDoc := { r_content : option string; r_disabled : option bool }.

(** One entry of [zone.details['rrsets']]. *)
Record RRSetDoc := {
  rs_name : option string;
  rs_type : option string;
  rs_ttl : option Z;
  rs_records : option (list RecordDoc)
}.

(** [zone.details]: the zone document; every key may be absent. *)
Record Details := {
  d_kind : option string;
  d_serial : option Z;
  d_notified_serial : option Z;
  d_rrsets : option (list RRSetDoc)
}.

(** A zone object handed out by the library.  Its attribute [zone.name]
    is data of the object, as is the URL of the zone on its server, which
    the object keeps for its requests.  [zone.details] is no data of the
    object: it is a property, and reading it has the library ask the
    server for the zone document; see [t_details] below. *)
Record RemoteZone := { zone_name : string; zone_url : string }.

(** A value that is an integer or a string, as [details.get('serial', 'N/A')]. *)
Inductive value := VInt (n : Z) | VStr (s : string).

(** [str(v)] *)
Definition str_value (v : value) : string :=
  match v with VInt n => Py.str_int n | VStr s => s end.

(** [self.notify(message, severity=...)]; the default severity is
    ["information"]. *)
Record Notification := Notice { message : string; severity : string }.

(* ------------------------------------------------------------------ *)
(** ** The modal dialogs *)

(** What a button press does to a modal: it shows a notice and stays
    open, or it is dismissed with a result, [self.dismiss(result)]. *)
Inductive outcome (R : Type) : Type :=
| Stays (n : Notification)
| Dismissed (result : R).

Arguments Stays {R} n.
Arguments Dismissed {R} result.

(** The dictionary [CreateRecordModal] is dismissed with. *)
Record CreateRecordResult := {
  cr_name : string;
  cr_type : string;
  cr_content : string;
  cr_ttl : Z
}.

(** The dictionary [EditRecordModal] is dismissed with. *)
Record EditRecordResult := { ed_content : string; ed_ttl : Z }.

Module CreateRecordModal.

(** The values of the modal's widgets. *)
Record widgets := {
  record_name : string;
  record_type : string;
  record_content : string;
  record_ttl : string
}.

Definition on_button_pressed (button_id : string) (w : widgets)
  : outcome (option CreateRecordResult) :=
  if String.eqb button_id "create-btn" then
    let name := Py.strip (record_name w) in
    let rtype := record_type w in
    let content := Py.strip (record_content w) in
    let ttl_str := Py.strip (record_ttl w) in
    if negb (Py.truthy name) || negb (Py.truthy content) then
      Stays (Notice "Name and content are required" "error")
    else
      match Py.int ttl_str with
      | None => Stays (Notice "TTL must be a number" "error")
      | Some ttl =>
          Dismissed (Some {| cr_name := name; cr_type := rtype;
                             cr_content := content; cr_ttl := ttl |})
      end
  else Dismissed None.

End CreateRecordModal.

Module EditRecordModal.

Record widgets := { record_content : string; record_ttl : string }.

Definition on_button_pressed (button_id : string) (w : widgets)
  : outcome (option EditRecordResult) :=
  if String.eqb button_id "save-btn" then
    let content := Py.strip (record_content w) in
    let ttl_str := Py.strip (record_ttl w) in
    if negb (Py.truthy content) then
      Stays (Notice "Content is required" "error")
    else
      match Py.int ttl_str with
      | None => Stays (Notice "TTL must be a number" "error")
      | Some ttl => Dismissed (Some {| ed_content := content; ed_ttl := ttl |})
      end
  else Dismissed None.

End EditRecordModal.

Module ConfirmModal.

Definition on_button_pressed (button_id : string) : outcome bool :=
  Dismissed (String.eqb button_id "yes-btn").

End ConfirmModal.

(* ------------------------------------------------------------------ *)
(** ** The client library and the state of the running program *)

(** A reference to a [PDNSManager] object. *)
Definition ref := nat.

(** An entry of [ZonesScreen.all_zones]. *)
Record zone_data := {
  zd_manager : ref;
  zd_id : string;
  zd_name : string;
  zd_kind : string;
  zd_serial : value;
  zd_records : nat;
  zd_notified_serial : value
}.

(** An entry of [ZoneDetailsScreen.all_records]. *)
Record record_row := {
  rec_name : string;
  rec_type : string;
  rec_content : string;
  rec_ttl : Z;
  rec_disabled : bool;
  rec_rrset : RRSetDoc
}.

(** class ZonesScreen; [zones_table] is the content of its DataTable. *)
Record ZonesScreen := {
  managers : list ref;
  all_zones : list zone_data;
  zones_table : list (list string)
}.

(** class ZoneDetailsScreen; [records_table] is the content of its
    DataTable. *)
Record ZoneDetailsScreen := {
  manager : ref;
  zone_id : string;
  screen_zone_name : string;
  zone : option RemoteZone;
  all_records : list record_row;
  records_table : list (list string)
}.

(** [ZoneDetailsScreen(manager, zone_id, zone_name)] *)
Definition new_details_screen (m : ref) (id name : string) : ZoneDetailsScreen :=
  {| manager := m; zone_id := id; screen_zone_name := name;
     zone := None; all_records := []; records_table := [] |}.

Set Implicit Arguments.

Section Program.

(** The state of the remote servers and the handles of the library's
    objects: [PDNSApiClient], [PDNSEndpoint] and a server of
    [api.servers]. *)
Variables W Client Api Server : Type.

(** The library's operations.  Each call reads and changes the remote
    state and either returns or raises.  [t_details] is the read of the
    property [zone.details] of a zone object. *)
Record Transport := {
  t_PDNSApiClient : string -> string -> W -> (exn + Client) * W;
  t_PDNSEndpoint : Client -> W -> (exn + Api) * W;
  t_servers : Api -> W -> (exn + list Server) * W;
  t_zones : Server -> W -> (exn + list RemoteZone) * W;
  t_get_zone : Server -> string -> W -> (exn + option RemoteZone) * W;
  t_details : RemoteZone -> W -> (exn + Details) * W;
  t_create_zone :
    Server -> string -> string -> list RRSet -> list string ->
    W -> (exn + option RemoteZone) * W;
  t_delete_zone : Server -> string -> W -> (exn + unit) * W;
  t_create_records : RemoteZone -> list RRSet -> W -> (exn + unit) * W;
  t_delete_records : RemoteZone -> list RRSet -> W -> (exn + unit) * W
}.

Variable T : Transport.

(** The calls made to the library, with their arguments. *)
Inductive Call :=
| CallPDNSApiClient (api_endpoint api_key : string)
| CallPDNSEndpoint (c : Client)
| CallServers (a : Api)
| CallZones (srv : Server)
| CallGetZone (srv : Server) (zone_id : string)
| CallDetails (zone : RemoteZone)
| CallCreateZone (srv : Server) (name kind : string)
    (rrsets : list RRSet) (nameservers : list string)
| CallDeleteZone (srv : Server) (zone_id : string)
| CallCreateRecords (zone : RemoteZone) (rrsets : list RRSet)
| CallDeleteRecords (zone : RemoteZone) (rrsets : list RRSet).

(** class PDNSManager *)
Record PDNSManager := {
  m_name : string;
  m_url : string;
  m_api_key : string;
  m_client : option Client;
  m_api : option Api;
  m_api_server : option Server;
  m_connected : bool;
  m_fqdn : string
}.

(** [PDNSManager(url, api_key, name)]; [fqdn] is what [urlparse] made of
    the URL. *)
Definition new_manager (url api_key name fqdn : string) : PDNSManager :=
  {| m_name := name; m_url := url; m_api_key := api_key;
     m_client := None; m_api := None; m_api_server := None;
     m_connected := false; m_fqdn := fqdn |}.

(** What the managers act on: the remote servers, the calls made so
    far, the clock and the manager objects themselves. *)
Record Sys := {
  world : W;
  calls : list Call;
  clock : Clock;
  heap : ref -> PDNSManager
}.

(** The state of the application: the above, the notices shown and the
    two screens. *)
Record St := {
  sys : Sys;
  notifications : list Notification;
  zones_screen : ZonesScreen;
  details_screen : ZoneDetailsScreen
}.

(** Methods of [PDNSManager] and methods of the screens. *)
Definition Gateway := M Sys.
Definition Prog := M St.

Definition with_world (w : W) (c : Call) (y : Sys) : Sys :=
  {| world := w; calls := calls y ++ [c]; clock := clock y; heap := heap y |}.

Definition with_manager (r : ref) (m : PDNSManager) (y : Sys) : Sys :=
  {| world := world y; calls := calls y; clock := clock y;
     heap := fun r' => if Nat.eqb r' r then m else heap y r' |}.

Definition with_sys (y : Sys) (s : St) : St :=
  {| sys := y; notifications := notifications s;
     zones_screen := zones_screen s; details_screen := details_screen s |}.

Definition with_notification (n : Notification) (s : St) : St :=
  {| sys := sys s; notifications := notifications s ++ [n];
     zones_screen := zones_screen s; details_screen := details_screen s |}.

Definition with_zones_screen (z : ZonesScreen) (s : St) : St :=
  {| sys := sys s; notifications := notifications s;
     zones_screen := z; details_screen := details_screen s |}.

Definition with_details_screen (d : ZoneDetailsScreen) (s : St) : St :=
  {| sys := sys s; notifications := notifications s;
     zones_screen := zones_screen s; details_screen := d |}.

(** A method of a manager called from a screen. *)
Definition lift {A} (g : Gateway A) : Prog A :=
  fun s => let (r, y) := g (sys s) in (r, with_sys y s).

(** A call into the library: logged, run on the remote state. *)
Definition call {A} (c : Call) (op : W -> (exn + A) * W) : Gateway A :=
  fun y => let (r, w) := op (world y) in (r, with_world w c y).

(** [self.notify(message, severity=severity)] *)
Definition notify (msg sev : string) : Prog unit :=
  modify (with_notification (Notice msg sev)).

(** [date.today()]: the local date, which must be a year of 1 to 9999. *)
Definition date_today : Gateway date :=
  c <- gets clock ;;
  let d := local_date c in
  if (1 <=? year d) && (year d <=? 9999) then ret d
  else raise (ValueError ("year " ++ Py.str_int (year d) ++ " is out of range")).

(* ---------------------------------------------------------------- *)
(** ** class PDNSManager *)

Definition set_client (c : Client) (m : PDNSManager) : PDNSManager :=
  {| m_name := m_name m; m_url := m_url m; m_api_key := m_api_key m;
     m_client := Some c; m_api := m_api m; m_api_server := m_api_server m;
     m_connected := m_connected m; m_fqdn := m_fqdn m |}.

Definition set_api (a : Api) (m : PDNSManager) : PDNSManager :=
  {| m_name := m_name m; m_url := m_url m; m_api_key := m_api_key m;
     m_client := m_client m; m_api := Some a; m_api_server := m_api_server m;
     m_connected := m_connected m; m_fqdn := m_fqdn m |}.

Definition set_api_server (srv : Server) (m : PDNSManager) : PDNSManager :=
  {| m_name := m_name m; m_url := m_url m; m_api_key := m_api_key m;
     m_client := m_client m; m_api := m_api m; m_api_server := Some srv;
     m_connected := m_connected m; m_fqdn := m_fqdn m |}.

Definition set_connected (b : bool) (m : PDNSManager) : PDNSManager :=
  {| m_name := m_name m; m_url := m_url m; m_api_key := m_api_key m;
     m_client := m_client m; m_api := m_api m; m_api_server := m_api_server m;
     m_connected := b; m_fqdn := m_fqdn m |}.

(** Assignment to an attribute of the manager [self]. *)
Definition update (self : ref) (f : PDNSManager -> PDNSManager) : Gateway unit :=
  modify (fun y => with_manager self (f (heap y self)) y).

(** Reading an attribute of the manager [self]. *)
Definition attr {A} (self : ref) (f : PDNSManager -> A) : Gateway A :=
  gets (fun y => f (heap y self)).

(** The URL [connect] opens the session on. *)
Definition api_url_of (url : string) : string :=
  if negb (Py.endswith url "/api/v1") then
    if Py.endswith url "/" then url ++ "api/v1" else url ++ "/api/v1"
  else url.

(** [self.api.servers] *)
Definition api_servers (self : ref) : Gateway (list Server) :=
  a <- attr self m_api ;;
  match a with
  | None => raise (none_has_no_attribute "servers")
  | Some a => call (CallServers a) (t_servers T a)
  end.

Definition connect (self : ref) : Gateway bool :=
  try_except
    (url <- attr self m_url ;;
     let api_url := api_url_of url in
     key <- attr self m_api_key ;;
     c <- call (CallPDNSApiClient api_url key) (t_PDNSApiClient T api_url key) ;;
     update self (set_client c) ;;
     a <- call (CallPDNSEndpoint c) (t_PDNSEndpoint T c) ;;
     update self (set_api a) ;;
     servers <- api_servers self ;;
     match servers with
     | _ :: _ =>
         servers <- api_servers self ;;
         match servers with
         | srv :: _ =>
             update self (set_api_server srv) ;;
             update self (set_connected true) ;;
             ret true
         | [] => raise (IndexError "list index out of range")
         end
     | [] => raise (Exception "No servers found")
     end)
    (fun e =>
       update self (set_connected false) ;;
       name <- attr self m_name ;;
       raise (Exception ("Failed to connect to " ++ name ++ ": " ++ str e))).

(** [if not self.connected: self.connect()] *)
Definition ensure_connected (self : ref) : Gateway unit :=
  connected <- attr self m_connected ;;
  if negb connected then connect self ;; ret tt else ret tt.

(** [self.api_server], about to be used for its attribute [attribute]. *)
Definition the_api_server (self : ref) (attribute : string) : Gateway Server :=
  srv <- attr self m_api_server ;;
  match srv with
  | None => raise (none_has_no_attribute attribute)
  | Some srv => ret srv
  end.

Definition get_zones (self : ref) : Gateway (list RemoteZone) :=
  ensure_connected self ;;
  try_except
    (srv <- the_api_server self "zones" ;;
     call (CallZones srv) (t_zones T srv))
    (fun e => raise (Exception ("Failed to get zones: " ++ str e))).

Definition get_zone (self : ref) (zone_id : string)
  : Gateway (option RemoteZone) :=
  ensure_connected self ;;
  srv <- the_api_server self "get_zone" ;;
  call (CallGetZone srv zone_id) (t_get_zone T srv zone_id).

Definition soa_content (name serial : string) : string :=
  "ns1." ++ name ++ " hostmaster." ++ name ++ " " ++ serial
    ++ " 28800 7200 604800 86400".

Definition create_zone (self : ref) (name kind : string)
    (nameservers : option (list string)) : Gateway (option RemoteZone) :=
  ensure_connected self ;;
  try_except
    (today <- date_today ;;
     let serial := yyyymmdd today ++ "00" in
     let soa_r :=
       mkRRSet name "SOA" [(soa_content name serial, false)] (Some 86400) in
     srv <- the_api_server self "create_zone" ;;
     let nameservers :=
       match nameservers with
       | Some (n :: ns) => n :: ns
       | _ => []
       end in
     call (CallCreateZone srv name kind [soa_r] nameservers)
          (t_create_zone T srv name kind [soa_r] nameservers))
    (fun e => raise (Exception ("Failed to create zone: " ++ str e))).

Definition delete_zone (self : ref) (zone_id : string) : Gateway bool :=
  ensure_connected self ;;
  try_except
    (srv <- the_api_server self "delete_zone" ;;
     call (CallDeleteZone srv zone_id) (t_delete_zone T srv zone_id) ;;
     ret true)
    (fun e => raise (Exception ("Failed to delete zone: " ++ str e))).

(** [zone.details] on a zone object the library handed out *)
Definition zone_details (zone : RemoteZone) : Gateway Details :=
  call (CallDetails zone) (t_details T zone).

(* ---------------------------------------------------------------- *)
(** ** class ZoneDetailsScreen *)

(** An update of the attributes of the details screen. *)
Definition on_details (f : ZoneDetailsScreen -> ZoneDetailsScreen) : Prog unit :=
  modify (fun s => with_details_screen (f (details_screen s)) s).

Definition set_zone (z : option RemoteZone) (d : ZoneDetailsScreen) :=
  {| manager := manager d; zone_id := zone_id d;
     screen_zone_name := screen_zone_name d; zone := z;
     all_records := all_records d; records_table := records_table d |}.

Definition set_all_records (rs : list record_row) (d : ZoneDetailsScreen) :=
  {| manager := manager d; zone_id := zone_id d;
     screen_zone_name := screen_zone_name d; zone := zone d;
     all_records := rs; records_table := records_table d |}.

Definition set_records_table (t : list (list string)) (d : ZoneDetailsScreen) :=
  {| manager := manager d; zone_id := zone_id d;
     screen_zone_name := screen_zone_name d; zone := zone d;
     all_records := all_records d; records_table := t |}.

(** [self.all_records.append(r)] *)
Definition append_record (r : record_row) : Prog unit :=
  on_details (fun d => set_all_records (all_records d ++ [r]) d).

(** [table.add_row(...)] on the records table *)
Definition add_record_row (row : list string) : Prog unit :=
  on_details (fun d => set_records_table (records_table d ++ [row]) d).

(** [content[:50] + "..." if len(content) > 50 else content] *)
Definition shown_content (content : string) : string :=
  if Nat.ltb 50 (String.length content) then Py.take 50 content ++ "..."
  else content.

Definition yes_no (b : bool) : string := if b then "Yes" else "No".

Definition load_records : Prog unit :=
  try_except
    (d <- gets details_screen ;;
     z <- lift (get_zone (manager d) (zone_id d)) ;;
     on_details (set_zone z) ;;
     on_details (set_records_table []) ;;
     on_details (set_all_records []) ;;
     match z with
     | None => raise (none_has_no_attribute "details")
     | Some z =>
         details <- lift (zone_details z) ;;
         for_each (get_default (d_rrsets details) []) (fun rrset =>
           let name := get_default (rs_name rrset) "" in
           let rtype := get_default (rs_type rrset) "" in
           for_each (get_default (rs_records rrset) []) (fun record =>
             let content := get_default (r_content record) "" in
             let disabled := get_default (r_disabled record) false in
             append_record
               {| rec_name := name; rec_type := rtype;
                  rec_content := content;
                  rec_ttl := get_default (rs_ttl rrset) 3600;
                  rec_disabled := disabled; rec_rrset := rrset |} ;;
             add_record_row
               [name; rtype; shown_content content;
                match rs_ttl rrset with
                | Some ttl => Py.str_int ttl
                | None => ""
                end;
                yes_no disabled]))
     end ;;
     n <- gets (fun s => length (all_records (details_screen s))) ;;
     notify ("Loaded " ++ Py.str_int (Z.of_nat n) ++ " records") "information")
    (fun e => notify ("Error loading records: " ++ str e) "error").

(** [ZoneDetailsScreen.on_mount], the set-up of the table's columns left
    out. *)
Definition details_on_mount : Prog unit := load_records.

Definition filter_records (search_term : string) : Prog unit :=
  on_details (set_records_table []) ;;
  let search_lower := Py.lower search_term in
  rs <- gets (fun s => all_records (details_screen s)) ;;
  for_each rs (fun record =>
    when (Py.contains search_lower (Py.lower (rec_name record))
          || Py.contains search_lower (Py.lower (rec_type record))
          || Py.contains search_lower (Py.lower (rec_content record)))
      (add_record_row
         [rec_name record; rec_type record; shown_content (rec_content record);
          Py.str_int (rec_ttl record); yes_no (rec_disabled record)])).

(** The name a new record is created under. *)
Definition full_name_of (name zone_name : string) : string :=
  let full_name := if Py.truthy name then name ++ "." ++ zone_name else zone_name in
  if negb (Py.endswith full_name ".") then full_name ++ "." else full_name.

(** [zone.create_records(rrsets)] on what [get_zone] returned *)
Definition create_records (z : option RemoteZone) (rrsets : list RRSet) : Gateway unit :=
  match z with
  | None => raise (none_has_no_attribute "create_records")
  | Some z => call (CallCreateRecords z rrsets) (t_create_records T z rrsets)
  end.

(** [zone.delete_records(rrsets)] on what [get_zone] returned *)
Definition delete_records (z : option RemoteZone) (rrsets : list RRSet) : Gateway unit :=
  match z with
  | None => raise (none_has_no_attribute "delete_records")
  | Some z => call (CallDeleteRecords z rrsets) (t_delete_records T z rrsets)
  end.

Definition on_create_record_result (result : option CreateRecordResult) : Prog unit :=
  match result with
  | None => ret tt
  | Some result =>
      try_except
        (d <- gets details_screen ;;
         z <- lift (get_zone (manager d) (zone_id d)) ;;
         let full_name := full_name_of (cr_name result) (screen_zone_name d) in
         let rrset :=
           mkRRSet full_name (cr_type result)
                   [(cr_content result, false)] (Some (cr_ttl result)) in
         lift (create_records z [rrset]) ;;
         notify "Record created successfully" "information" ;;
         load_records)
        (fun e => notify ("Error creating record: " ++ str e) "error")
  end.

Definition on_edit_record_result (result : option EditRecordResult)
    (record : record_row) : Prog unit :=
  match result with
  | None => ret tt
  | Some result =>
      try_except
        (d <- gets details_screen ;;
         z <- lift (get_zone (manager d) (zone_id d)) ;;
         let rrset :=
           mkRRSet (rec_name record) (rec_type record)
                   [(ed_content result, rec_disabled record)]
                   (Some (ed_ttl result)) in
         lift (create_records z [rrset]) ;;
         notify "Record updated successfully" "information" ;;
         load_records)
        (fun e => notify ("Error updating record: " ++ str e) "error")
  end.

Definition on_delete_record_result (confirmed : bool) (record : record_row)
  : Prog unit :=
  when confirmed
    (try_except
       (d <- gets details_screen ;;
        z <- lift (get_zone (manager d) (zone_id d)) ;;
        let rrset := mkRRSet (rec_name record) (rec_type record) [] None in
        lift (delete_records z [rrset]) ;;
        notify "Record deleted successfully" "information" ;;
        load_records)
       (fun e => notify ("Error deleting record: " ++ str e) "error")).

(** One button press on the dialog [action_create_record] pushed with
    [on_create_record_result] as its callback: the dialog's own notice,
    or the callback on the result it was dismissed with. *)
Definition press_create_record (button_id : string)
    (w : CreateRecordModal.widgets) : Prog unit :=
  match CreateRecordModal.on_button_pressed button_id w with
  | Stays n => modify (with_notification n)
  | Dismissed result => on_create_record_result result
  end.

(** The same for the dialog [action_edit_record] pushed for [record]. *)
Definition press_edit_record (record : record_row) (button_id : string)
    (w : EditRecordModal.widgets) : Prog unit :=
  match EditRecordModal.on_button_pressed button_id w with
  | Stays n => modify (with_notification n)
  | Dismissed result => on_edit_record_result result record
  end.

(* ---------------------------------------------------------------- *)
(** ** class ZonesScreen *)

(** An update of the attributes of the zones screen. *)
Definition on_zones (f : ZonesScreen -> ZonesScreen) : Prog unit :=
  modify (fun s => with_zones_screen (f (zones_screen s)) s).

Definition set_all_zones (zs : list zone_data) (z : ZonesScreen) :=
  {| managers := managers z; all_zones := zs; zones_table := zones_table z |}.

Definition set_zones_table (t : list (list string)) (z : ZonesScreen) :=
  {| managers := managers z; all_zones := all_zones z; zones_table := t |}.

(** [self.all_zones.append(zone_data)] *)
Definition append_zone (zd : zone_data) : Prog unit :=
  on_zones (fun z => set_all_zones (all_zones z ++ [zd]) z).

(** [table.add_row(...)] on the zones table *)
Definition add_zone_row (row : list string) : Prog unit :=
  on_zones (fun z => set_zones_table (zones_table z ++ [row]) z).

(** [details.get(key, 'N/A')] for a numeric key *)
Definition or_na (field : option Z) : value :=
  match field with Some n => VInt n | None => VStr "N/A" end.

(** The dictionary [load_zones] builds for a zone of [manager];
    [zone.details] is read once for each of the four keys taken from
    it. *)
Definition zone_data_of (manager : ref) (zone : RemoteZone) : Gateway zone_data :=
  kind <- zone_details zone ;;
  serial <- zone_details zone ;;
  rrsets <- zone_details zone ;;
  notified_serial <- zone_details zone ;;
  ret {| zd_manager := manager;
         zd_id := zone_name zone;
         zd_name := zone_name zone;
         zd_kind := get_default (d_kind kind) "N/A";
         zd_serial := or_na (d_serial serial);
         zd_records := length (get_default (d_rrsets rrsets) []);
         zd_notified_serial := or_na (d_notified_serial notified_serial) |}.

Definition load_zones : Prog unit :=
  on_zones (set_zones_table []) ;;
  on_zones (set_all_zones []) ;;
  ms <- gets (fun s => managers (zones_screen s)) ;;
  for_each ms (fun manager =>
    try_except
      (zones <- lift (get_zones manager) ;;
       for_each zones (fun zone =>
         zd <- lift (zone_data_of manager zone) ;;
         append_zone zd ;;
         name <- lift (attr manager m_name) ;;
         fqdn <- lift (attr manager m_fqdn) ;;
         add_zone_row
           [name; fqdn; zone_name zone; zd_kind zd;
            str_value (zd_serial zd);
            Py.str_int (Z.of_nat (zd_records zd));
            str_value (zd_notified_serial zd)]))
      (fun e =>
         name <- lift (attr manager m_name) ;;
         notify ("Error loading zones from " ++ name ++ ": " ++ str e) "error")) ;;
  n <- gets (fun s => length (all_zones (zones_screen s))) ;;
  k <- gets (fun s => length (managers (zones_screen s))) ;;
  notify ("Loaded " ++ Py.str_int (Z.of_nat n) ++ " zones from "
            ++ Py.str_int (Z.of_nat k) ++ " server(s)") "information".

Definition filter_zones (search_term : string) : Prog unit :=
  on_zones (set_zones_table []) ;;
  let search_lower := Py.lower search_term in
  zs <- gets (fun s => all_zones (zones_screen s)) ;;
  for_each zs (fun zone =>
    name <- lift (attr (zd_manager zone) m_name) ;;
    fqdn <- lift (attr (zd_manager zone) m_fqdn) ;;
    when (Py.contains search_lower (Py.lower (zd_name zone))
          || Py.contains search_lower (Py.lower (zd_kind zone))
          || Py.contains search_lower (Py.lower name)
          || Py.contains search_lower (Py.lower fqdn))
      (add_zone_row
         [name; fqdn; zd_name zone; zd_kind zone;
          str_value (zd_serial zone);
          Py.str_int (Z.of_nat (zd_records zone));
          str_value (zd_notified_serial zone)])).

Definition on_delete_zone_result (confirmed : bool) (zone : zone_data) : Prog unit :=
  when confirmed
    (try_except
       (lift (delete_zone (zd_manager zone) (zd_id zone)) ;;
        notify ("Zone " ++ zd_name zone ++ " deleted successfully") "information" ;;
        load_zones)
       (fun e => notify ("Error deleting zone: " ++ str e) "error")).

(** [on_data_table_row_selected]: the details screen is created for the
    zone under the cursor and pushed, which mounts it. *)
Definition on_data_table_row_selected (cursor_row : nat) : Prog unit :=
  zs <- gets (fun s => all_zones (zones_screen s)) ;;
  match nth_error zs cursor_row with
  | None => raise (IndexError "list index out of range")
  | Some zone =>
      modify (with_details_screen
                (new_details_screen (zd_manager zone) (zd_id zone) (zd_name zone))) ;;
      details_on_mount
  end.

(* ---------------------------------------------------------------- *)
(** ** Observations on a run *)

(** The calls that change the remote state. *)
Definition mutating (c : Call) : bool :=
  match c with
  | CallCreateZone _ _ _ _ _ => true
  | CallDeleteZone _ _ => true
  | CallCreateRecords _ _ => true
  | CallDeleteRecords _ _ => true
  | _ => false
  end.

Definition mutations (cs : list Call) : list Call := filter mutating cs.

(** The row the zones table shows for an entry of [all_zones], the
    manager objects being [h]. *)
Definition zone_row (h : ref -> PDNSManager) (zone : zone_data) : list string :=
  [m_name (h (zd_manager zone)); m_fqdn (h (zd_manager zone));
   zd_name zone; zd_kind zone; str_value (zd_serial zone);
   Py.str_int (Z.of_nat (zd_records zone));
   str_value (zd_notified_serial zone)].

(** The notice [load_zones] shows when the zones of [manager] cannot be
    loaded. *)
Definition load_warning (h : ref -> PDNSManager) (manager : ref) (e : exn)
  : Notification :=
  Notice ("Error loading zones from " ++ m_name (h manager) ++ ": " ++ str e)
         "error".

(** The specification's [ZoneSummary] of a remote zone of gateway [g]:
    its source server is [g]; its id and its name are the name of the
    zone; kind, serial and notified serial are those of the zone detail,
    or ["N/A"] where the detail has none; the count is the number of
    record-sets of the detail, or 0 where the detail has none.  The
    detail is given as it was read for each of the four. *)
Definition spec_summary (g : ref) (zone : RemoteZone)
    (kind serial rrsets notified_serial : Details) : zone_data :=
  {| zd_manager := g;
     zd_id := zone_name zone;
     zd_name := zone_name zone;
     zd_kind := match d_kind kind with Some k => k | None => "N/A" end;
     zd_serial := match d_serial serial with
                  | Some n => VInt n
                  | None => VStr "N/A"
                  end;
     zd_records := match d_rrsets rrsets with
                   | Some record_sets => length record_sets
                   | None => 0%nat
                   end;
     zd_notified_serial := match d_notified_serial notified_serial with
                           | Some n => VInt n
                           | None => VStr "N/A"
                           end |}.

(** The summary of a zone, its detail being read from the server for
    each of the four fields taken from it. *)
Definition spec_zone_summary (g : ref) (zone : RemoteZone) : Gateway zone_data :=
  kind <- zone_details zone ;;
  serial <- zone_details zone ;;
  rrsets <- zone_details zone ;;
  notified_serial <- zone_details zone ;;
  ret (spec_summary g zone kind serial rrsets notified_serial).

(** The specification's [loadZones], with a zone's details read as the
    summary of the zone is made.  The summaries of the zones a gateway
    listed are made in the order of the listing, until the details of a
    zone cannot be read: the summaries made, the failure if there is
    one, and the state the reads leave. *)
Fixpoint spec_summaries (g : ref) (zones : list RemoteZone) (y : Sys)
  : list zone_data * option exn * Sys :=
  match zones with
  | [] => ([], None, y)
  | zone :: rest =>
      match spec_zone_summary g zone y with
      | (inl e, y1) => ([], Some e, y1)
      | (inr zd, y1) =>
          let '(zds, failure, y2) := spec_summaries g rest y1 in
          (zd :: zds, failure, y2)
      end
  end.

(** What one gateway gives: [listZones] is called on it; when that
    fails it gives no zone, and otherwise the summaries above. *)
Definition spec_gateway (g : ref) (y : Sys) : list zone_data * option exn * Sys :=
  match get_zones g y with
  | (inl e, y1) => ([], Some e, y1)
  | (inr zones, y1) => spec_summaries g zones y1
  end.

(** The gateways are taken in configured order; a failure of a gateway
    records a warning for that server and the remaining gateways are
    still processed.  The result is the aggregate, the warnings and the
    state the gateways are left in. *)
Fixpoint spec_loadZones (gateways : list ref) (y : Sys)
  : list zone_data * list Notification * Sys :=
  match gateways with
  | [] => ([], [], y)
  | g :: gs =>
      let '(zds, failure, y1) := spec_gateway g y in
      let '(zs, ws, y2) := spec_loadZones gs y1 in
      ((zds ++ zs)%list,
       match failure with
       | Some e => load_warning (heap y1) g e :: ws
       | None => ws
       end,
       y2)
  end.

(** The claim of the specification as it stands, on one gateway [g]:
    the aggregate holds exactly the zones of the gateways that succeeded.
    So when [g] lists its zones, the aggregate holds exactly these
    zones, or none of them should [g] count as failed afterwards; and
    when [g] does not list its zones, none. *)
Definition all_or_nothing (s : St) (g : ref) : Prop :=
  managers (zones_screen s) = [g] ->
  match fst (get_zones g (sys s)) with
  | inr zones =>
      map zd_name (all_zones (zones_screen (snd (load_zones s))))
      = map zone_name zones
      \/ all_zones (zones_screen (snd (load_zones s))) = []
  | inl _ => all_zones (zones_screen (snd (load_zones s))) = []
  end.

(** The zone creation call the specification describes for [name], with
    the serial taken from the date [today]. *)
Definition spec_create_zone_call (srv : Server) (name kind : string)
    (nameservers : option (list string)) (today : date) : Call :=
  CallCreateZone srv name kind
    [mkRRSet name "SOA"
       [("ns1." ++ name ++ " hostmaster." ++ name ++ " "
           ++ (yyyymmdd today ++ "00") ++ " 28800 7200 604800 86400", false)]
       (Some 86400)]
    (match nameservers with Some ns => ns | None => [] end).

End Program.

Unset Implicit Arguments.

Arguments CallPDNSApiClient {Client Api Server} api_endpoint api_key.
Arguments CallPDNSEndpoint {Client Api Server} c.
Arguments CallServers {Client Api Server} a.
Arguments CallZones {Client Api Server} srv.
Arguments CallGetZone {Client Api Server} srv zone_id.
Arguments CallDetails {Client Api Server} zone.
Arguments CallCreateZone {Client Api Server} srv name kind rrsets nameservers.
Arguments CallDeleteZone {Client Api Server} srv zone_id.
Arguments CallCreateRecords {Client Api Server} zone rrsets.
Arguments CallDeleteRecords {Client Api Server} zone rrsets.
Arguments spec_create_zone_call {Client Api Server} srv name kind nameservers today.
Arguments notify {W Client Api Server} msg sev.
Arguments date_today {W Client Api Server}.
Arguments update {W Client Api Server} self f.
Arguments attr {W Client Api Server A} self f.

(* ------------------------------------------------------------------ *)
(** ** A small installation to run the programs on

    Two servers, [a.example] and [b.example].  The remote state is the
    list of the URLs that are down, of servers or of zone documents; a
    call to what is down raises the library's error. *)

Module Demo.

Definition url_a : string := "http://a.example:8081/api/v1".
Definition url_b : string := "http://b.example:8081/api/v1".

Definition down (srv : string) (w : list string) : bool :=
  existsb (String.eqb srv) w.

Definition unavailable : exn := Exc "PDNSError" "503 Service Unavailable".

Definition rrset_a : RRSetDoc :=
  {| rs_name := Some "a."; rs_type := Some "A"; rs_ttl := Some 300;
     rs_records := Some [ {| r_content := Some "1.1.1.1"; r_disabled := None |} ] |}.

Definition rrset_b : RRSetDoc :=
  {| rs_name := Some "b."; rs_type := Some "TXT"; rs_ttl := Some 60;
     rs_records := Some [ {| r_content := Some "hi"; r_disabled := None |};
                          {| r_content := Some "bye"; r_disabled := Some true |} ] |}.

Definition zone_com : RemoteZone :=
  {| zone_name := "example.com."; zone_url := url_a ++ "/zones/example.com." |}.

Definition zone_org : RemoteZone :=
  {| zone_name := "example.org."; zone_url := url_a ++ "/zones/example.org." |}.

Definition zone_net : RemoteZone :=
  {| zone_name := "example.net."; zone_url := url_b ++ "/zones/example.net." |}.

(** The zone documents. *)
Definition details_com : Details :=
  {| d_kind := Some "Native"; d_serial := Some 2024010100;
     d_notified_serial := None;
     d_rrsets := Some [rrset_a; rrset_b] |}.

Definition details_org : Details :=
  {| d_kind := None; d_serial := None;
     d_notified_serial := None; d_rrsets := None |}.

Definition details_net : Details :=
  {| d_kind := Some "Master"; d_serial := Some 7;
     d_notified_serial := Some 7; d_rrsets := Some [] |}.

Definition details_at (url : string) : Details :=
  if String.eqb url (zone_url zone_com) then details_com
  else if String.eqb url (zone_url zone_net) then details_net
  else details_org.

Definition zones_on (srv : string) : list RemoteZone :=
  if String.eqb srv url_a then [zone_com; zone_org]
  else if String.eqb srv url_b then [zone_net]
  else [].

Definition answer {A} (srv : string) (a : A) (w : list string)
  : (exn + A) * list string :=
  if down srv w then (inl unavailable, w) else (inr a, w).

(** A zone document cannot be read when the server, or the document
    itself, is among what is down. *)
Definition unreachable (url : string) (w : list string) : bool :=
  existsb (fun d => String.prefix d url) w.

Definition transport : Transport (list string) string string string :=
  {| t_PDNSApiClient := fun url _ w => (inr url, w);
     t_PDNSEndpoint := fun c w => (inr c, w);
     t_servers := fun a => answer a [a];
     t_zones := fun srv => answer srv (zones_on srv);
     t_get_zone := fun srv id =>
       answer srv (find (fun z => String.eqb (zone_name z) id) (zones_on srv));
     t_details := fun zone w =>
       if unreachable (zone_url zone) w then (inl unavailable, w)
       else (inr (details_at (zone_url zone)), w);
     t_create_zone := fun srv _ _ _ _ => answer srv None;
     t_delete_zone := fun srv _ => answer srv tt;
     t_create_records := fun _ _ w => (inr tt, w);
     t_delete_records := fun _ _ w => (inr tt, w) |}.

Definition mgr (name host : string) : PDNSManager string string string :=
  {| m_name := name; m_url := "http://" ++ host ++ ":8081";
     m_api_key := "secret";
     m_client := Some ("http://" ++ host ++ ":8081/api/v1");
     m_api := Some ("http://" ++ host ++ ":8081/api/v1");
     m_api_server := Some ("http://" ++ host ++ ":8081/api/v1");
     m_connected := true; m_fqdn := host |}.

Definition managers_heap (r : ref) : PDNSManager string string string :=
  match r with
  | O => mgr "A" "a.example"
  | _ => mgr "B" "b.example"
  end.

(** 2024-01-01 23:00:00 UTC, read in a zone two hours ahead of UTC. *)
Definition late_evening : Clock :=
  {| posix_time := 1704150000; utc_offset := 7200 |}.

Definition system (servers_down : list string) : Sys (list string) string string string :=
  {| world := servers_down; calls := []; clock := late_evening;
     heap := managers_heap |}.

(** Both managers connected, the details screen on [example.com.] of
    server A. *)
Definition state (servers_down : list string) : St (list string) string string string :=
  {| sys := system servers_down;
     notifications := [];
     zones_screen := {| managers := [0%nat; 1%nat]; all_zones := [];
                        zones_table := [] |};
     details_screen := new_details_screen 0%nat "example.com." "example.com." |}.

(** The same with the zones screen on manager A alone. *)
Definition state_a (servers_down : list string) : St (list string) string string string :=
  {| sys := system servers_down;
     notifications := [];
     zones_screen := {| managers := [0%nat]; all_zones := []; zones_table := [] |};
     details_screen := new_details_screen 0%nat "example.com." "example.com." |}.

(** A row of the records table of [example.com.]. *)
Definition row_hi : record_row :=
  {| rec_name := "b."; rec_type := "TXT"; rec_content := "hi";
     rec_ttl := 60; rec_disabled := false; rec_rrset := rrset_b |}.

Definition row_bye : record_row :=
  {| rec_name := "b."; rec_type := "TXT"; rec_content := "bye";
     rec_ttl := 60; rec_disabled := true; rec_rrset := rrset_b |}.

End Demo.

(* ------------------------------------------------------------------ *)
(** ** More built-ins *)

(** [l[i]] on a list: an index below zero counts from the end; [None]
    stands for [IndexError]. *)
Definition py_index {A} (l : list A) (i : Z) : option A :=
  if 0 <=? i then nth_error l (Z.to_nat i)
  else if - Z.of_nat (length l) <=? i
       then nth_error l (Z.to_nat (Z.of_nat (length l) + i))
       else None.

(** [s.split(sep)] for a separator of one character *)
Fixpoint py_split (sep : ascii) (s : string) : list string :=
  match s with
  | EmptyString => [EmptyString]
  | String c s' =>
      if Ascii.eqb c sep then EmptyString :: py_split sep s'
      else match py_split sep s' with
           | piece :: pieces => String c piece :: pieces
           | [] => [String c EmptyString]
           end
  end.

(** [sep.join(l)] *)
Fixpoint py_join (sep : string) (l : list string) : string :=
  match l with
  | [] => EmptyString
  | [x] => x
  | x :: l' => x ++ sep ++ py_join sep l'
  end.

(** [KeyError(key)], whose message is the key between quotes. *)
Definition KeyError (key : string) : exn := Exc "KeyError" ("'" ++ key ++ "'").

(* ------------------------------------------------------------------ *)
(** ** class Config *)

(** An entry of [config_data['servers']]; every key may be absent. *)
Record ServerDoc := {
  sd_name : option string;
  sd_url : option string;
  sd_api_key : option string
}.

(** The document of the configuration file: its key [servers], and whether
    it has other keys. *)
Record ConfigDoc := {
  cd_servers : option (list ServerDoc);
  cd_other_keys : bool
}.

(** An entry of [Config.servers]. *)
Record server_entry := { se_name : string; se_url : string; se_api_key : string }.

(** [server[key]] *)
Definition required {S} (key : string) (field : option string) : M S string :=
  match field with
  | Some v => ret v
  | None => raise (KeyError key)
  end.

(** The body of [Config.__init__], on [self.servers]. *)
Definition Config_init (config_data : option ConfigDoc)
    (url api_key : option string) : M (list server_entry) unit :=
  match config_data with
  | Some doc =>
      if match cd_servers doc with Some _ => true | None => cd_other_keys doc end
      then
        for_each (get_default (cd_servers doc) []) (fun server =>
          let name := get_default (sd_name server) "Unnamed Server" in
          url <- required "url" (sd_url server) ;;
          api_key <- required "api_key" (sd_api_key server) ;;
          modify (fun servers =>
                    (servers ++ [{| se_name := name; se_url := url;
                                    se_api_key := api_key |}])%list))
      else
        match url, api_key with
        | Some url, Some api_key =>
            when (Py.truthy url && Py.truthy api_key)
              (modify (fun servers =>
                         (servers ++ [{| se_name := "Default Server"; se_url := url;
                                         se_api_key := api_key |}])%list))
        | _, _ => ret tt
        end
  | None =>
      match url, api_key with
      | Some url, Some api_key =>
          when (Py.truthy url && Py.truthy api_key)
            (modify (fun servers =>
                       (servers ++ [{| se_name := "Default Server"; se_url := url;
                                       se_api_key := api_key |}])%list))
      | _, _ => ret tt
      end
  end.

(** [Config(config_data, url, api_key)]: the servers of the object made,
    or the exception the constructor ends with. *)
Definition Config (config_data : option ConfigDoc) (url api_key : option string)
  : exn + list server_entry :=
  match Config_init config_data url api_key [] with
  | (inr _, servers) => inr servers
  | (inl e, _) => inl e
  end.

(** [Config.from_file(filepath)], [loaded] being what [open] and
    [yaml.safe_load] made of the file. *)
Definition from_file (loaded : exn + option ConfigDoc) : exn + list server_entry :=
  match loaded with
  | inl e => inl e
  | inr config_data => Config config_data None None
  end.

(** [Config.from_args(url, api_key)] *)
Definition from_args (url api_key : string) : exn + list server_entry :=
  Config None (Some url) (Some api_key).

(* ------------------------------------------------------------------ *)
(** ** class CreateZoneModal *)

(** The dictionary [CreateZoneModal] is dismissed with. *)
Record CreateZoneResult := {
  cz_name : string;
  cz_kind : string;
  cz_nameservers : list string;
  cz_server_idx : Z
}.

Module CreateZoneModal.

(** The values of the modal's widgets; the server selection is [None]
    as long as nothing is selected. *)
Record widgets := {
  zone_name : string;
  zone_kind : string;
  nameservers : string;
  server_select : option string
}.

(** [[ns.strip() for ns in ns_input.split(",") if ns.strip()]] *)
Definition nameservers_of (ns_input : string) : list string :=
  map Py.strip (filter (fun ns => Py.truthy (Py.strip ns)) (py_split "," ns_input)).

(** The modal of a screen with [n_managers] managers.  [int] of the
    selection raises when nothing is selected or when it is no number. *)
Definition on_button_pressed (n_managers : nat) (button_id : string) (w : widgets)
  : exn + outcome (option CreateZoneResult) :=
  if String.eqb button_id "create-btn" then
    let name := Py.strip (zone_name w) in
    let kind := zone_kind w in
    let ns_input := Py.strip (nameservers w) in
    if negb (Py.truthy name) then
      inr (Stays (Notice "Zone name is required" "error"))
    else
      let nameservers := nameservers_of ns_input in
      if Nat.ltb 1 n_managers then
        match server_select w with
        | None =>
            inl (Exc "TypeError"
                     "int() argument must be a string, a bytes-like object or a real number, not 'NoSelection'")
        | Some server_idx =>
            match Py.int server_idx with
            | None =>
                inl (ValueError ("invalid literal for int() with base 10: '"
                                   ++ server_idx ++ "'"))
            | Some idx =>
                inr (Dismissed (Some {| cz_name := name; cz_kind := kind;
                                        cz_nameservers := nameservers;
                                        cz_server_idx := idx |}))
            end
        end
      else
        inr (Dismissed (Some {| cz_name := name; cz_kind := kind;
                                cz_nameservers := nameservers;
                                cz_server_idx := 0 |}))
  else inr (Dismissed None).

End CreateZoneModal.

(** [EditRecordModal.compose]: the widgets as the modal opens on [record]. *)
Definition edit_modal_compose (record : record_row) : EditRecordModal.widgets :=
  {| EditRecordModal.record_content := rec_content record;
     EditRecordModal.record_ttl := Py.str_int (rec_ttl record) |}.

(* ------------------------------------------------------------------ *)
(** ** The actions of the screens and the application *)

(** [ZonesScreen(managers)] *)
Definition new_zones_screen (ms : list ref) : ZonesScreen :=
  {| managers := ms; all_zones := []; zones_table := [] |}.

Set Implicit Arguments.

Section Application.

Variables W Client Api Server : Type.
Variable T : Transport W Client Api Server.

(** [urlparse(url).hostname or urlparse(url).netloc or url], or the
    exception [urlparse] ends with. *)
Variable urlparse_fqdn : string -> exn + string.

(** [ZoneDetailsScreen.action_delete_record], the cursor of the table
    being on [cursor_row]: the confirmation it pushes, with its message
    and the record its callback holds, if it pushes one. *)
Definition action_delete_record (cursor_row : Z)
  : Prog W Client Api Server (option (string * record_row)) :=
  if cursor_row <? 0 then
    notify "Please select a record to delete" "warning" ;;
    ret None
  else
    rs <- gets (fun s : St W Client Api Server => all_records (details_screen s)) ;;
    match py_index rs cursor_row with
    | None => raise (IndexError "list index out of range")
    | Some record =>
        ret (Some ("Delete record " ++ rec_name record ++ " ("
                     ++ rec_type record ++ ")?", record))
    end.

(** [ZoneDetailsScreen.action_edit_record]: the record the edit dialog
    is pushed for, if it is pushed. *)
Definition action_edit_record (cursor_row : Z)
  : Prog W Client Api Server (option record_row) :=
  if cursor_row <? 0 then
    notify "Please select a record to edit" "warning" ;;
    ret None
  else
    rs <- gets (fun s : St W Client Api Server => all_records (details_screen s)) ;;
    match py_index rs cursor_row with
    | None => raise (IndexError "list index out of range")
    | Some record => ret (Some record)
    end.

(** [ZonesScreen.action_delete_zone] *)
Definition action_delete_zone (cursor_row : Z)
  : Prog W Client Api Server (option (string * zone_data)) :=
  if cursor_row <? 0 then
    notify "Please select a zone to delete" "warning" ;;
    ret None
  else
    zs <- gets (fun s : St W Client Api Server => all_zones (zones_screen s)) ;;
    match py_index zs cursor_row with
    | None => raise (IndexError "list index out of range")
    | Some zone => ret (Some ("Delete zone " ++ zd_name zone ++ "?", zone))
    end.

(** The key [d] pressed on row [cursor_row] of the records table, and
    then the button [button_id] of the confirmation. *)
Definition confirm_delete_record (cursor_row : Z) (button_id : string)
  : Prog W Client Api Server unit :=
  pushed <- action_delete_record cursor_row ;;
  match pushed with
  | None => ret tt
  | Some (_, record) =>
      match ConfirmModal.on_button_pressed button_id with
      | Stays n => modify (with_notification n)
      | Dismissed confirmed => on_delete_record_result T confirmed record
      end
  end.

(** The same on the zones table. *)
Definition confirm_delete_zone (cursor_row : Z) (button_id : string)
  : Prog W Client Api Server unit :=
  pushed <- action_delete_zone cursor_row ;;
  match pushed with
  | None => ret tt
  | Some (_, zone) =>
      match ConfirmModal.on_button_pressed button_id with
      | Stays n => modify (with_notification n)
      | Dismissed confirmed => on_delete_zone_result T confirmed zone
      end
  end.

(** The key [e] pressed on row [cursor_row], the fields of the dialog
    changed by [edit], and then the button [button_id]. *)
Definition edit_record_at (cursor_row : Z)
    (edit : EditRecordModal.widgets -> EditRecordModal.widgets)
    (button_id : string) : Prog W Client Api Server unit :=
  pushed <- action_edit_record cursor_row ;;
  match pushed with
  | None => ret tt
  | Some record =>
      press_edit_record T record button_id (edit (edit_modal_compose record))
  end.

Definition on_create_zone_result (result : option CreateZoneResult)
  : Prog W Client Api Server unit :=
  match result with
  | None => ret tt
  | Some result =>
      try_except
        (ms <- gets (fun s : St W Client Api Server => managers (zones_screen s)) ;;
         manager <- match py_index ms (cz_server_idx result) with
                    | None => raise (IndexError "list index out of range")
                    | Some manager => ret manager
                    end ;;
         lift (create_zone T manager (cz_name result) (cz_kind result)
                           (Some (cz_nameservers result))) ;;
         name <- lift (attr manager (@m_name _ _ _)) ;;
         notify ("Zone " ++ cz_name result ++ " created successfully on " ++ name)
                "information" ;;
         load_zones T)
        (fun e => notify ("Error creating zone: " ++ str e) "error")
  end.

(** One button press on the dialog [action_create_zone] pushed with
    [on_create_zone_result] as its callback. *)
Definition press_create_zone (button_id : string) (w : CreateZoneModal.widgets)
  : Prog W Client Api Server unit :=
  ms <- gets (fun s : St W Client Api Server => managers (zones_screen s)) ;;
  match CreateZoneModal.on_button_pressed (length ms) button_id w with
  | inl e => raise e
  | inr (Stays n) => modify (with_notification n)
  | inr (Dismissed result) => on_create_zone_result result
  end.

(** [ZonesScreen.on_mount], the set-up of the table's columns left out. *)
Definition zones_on_mount : Prog W Client Api Server unit := load_zones T.

(** [ZoneDetailsScreen.action_back]: the zones screen is the one below. *)
Definition action_back : Prog W Client Api Server unit := load_zones T.

(** class PowerDNSTUI *)
Record PowerDNSTUI := {
  config : list server_entry;
  tui_managers : list ref
}.

(** The application: its own attributes, the next free reference for a
    new object, and the rest of the state. *)
Record AppSt := {
  app : PowerDNSTUI;
  next_ref : ref;
  st : St W Client Api Server
}.

Definition with_st (s : St W Client Api Server) (a : AppSt) : AppSt :=
  {| app := app a; next_ref := next_ref a; st := s |}.

(** A method of a screen or, through it, of a manager, called from the
    application. *)
Definition lift_st {A} (p : Prog W Client Api Server A) : M AppSt A :=
  fun a => let (r, s) := p (st a) in (r, with_st s a).

(** [PDNSManager(url=..., api_key=..., name=...)]: a new object. *)
Definition PDNSManager_init (url api_key name : string) : M AppSt ref :=
  match urlparse_fqdn url with
  | inl e => raise e
  | inr fqdn =>
      r <- gets next_ref ;;
      modify (fun a =>
                {| app := app a; next_ref := S (next_ref a);
                   st := with_sys (with_manager r
                                     (new_manager Client Api Server url api_key name fqdn)
                                     (sys (st a)))
                                  (st a) |}) ;;
      ret r
  end.

(** [self.managers.append(manager)] *)
Definition append_manager (r : ref) : M AppSt unit :=
  modify (fun a =>
            {| app := {| config := config (app a);
                         tui_managers := tui_managers (app a) ++ [r] |};
               next_ref := next_ref a; st := st a |}).

(** [PowerDNSTUI.on_mount]; the screen pushed is mounted at once. *)
Definition app_on_mount : M AppSt unit :=
  try_except
    (servers <- gets (fun a => config (app a)) ;;
     for_each servers (fun server =>
       try_except
         (manager <- PDNSManager_init (se_url server) (se_api_key server)
                                      (se_name server) ;;
          lift_st (lift (connect T manager)) ;;
          append_manager manager ;;
          lift_st (notify ("Connected to " ++ se_name server) "information"))
         (fun e =>
            lift_st (notify ("Failed to connect to " ++ se_name server ++ ": "
                               ++ str e) "error"))) ;;
     ms <- gets (fun a => tui_managers (app a)) ;;
     match ms with
     | [] =>
         lift_st (notify "No servers connected. Please check your configuration."
                         "error")
     | _ :: _ =>
         lift_st (modify (with_zones_screen (new_zones_screen ms))) ;;
         lift_st zones_on_mount
     end)
    (fun e => lift_st (notify ("Error during initialization: " ++ str e) "error")).

End Application.

Unset Implicit Arguments.

Arguments action_delete_record {W Client Api Server} cursor_row.
Arguments action_edit_record {W Client Api Server} cursor_row.
Arguments action_delete_zone {W Client Api Server} cursor_row.

(** A state of the application, as it starts on [servers]. *)
Definition app_start {W Client Api Server} (servers : list server_entry)
    (s : St W Client Api Server) (fresh : ref) : AppSt W Client Api Server :=
  {| app := {| config := servers; tui_managers := [] |};
     next_ref := fresh; st := s |}.

(** The rows of the records table for an entry of [all_records]. *)
Definition record_table_row (record : record_row) : list string :=
  [rec_name record; rec_type record; shown_content (rec_content record);
   Py.str_int (rec_ttl record); yes_no (rec_disabled record)].

(** What the search of the records screen looks for. *)
Definition record_matches (search_term : string) (record : record_row) : bool :=
  Py.contains (Py.lower search_term) (Py.lower (rec_name record))
  || Py.contains (Py.lower search_term) (Py.lower (rec_type record))
  || Py.contains (Py.lower search_term) (Py.lower (rec_content record)).

(** What the search of the zones screen looks for. *)
Definition zone_matches {Client Api Server}
    (h : ref -> PDNSManager Client Api Server) (search_term : string)
    (zone : zone_data) : bool :=
  Py.contains (Py.lower search_term) (Py.lower (zd_name zone))
  || Py.contains (Py.lower search_term) (Py.lower (zd_kind zone))
  || Py.contains (Py.lower search_term) (Py.lower (m_name (h (zd_manager zone))))
  || Py.contains (Py.lower search_term) (Py.lower (m_fqdn (h (zd_manager zone)))).

(** The entries of [all_records] that a record-set of the zone document
    gives: one for each of its records. *)
Definition rows_of_rrset (rrset : RRSetDoc) : list record_row :=
  map (fun record =>
         {| rec_name := get_default (rs_name rrset) "";
            rec_type := get_default (rs_type rrset) "";
            rec_content := get_default (r_content record) "";
            rec_ttl := get_default (rs_ttl rrset) 3600;
            rec_disabled := get_default (r_disabled record) false;
            rec_rrset := rrset |})
      (get_default (rs_records rrset) []).

(** The row [load_records] shows for an entry it made. *)
Definition loaded_record_row (record : record_row) : list string :=
  [rec_name record; rec_type record; shown_content (rec_content record);
   match rs_ttl (rec_rrset record) with
   | Some ttl => Py.str_int ttl
   | None => ""
   end;
   yes_no (rec_disabled record)].

(** Whether every character of a string passes a test. *)
Fixpoint string_forall (p : ascii -> bool) (s : string) : bool :=
  match s with
  | EmptyString => true
  | String c s' => p c && string_forall p s'
  end.

Definition no_space (s : string) : bool :=
  string_forall (fun c => negb (Py.is_space c)) s.

Definition no_comma (s : string) : bool :=
  string_forall (fun c => negb (Ascii.eqb c ",")) s.

(** A name as it is written in a list of nameservers: not empty, without
    white space and without comma. *)
Definition plain_name (s : string) : bool :=
  Py.truthy s && no_space s && no_comma s.

(** The installation before manager A has connected. *)
Module Offline.

Definition managers_heap (r : ref) : PDNSManager string string string :=
  match r with
  | O => {| m_name := "A"; m_url := "http://a.example:8081";
            m_api_key := "secret"; m_client := None; m_api := None;
            m_api_server := None; m_connected := false;
            m_fqdn := "a.example" |}
  | _ => Demo.mgr "B" "b.example"
  end.

Definition system (servers_down : list string)
  : Sys (list string) string string string :=
  {| world := servers_down; calls := []; clock := Demo.late_evening;
     heap := managers_heap |}.

End Offline.

(** The details screen [d] with another zone object, other records and
    another table. *)
Definition loaded_screen (d : ZoneDetailsScreen) (z : option RemoteZone)
    (rs : list record_row) (table : list (list string)) : ZoneDetailsScreen :=
  {| manager := manager d; zone_id := zone_id d;
     screen_zone_name := screen_zone_name d; zone := z;
     all_records := rs; records_table := table |}.

(** The state [s] with the managers' side [y] and the details screen
    changed as above. *)
Definition loaded_state {W Client Api Server} (s : St W Client Api Server)
    (y : Sys W Client Api Server) (z : option RemoteZone)
    (rs : list record_row) (table : list (list string)) : St W Client Api Server :=
  {| sys := y; notifications := notifications s;
     zones_screen := zones_screen s;
     details_screen := loaded_screen (details_screen s) z rs table |}.

(** The state [s] with another table on the zones screen. *)
Definition zones_shown {W Client Api Server} (s : St W Client Api Server)
    (table : list (list string)) : St W Client Api Server :=
  {| sys := sys s; notifications := notifications s;
     zones_screen := {| managers := managers (zones_screen s);
                        all_zones := all_zones (zones_screen s);
                        zones_table := table |};
     details_screen := details_screen s |}.

(** Every manager of the application is an object made before now and
    is connected. *)
Definition managers_connected {W Client Api Server}
    (a : AppSt W Client Api Server) : Prop :=
  Forall (fun r => (r < next_ref a)%nat
                   /\ m_connected (heap (sys (st a)) r) = true)
         (tui_managers (app a)).

(** The configuration of the two servers of the installation, and a
    [urlparse] for their URLs. *)
Module Startup.

Definition servers : list server_entry :=
  [{| se_name := "A"; se_url := "http://a.example:8081"; se_api_key := "secret" |};
   {| se_name := "B"; se_url := "http://b.example:8081"; se_api_key := "secret" |}].

Definition urlparse_fqdn (url : string) : exn + string :=
  if String.eqb url "http://a.example:8081" then inr "a.example"
  else if String.eqb url "http://b.example:8081" then inr "b.example"
  else inr url.

(** The application before it is mounted, no manager made yet. *)
Definition state (servers_down : list string)
  : AppSt (list string) string string string :=
  app_start servers (Demo.state servers_down) 2%nat.

End Startup.

(** What [Config.__init__] makes of an entry of the document. *)
Definition entry_made_of (server : ServerDoc) (entry : server_entry) : Prop :=
  sd_url server = Some (se_url entry)
  /\ sd_api_key server = Some (se_api_key entry)
  /\ se_name entry = get_default (sd_name server) "Unnamed Server".

(** An entry of the document that lacks a key [Config.__init__] reads
    without a default. *)
Definition incomplete (server : ServerDoc) : Prop :=
  sd_url server = None \/ sd_api_key server = None.

(* ------------------------------------------------------------------ *)
(** ** Properties of programs and of runs *)

(** [p] leaves the observation [obs] of the state as it found it. *)
Definition preserves {S X A} (obs : S -> X) (p : M S A) : Prop :=
  forall s, obs (snd (p s)) = obs s.

(** Strings of decimal digits. *)
Definition is_digit (c : ascii) : bool :=
  match Py.digit_of c with Some _ => true | None => false end.

Fixpoint all_digits (s : string) : bool :=
  match s with
  | EmptyString => true
  | String c s' => is_digit c && all_digits s'
  end.

(** The mutating calls made so far, seen from a manager and from a
    screen. *)
Definition sys_mutations {W Client Api Server}
    (y : Sys W Client Api Server) : list (Call Client Api Server) :=
  mutations (calls y).

Definition app_mutations {W Client Api Server}
    (s : St W Client Api Server) : list (Call Client Api Server) :=
  mutations (calls (sys s)).

(** The errors this module raises for the manager called [name]. *)
Definition domain_error (name : string) (e : exn) : Prop :=
  exists prefix cause,
    In prefix ["Failed to connect to " ++ name ++ ": ";
               "Failed to get zones: ";
               "Failed to create zone: ";
               "Failed to delete zone: "]
    /\ e = Exception (prefix ++ str cause).

(** The zone creation of the specification, the serial being made of the
    date [today] reads off the clock: what [create_zone] does for a manager
    that is connected, or connects, to [srv]. *)
Definition create_zone_submits {W Client Api Server}
    (T : Transport W Client Api Server) (today : Clock -> date) (self : ref)
    (name kind : string) (nameservers : option (list string))
    (y : Sys W Client Api Server) : Prop :=
  forall y1 srv,
    ensure_connected T self y = (inr tt, y1) ->
    m_api_server (heap y1 self) = Some srv ->
    calls (snd (create_zone T self name kind nameservers y))
    = (calls y1
         ++ [spec_create_zone_call srv name kind nameservers (today (clock y1))])%list.

(* ------------------------------------------------------------------ *)
(** ** Facts on the built-ins *)

Example endswith_dot : Py.endswith "example.com." "." = true.
Proof. reflexivity. Qed.

Example endswith_empty : Py.endswith "abc" "" = true.
Proof. reflexivity. Qed.

Example contains_empty : Py.contains "" "abc" = true.
Proof. reflexivity. Qed.

Example lower_mixed : Py.lower "Example.COM." = "example.com.".
Proof. reflexivity. Qed.

Example strip_both : Py.strip "  36 00  " = "36 00".
Proof. reflexivity. Qed.

Example int_plain : Py.int "3600" = Some 3600.
Proof. reflexivity. Qed.

Example int_signed : Py.int " -1_000 " = Some (-1000).
Proof. reflexivity. Qed.

Example int_letters : Py.int "abc" = None.
Proof. reflexivity. Qed.

Example int_empty : Py.int "" = None.
Proof. reflexivity. Qed.

Example int_double_underscore : Py.int "1__0" = None.
Proof. reflexivity. Qed.

Example zero_pad_day : Py.zero_pad 2 7 = "07".
Proof. reflexivity. Qed.

Example civil_epoch : civil_from_days 0 = Date 1970 1 1.
Proof. reflexivity. Qed.

Example civil_leap_day : civil_from_days 19782 = Date 2024 2 29.
Proof. reflexivity. Qed.

Example yyyymmdd_example : yyyymmdd (Date 2024 2 9) = "20240209".
Proof. reflexivity. Qed.

Lemma endswith_cons (c : ascii) (s suffix : string) :
  Py.endswith (String c s) suffix
  = if String.eqb (String c s) suffix then true else Py.endswith s suffix.
Proof. reflexivity. Qed.

Lemma endswith_iff (s suffix : string) :
  Py.endswith s suffix = true <-> exists p, s = p ++ suffix.
Proof.
  induction s as [|c s IH].
  - destruct suffix as [|d t]; simpl; split; intro H.
    + exists ""; reflexivity.
    + reflexivity.
    + discriminate.
    + destruct H as [[|q p] H]; simpl in H; discriminate.
  - rewrite endswith_cons.
    destruct (String.eqb (String c s) suffix) eqn:E.
    + apply String.eqb_eq in E. split; [|reflexivity].
      intros _. exists "". exact E.
    + split.
      * intro H. apply IH in H. destruct H as [p ->].
        exists (String c p). reflexivity.
      * intros [[|q p] H]; simpl in H.
        -- rewrite <- H, String.eqb_refl in E. discriminate.
        -- injection H as _ ->. apply IH. exists p. reflexivity.
Qed.

Lemma endswith_false_iff (s suffix : string) :
  Py.endswith s suffix = false <-> ~ exists p, s = p ++ suffix.
Proof.
  rewrite <- endswith_iff. destruct (Py.endswith s suffix); split; intro H.
  - discriminate.
  - exfalso. apply H. reflexivity.
  - intro; discriminate.
  - reflexivity.
Qed.

Lemma string_app_assoc (a b c : string) : (a ++ b) ++ c = a ++ (b ++ c).
Proof. induction a as [|x a IH]; simpl; [reflexivity | rewrite IH; reflexivity]. Qed.

Lemma string_app_nil_r (a : string) : a ++ "" = a.
Proof. induction a as [|x a IH]; simpl; [reflexivity | rewrite IH; reflexivity]. Qed.

Lemma rstrip_cons (c : ascii) (s : string) :
  Py.rstrip (String c s)
  = match Py.rstrip s with
    | EmptyString => if Py.is_space c then EmptyString else String c EmptyString
    | r => String c r
    end.
Proof. reflexivity. Qed.

Lemma rstrip_idempotent (s : string) : Py.rstrip (Py.rstrip s) = Py.rstrip s.
Proof.
  induction s as [|c s IH]; [reflexivity|].
  rewrite rstrip_cons. destruct (Py.rstrip s) as [|d r] eqn:E.
  - destruct (Py.is_space c) eqn:Hc; [reflexivity|].
    rewrite rstrip_cons. simpl. rewrite Hc. reflexivity.
  - rewrite rstrip_cons, IH. reflexivity.
Qed.

(** A string that does not start with a space keeps its first character
    under [rstrip], so there is nothing for [lstrip] to remove. *)
Lemma lstrip_rstrip_lstrip (s : string) :
  Py.lstrip (Py.rstrip (Py.lstrip s)) = Py.rstrip (Py.lstrip s).
Proof.
  induction s as [|c s IH]; [reflexivity|].
  simpl Py.lstrip at 2 3. destruct (Py.is_space c) eqn:Hc; [exact IH|].
  rewrite rstrip_cons. destruct (Py.rstrip s); rewrite ?Hc; simpl; rewrite Hc; reflexivity.
Qed.

Lemma strip_idempotent (s : string) : Py.strip (Py.strip s) = Py.strip s.
Proof.
  unfold Py.strip. rewrite lstrip_rstrip_lstrip. apply rstrip_idempotent.
Qed.

(** [int] skips the surrounding spaces itself. *)
Lemma int_strip (s : string) : Py.int (Py.strip s) = Py.int s.
Proof. unfold Py.int. rewrite strip_idempotent. reflexivity. Qed.

Lemma contains_empty_needle (hay : string) : Py.contains "" hay = true.
Proof. destruct hay; reflexivity. Qed.

Lemma lower_empty : Py.lower "" = "".
Proof. reflexivity. Qed.

Lemma truthy_iff (s : string) : Py.truthy s = true <-> s <> "".
Proof.
  destruct s; simpl; split; intro H; try reflexivity; try discriminate.
  exfalso. apply H. reflexivity.
Qed.

(** The fields of [strftime] have their width and are made of digits. *)
Lemma zero_pad_field (width : nat) (bound : nat) (n : Z) :
  forallb (fun k => Nat.eqb (String.length (Py.zero_pad width (Z.of_nat k))) width
                    && all_digits (Py.zero_pad width (Z.of_nat k)))
          (seq 0 bound) = true ->
  0 <= n < Z.of_nat bound ->
  String.length (Py.zero_pad width n) = width
  /\ all_digits (Py.zero_pad width n) = true.
Proof.
  intros Hall Hn. rewrite forallb_forall in Hall.
  specialize (Hall (Z.to_nat n)). rewrite Z2Nat.id in Hall by lia.
  apply andb_true_iff in Hall.
  - destruct Hall as [Hl Hd]. apply Nat.eqb_eq in Hl. split; assumption.
  - apply in_seq. lia.
Qed.

Lemma string_length_app (a b : string) :
  String.length (a ++ b) = (String.length a + String.length b)%nat.
Proof. induction a as [|c a IH]; simpl; [reflexivity | rewrite IH; reflexivity]. Qed.

Lemma all_digits_app (a b : string) :
  all_digits (a ++ b) = all_digits a && all_digits b.
Proof.
  induction a as [|c a IH]; simpl; [reflexivity|].
  rewrite IH. apply andb_assoc.
Qed.

(** A date of the calendar is printed as eight digits. *)
Lemma yyyymmdd_format (d : date) :
  0 <= year d <= 9999 -> 1 <= month d <= 12 -> 1 <= day d <= 31 ->
  String.length (yyyymmdd d) = 8%nat /\ all_digits (yyyymmdd d) = true.
Proof.
  intros Hy Hm Hd. unfold yyyymmdd.
  destruct (zero_pad_field 4 (Z.to_nat 10000) (year d)) as [Ly Dy];
    [vm_compute; reflexivity | lia |].
  destruct (zero_pad_field 2 (Z.to_nat 32) (month d)) as [Lm Dm];
    [vm_compute; reflexivity | lia |].
  destruct (zero_pad_field 2 (Z.to_nat 32) (day d)) as [Ld Dd];
    [vm_compute; reflexivity | lia |].
  rewrite !string_length_app, !all_digits_app, Ly, Lm, Ld, Dy, Dm, Dd.
  split; reflexivity.
Qed.

(* ------------------------------------------------------------------ *)
(** ** Facts on programs *)

Section Monad.

Context {S X : Type} (obs : S -> X).

Lemma preserves_ret {A} (a : A) : preserves obs (ret a).
Proof. intro s. reflexivity. Qed.

Lemma preserves_raise {A} (e : exn) : preserves obs (@raise S A e).
Proof. intro s. reflexivity. Qed.

Lemma preserves_gets {A} (f : S -> A) : preserves obs (gets f).
Proof. intro s. reflexivity. Qed.

Lemma preserves_modify (f : S -> S) :
  (forall s, obs (f s) = obs s) -> preserves obs (modify f).
Proof. intros H s. apply H. Qed.

Lemma preserves_bind {A B} (m : M S A) (f : A -> M S B) :
  preserves obs m -> (forall a, preserves obs (f a)) ->
  preserves obs (bind m f).
Proof.
  intros Hm Hf s. unfold bind. specialize (Hm s).
  destruct (m s) as [[e|a] s1]; simpl in *.
  - exact Hm.
  - rewrite Hf. exact Hm.
Qed.

Lemma preserves_try_except {A} (body : M S A) (handler : exn -> M S A) :
  preserves obs body -> (forall e, preserves obs (handler e)) ->
  preserves obs (try_except body handler).
Proof.
  intros Hb Hh s. unfold try_except. specialize (Hb s).
  destruct (body s) as [[e|a] s1]; simpl in *.
  - rewrite Hh. exact Hb.
  - exact Hb.
Qed.

Lemma preserves_for_each {A} (xs : list A) (body : A -> M S unit) :
  (forall x, preserves obs (body x)) -> preserves obs (for_each xs body).
Proof.
  intro H. induction xs as [|x xs IH]; simpl.
  - apply preserves_ret.
  - apply preserves_bind; [apply H | intros _; exact IH].
Qed.

Lemma preserves_when (c : bool) (body : M S unit) :
  preserves obs body -> preserves obs (when c body).
Proof. intro H. destruct c; simpl; [exact H | apply preserves_ret]. Qed.

End Monad.

(** Splits a compound program into its statements. *)
Ltac effects :=
  repeat first
    [ apply preserves_ret | apply preserves_raise | apply preserves_gets
    | apply preserves_bind; [|intro]
    | apply preserves_try_except; [|intro]
    | apply preserves_for_each; intro
    | apply preserves_when
    | apply preserves_modify; intro; reflexivity
    | match goal with
      | |- preserves _ (match ?x with _ => _ end) => destruct x
      | |- preserves _ (if ?x then _ else _) => destruct x
      end ].

(* ------------------------------------------------------------------ *)
(** ** The gateway: class PDNSManager *)

Section Gateway_facts.

Variables W Client Api Server : Type.
Variable T : Transport W Client Api Server.

#[local] Abbreviation Sys := (Sys W Client Api Server).
#[local] Abbreviation St := (St W Client Api Server).

Lemma mutations_app (cs ds : list (Call Client Api Server)) :
  mutations (cs ++ ds) = (mutations cs ++ mutations ds)%list.
Proof. apply filter_app. Qed.

Lemma preserves_call {A} (c : Call Client Api Server) (op : W -> (exn + A) * W) :
  mutating c = false -> preserves sys_mutations (call c op).
Proof.
  intros Hc y. unfold call, sys_mutations.
  destruct (op (world y)) as [r w]. simpl.
  rewrite mutations_app. simpl. unfold mutations at 2. simpl. rewrite Hc.
  apply app_nil_r.
Qed.

Lemma preserves_update (self : ref)
    (f : PDNSManager Client Api Server -> PDNSManager Client Api Server) :
  preserves sys_mutations (update (W:=W) self f).
Proof. apply preserves_modify. reflexivity. Qed.

Lemma preserves_attr {A} (self : ref) (f : PDNSManager Client Api Server -> A) :
  preserves sys_mutations (attr (W:=W) self f).
Proof. apply preserves_gets. Qed.

Ltac gateway_effects :=
  repeat first
    [ apply preserves_update | apply preserves_attr
    | apply preserves_call; reflexivity
    | progress effects ].

Lemma preserves_connect (self : ref) : preserves sys_mutations (connect T self).
Proof. unfold connect, api_servers. gateway_effects. Qed.

Lemma preserves_ensure_connected (self : ref) :
  preserves sys_mutations (ensure_connected T self).
Proof.
  unfold ensure_connected. gateway_effects.
Qed.

Lemma preserves_get_zones (self : ref) :
  preserves sys_mutations (get_zones T self).
Proof.
  unfold get_zones, the_api_server.
  apply preserves_bind; [apply preserves_ensure_connected | intro].
  gateway_effects.
Qed.

Lemma preserves_get_zone (self : ref) (zone_id : string) :
  preserves sys_mutations (get_zone T self zone_id).
Proof.
  unfold get_zone, the_api_server.
  apply preserves_bind; [apply preserves_ensure_connected | intro].
  gateway_effects.
Qed.

(** Reading the details of a zone is no mutating call. *)
Lemma preserves_zone_details (zone : RemoteZone) :
  preserves sys_mutations (zone_details T zone).
Proof. unfold zone_details. gateway_effects. Qed.

Lemma preserves_zone_data_of (manager : ref) (zone : RemoteZone) :
  preserves sys_mutations (zone_data_of T manager zone).
Proof. unfold zone_data_of, zone_details. gateway_effects. Qed.

(** A manager that is connected goes straight to its server. *)
Lemma ensure_connected_connected (self : ref) (y : Sys) :
  m_connected (heap y self) = true ->
  ensure_connected T self y = (inr tt, y).
Proof.
  intro H. unfold ensure_connected, bind, attr, gets. rewrite H. reflexivity.
Qed.

Lemma the_api_server_some (self : ref) (attribute : string) (y : Sys) srv :
  m_api_server (heap y self) = Some srv ->
  the_api_server self attribute y = (inr srv, y).
Proof.
  intro H. unfold the_api_server, bind, attr, gets. rewrite H. reflexivity.
Qed.

(** What [get_zone] does on a connected manager: one call, whose outcome
    is the outcome of [get_zone], a raised exception included. *)
Lemma get_zone_connected (self : ref) (zone_id : string) (y : Sys) srv :
  m_connected (heap y self) = true ->
  m_api_server (heap y self) = Some srv ->
  get_zone T self zone_id y
  = (fst (t_get_zone T srv zone_id (world y)),
     with_world (snd (t_get_zone T srv zone_id (world y)))
                (CallGetZone srv zone_id) y).
Proof.
  intros Hc Hs. unfold get_zone, bind.
  rewrite ensure_connected_connected by exact Hc.
  rewrite the_api_server_some with (srv := srv) by exact Hs.
  unfold call. destruct (t_get_zone T srv zone_id (world y)) as [r w].
  reflexivity.
Qed.

(** The errors of the other operations are wrapped. *)
Lemma connect_error_wrapped (self : ref) (y : Sys) (e : exn) :
  fst (connect T self y) = inl e ->
  exists cause,
    e = Exception ("Failed to connect to " ++ m_name (heap y self) ++ ": "
                     ++ str cause).
Proof.
  unfold connect, try_except, bind, api_servers, attr, gets, update, modify,
    call, raise, ret.
  repeat (cbn -[append]; rewrite ?Nat.eqb_refl;
          match goal with
          | |- context [match ?x with _ => _ end] =>
              lazymatch x with
              | context [match _ with _ => _ end] => fail
              | _ => destruct x eqn:?
              end
          end);
    cbn -[append]; rewrite ?Nat.eqb_refl; cbn -[append]; intro H;
    try discriminate; inversion H;
    first [ eexists; reflexivity
          | exists (Exception "No servers found"); reflexivity
          | exists (IndexError "list index out of range"); reflexivity
          | exists (none_has_no_attribute "servers"); reflexivity ].
Qed.

Lemma ensure_connected_error (self : ref) (y : Sys) (e : exn) :
  fst (ensure_connected T self y) = inl e ->
  exists cause,
    e = Exception ("Failed to connect to " ++ m_name (heap y self) ++ ": "
                     ++ str cause).
Proof.
  unfold ensure_connected, bind, attr, gets.
  destruct (m_connected (heap y self)); cbn -[append].
  - discriminate.
  - pose proof (connect_error_wrapped self y) as H.
    destruct (connect T self y) as [[e0|b] y1]; cbn -[append] in *.
    + intro E. inversion E; subst. apply H. reflexivity.
    + discriminate.
Qed.

(** [try: body except Exception as e: raise Exception(f"{prefix}{e}")] *)
Lemma rethrown {A} (body : Gateway W Client Api Server A) (prefix : string)
    (y : Sys) (e : exn) :
  fst (try_except body (fun e => raise (Exception (prefix ++ str e))) y) = inl e ->
  exists cause, e = Exception (prefix ++ str cause).
Proof.
  unfold try_except, raise. destruct (body y) as [[e0|a] y1]; cbn -[append].
  - intro E. inversion E. exists e0. reflexivity.
  - discriminate.
Qed.

Lemma guarded_error_wrapped {A} (self : ref)
    (body : Gateway W Client Api Server A) (prefix : string) (y : Sys) (e : exn) :
  In prefix ["Failed to get zones: "; "Failed to create zone: ";
             "Failed to delete zone: "] ->
  fst ((ensure_connected T self ;;
        try_except body (fun e => raise (Exception (prefix ++ str e)))) y)
  = inl e ->
  domain_error (m_name (heap y self)) e.
Proof.
  intros Hp. unfold bind at 1.
  pose proof (ensure_connected_error self y) as Hc.
  destruct (ensure_connected T self y) as [[e0|[]] y1]; cbn -[append] in *.
  - intro E. inversion E; subst.
    destruct (Hc e eq_refl) as [cause ->].
    exists ("Failed to connect to " ++ m_name (heap y self) ++ ": "), cause.
    split; [left; reflexivity | rewrite !string_app_assoc; reflexivity].
  - intro E. apply rethrown in E. destruct E as [cause ->].
    exists prefix, cause. split; [right; exact Hp | reflexivity].
Qed.

Lemma get_zones_error_wrapped (self : ref) (y : Sys) (e : exn) :
  fst (get_zones T self y) = inl e -> domain_error (m_name (heap y self)) e.
Proof. apply guarded_error_wrapped. simpl. auto. Qed.

Lemma create_zone_error_wrapped (self : ref) name kind ns (y : Sys) (e : exn) :
  fst (create_zone T self name kind ns y) = inl e ->
  domain_error (m_name (heap y self)) e.
Proof. apply guarded_error_wrapped. simpl. auto. Qed.

Lemma delete_zone_error_wrapped (self : ref) zone_id (y : Sys) (e : exn) :
  fst (delete_zone T self zone_id y) = inl e ->
  domain_error (m_name (heap y self)) e.
Proof. apply guarded_error_wrapped. simpl. auto. Qed.

Lemma domain_error_class (name : string) (e : exn) :
  domain_error name e -> exn_class e = "Exception".
Proof. intros (prefix & cause & _ & ->). reflexivity. Qed.

(** How [api_url_of] treats the three kinds of URL. *)
Lemma api_url_of_cases (url : string) :
  ((exists p, url = p ++ "/api/v1") -> api_url_of url = url)
  /\ (~ (exists p, url = p ++ "/api/v1") -> (exists p, url = p ++ "/") ->
      api_url_of url = url ++ "api/v1")
  /\ (~ (exists p, url = p ++ "/api/v1") -> ~ (exists p, url = p ++ "/") ->
      api_url_of url = url ++ "/" ++ "api/v1").
Proof.
  unfold api_url_of. repeat split.
  - intro H. apply endswith_iff in H. rewrite H. reflexivity.
  - intros H1 H2. apply endswith_false_iff in H1. apply endswith_iff in H2.
    rewrite H1, H2. reflexivity.
  - intros H1 H2. apply endswith_false_iff in H1, H2.
    rewrite H1, H2. reflexivity.
Qed.

(** The first thing [connect] does is to open the client on the
    normalized URL. *)
Lemma connect_first_call (self : ref) (y : Sys) :
  exists rest,
    calls (snd (connect T self y))
    = (calls y
         ++ CallPDNSApiClient (api_url_of (m_url (heap y self)))
                              (m_api_key (heap y self)) :: rest)%list.
Proof.
  unfold connect, try_except, bind, api_servers, attr, gets, update, modify,
    call, raise, ret.
  repeat (cbn -[append api_url_of]; rewrite ?Nat.eqb_refl;
          match goal with
          | |- context [match ?x with _ => _ end] =>
              lazymatch x with
              | context [match _ with _ => _ end] => fail
              | _ => destruct x eqn:?
              end
          end);
    cbn -[append api_url_of]; rewrite ?Nat.eqb_refl; cbn -[append api_url_of];
    rewrite <- ?app_assoc; eexists; reflexivity.
Qed.

End Gateway_facts.

Arguments connect_first_call {W Client Api Server} T self y.
Arguments the_api_server_some {W Client Api Server} self attribute y srv _.
Arguments ensure_connected_connected {W Client Api Server} T self y _.
Arguments get_zone_connected {W Client Api Server} T self zone_id y srv _ _.
Arguments preserves_get_zone {W Client Api Server} T self zone_id s.
Arguments preserves_get_zones {W Client Api Server} T self s.
Arguments preserves_zone_details {W Client Api Server} T zone s.
Arguments preserves_zone_data_of {W Client Api Server} T manager zone s.
Arguments preserves_ensure_connected {W Client Api Server} T self s.
Arguments preserves_call {W Client Api Server A} c op _ s.
Arguments mutations_app {Client Api Server} cs ds.

(** C1, at a failing input.  Server A answers 503 to every call.  The
    manager's [get_zone] ends with the library's own exception, which is
    not one of the module's errors, where [get_zones] on the same manager
    and server ends with an [Exception] that wraps it. *)
Theorem get_zone_leaks_transport_error :
  fst (get_zone Demo.transport 0%nat "example.com." (Demo.system [Demo.url_a]))
  = inl Demo.unavailable
  /\ ~ domain_error "A" Demo.unavailable
  /\ fst (get_zones Demo.transport 0%nat (Demo.system [Demo.url_a]))
     = inl (Exception ("Failed to get zones: " ++ str Demo.unavailable)).
Proof.
  split; [reflexivity | split; [|reflexivity]].
  intro H. apply domain_error_class in H. discriminate.
Qed.

(** C8: [connect] opens the client on the base URL itself when it ends
    with the API path [/api/v1], and otherwise on the base URL followed by
    [api/v1], with a slash in between exactly when the base URL does not
    end with one. *)
Theorem connect_normalizes_base_url
    {W Client Api Server : Type} (T : Transport W Client Api Server)
    (self : ref) (y : Sys W Client Api Server) :
  exists api_url rest,
    calls (snd (connect T self y))
    = (calls y ++ CallPDNSApiClient api_url (m_api_key (heap y self)) :: rest)%list
    /\ ((exists p, m_url (heap y self) = p ++ "/api/v1") ->
        api_url = m_url (heap y self))
    /\ (~ (exists p, m_url (heap y self) = p ++ "/api/v1") ->
        (exists p, m_url (heap y self) = p ++ "/") ->
        api_url = m_url (heap y self) ++ "api/v1")
    /\ (~ (exists p, m_url (heap y self) = p ++ "/api/v1") ->
        ~ (exists p, m_url (heap y self) = p ++ "/") ->
        api_url = m_url (heap y self) ++ "/" ++ "api/v1").
Proof.
  destruct (connect_first_call T self y) as [rest H].
  exists (api_url_of (m_url (heap y self))), rest.
  split; [exact H | apply api_url_of_cases].
Qed.

Example api_url_bare : api_url_of "https://pdns.example.com:8081"
                       = "https://pdns.example.com:8081/api/v1".
Proof. reflexivity. Qed.

Example api_url_slash : api_url_of "https://pdns.example.com:8081/"
                        = "https://pdns.example.com:8081/api/v1".
Proof. reflexivity. Qed.

Example api_url_complete : api_url_of "https://pdns.example.com:8081/api/v1"
                           = "https://pdns.example.com:8081/api/v1".
Proof. reflexivity. Qed.

(** C5 as the specification has it, with the serial of the UTC date,
    fails: at 23:00 UTC on 2024-01-01, on a machine two hours ahead of UTC,
    the serial submitted is 2024010200. *)
Lemma create_zone_serial_is_not_utc :
  ~ create_zone_submits Demo.transport utc_date 0%nat "new.example." "Native" None
      (Demo.system []).
Proof.
  intro H. specialize (H (Demo.system []) Demo.url_a eq_refl eq_refl).
  vm_compute in H. discriminate H.
Qed.

(** C5, amended: for a manager connected to [srv], [create_zone] submits
    one zone creation for [name] and [kind], with the single SOA record-set
    [ns1.<name> hostmaster.<name> <serial> 28800 7200 604800 86400] of TTL
    86400, the serial being the local date [date.today()] as YYYYMMDD
    followed by [00], and with the nameservers given, or none. *)
Theorem create_zone_submits_default_soa
    {W Client Api Server : Type} (T : Transport W Client Api Server)
    (self : ref) (name kind : string) (nameservers : option (list string))
    (y : Sys W Client Api Server) :
  1 <= year (local_date (clock y)) <= 9999 ->
  create_zone_submits T local_date self name kind nameservers y.
Proof.
  intros Hy y1 srv Hc Hs.
  assert (Hclock : clock y1 = clock y).
  { pose proof (f_equal snd Hc) as E. simpl in E. subst y1.
    clear. unfold ensure_connected, bind, attr, gets.
    destruct (m_connected (heap y self)); cbn; [reflexivity|].
    unfold connect, try_except, bind, api_servers, attr, gets, update, modify,
      call, raise, ret.
    repeat (cbn -[append api_url_of]; rewrite ?Nat.eqb_refl;
            match goal with
            | |- context [match ?x with _ => _ end] =>
                lazymatch x with
                | context [match _ with _ => _ end] => fail
                | _ => destruct x eqn:?
                end
            end); reflexivity. }
  unfold create_zone. unfold bind at 1. rewrite Hc.
  unfold try_except, bind, date_today, gets.
  cbn -[append yyyymmdd local_date the_api_server].
  rewrite Hclock.
  replace (1 <=? year (local_date (clock y))) with true
    by (symmetry; apply Z.leb_le; lia).
  replace (year (local_date (clock y)) <=? 9999) with true
    by (symmetry; apply Z.leb_le; lia).
  cbn -[append yyyymmdd local_date the_api_server].
  rewrite the_api_server_some with (srv := srv) by exact Hs.
  unfold call, spec_create_zone_call, soa_content.
  replace (match nameservers with Some (n :: ns) => n :: ns | _ => [] end)
    with (match nameservers with Some ns => ns | None => [] end)
    by (destruct nameservers as [[|]|]; reflexivity).
  destruct (t_create_zone T srv name kind _ _ (world y1)) as [[e|z] w];
    reflexivity.
Qed.

Lemma create_zone_submits_default_soa_witness :
  1 <= year (local_date (clock (Demo.system []))) <= 9999
  /\ create_zone_submits Demo.transport local_date 0%nat "new.example." "Native"
       (Some ["ns1.new.example."]) (Demo.system []).
Proof.
  split.
  - vm_compute. split; discriminate.
  - apply (create_zone_submits_default_soa Demo.transport 0%nat "new.example."
             "Native" (Some ["ns1.new.example."]) (Demo.system [])).
    vm_compute. split; discriminate.
Defined.

Example create_zone_late_evening :
  calls (snd (create_zone Demo.transport 0%nat "new.example." "Native" None
                (Demo.system [])))
  = [CallCreateZone Demo.url_a "new.example." "Native"
       [mkRRSet "new.example." "SOA"
          [("ns1.new.example. hostmaster.new.example. 2024010200 28800 7200 604800 86400",
            false)]
          (Some 86400)]
       []].
Proof. reflexivity. Qed.

(* ------------------------------------------------------------------ *)
(** ** The record workflows: class ZoneDetailsScreen *)

Section Details_facts.

Variables W Client Api Server : Type.
Variable T : Transport W Client Api Server.

#[local] Abbreviation Sys := (Sys W Client Api Server).
#[local] Abbreviation St := (St W Client Api Server).
#[local] Abbreviation Gateway := (Gateway W Client Api Server).

Lemma lift_run {A} (g : Gateway A) (s : St) :
  lift g s = (fst (g (sys s)), with_sys (snd (g (sys s))) s).
Proof. unfold lift. destruct (g (sys s)). reflexivity. Qed.

Lemma preserves_lift {A} (g : Gateway A) :
  preserves sys_mutations g -> preserves app_mutations (lift g).
Proof. intros H s. rewrite lift_run. simpl. apply H. Qed.

(** Reading an attribute of a manager changes nothing. *)
Lemma preserves_lift_sys_read {X A} (obs : St -> X) (self : ref)
    (f : PDNSManager Client Api Server -> A) :
  (forall s, obs (with_sys (sys s) s) = obs s) ->
  preserves obs (lift (attr self f)).
Proof. intros H s. rewrite lift_run. simpl. apply H. Qed.

(** A method of a manager that makes no mutating call, called from a
    screen. *)
Ltac screen_effects :=
  repeat first
    [ apply preserves_lift;
      first [ apply preserves_get_zone | apply preserves_get_zones
            | apply preserves_zone_details | apply preserves_zone_data_of
            | apply preserves_gets ]
    | progress effects ].

(** Reloading the records makes no mutating call. *)
Lemma preserves_load_records : preserves app_mutations (load_records T).
Proof. unfold load_records, notify, append_record, add_record_row, on_details.
       screen_effects. Qed.

(** The three record workflows have one shape: the zone is fetched, one
    call [c] is made on it, and on success the records are reloaded.
    Whatever the call answers, it is the one mutation made. *)
Lemma workflow_mutations (submit : option RemoteZone -> Gateway unit)
    (done failed : string) (s : St) (z : option RemoteZone)
    (c : Call Client Api Server) (op : W -> (exn + unit) * W) :
  fst (get_zone T (manager (details_screen s)) (zone_id (details_screen s)) (sys s))
  = inr z ->
  submit z = call c op ->
  mutating c = true ->
  app_mutations
    (snd (try_except
            (d <- gets (@details_screen _ _ _ _) ;;
             z <- lift (get_zone T (manager d) (zone_id d)) ;;
             lift (submit z) ;;
             notify done "information" ;;
             load_records T)
            (fun e => notify (failed ++ str e) "error") s))
  = (app_mutations s ++ [c])%list.
Proof.
  intros Hz Hsub Hc.
  pose proof (preserves_get_zone T (manager (details_screen s))
                (zone_id (details_screen s)) (sys s)) as Hq.
  unfold try_except. unfold bind at 1. unfold gets at 1.
  unfold bind at 1. rewrite lift_run.
  destruct (get_zone T (manager (details_screen s)) (zone_id (details_screen s))
              (sys s)) as [r y1].
  simpl in Hz, Hq. subst r. cbn [fst snd].
  unfold bind at 1. rewrite lift_run, Hsub. unfold call. cbn [sys with_sys].
  assert (Hm : forall w, mutations (calls (with_world w c y1))
                         = (app_mutations s ++ [c])%list).
  { intro w. unfold with_world. cbn [calls]. rewrite mutations_app.
    unfold sys_mutations in Hq. rewrite Hq. unfold mutations at 2.
    simpl. rewrite Hc. reflexivity. }
  destruct (op (world y1)) as [[e|[]] w]; cbn [fst snd].
  - unfold notify, modify. cbn. apply (Hm w).
  - unfold bind at 1. unfold notify at 1, modify at 1. cbv beta iota.
    match goal with
    | |- context [load_records T ?s1] =>
        pose proof (preserves_load_records s1) as Hl;
        destruct (load_records T s1) as [[e|a] s2]
    end;
      cbn [snd] in Hl; unfold notify, modify; cbn [snd];
      change (app_mutations s2 = (app_mutations s ++ [c])%list);
      rewrite Hl; apply (Hm w).
Qed.

(** When the zone cannot be fetched, the workflow stops before its call:
    no mutation is made. *)
Lemma workflow_without_zone (submit : option RemoteZone -> Gateway unit)
    (done failed : string) (s : St) :
  (forall z,
      fst (get_zone T (manager (details_screen s)) (zone_id (details_screen s)) (sys s))
      <> inr (Some z)) ->
  (exists e, submit None = raise e) ->
  app_mutations
    (snd (try_except
            (d <- gets (@details_screen _ _ _ _) ;;
             z <- lift (get_zone T (manager d) (zone_id d)) ;;
             lift (submit z) ;;
             notify done "information" ;;
             load_records T)
            (fun e => notify (failed ++ str e) "error") s))
  = app_mutations s.
Proof.
  intros Hz [e0 Hsub].
  pose proof (preserves_get_zone T (manager (details_screen s))
                (zone_id (details_screen s)) (sys s)) as Hq.
  unfold try_except. unfold bind at 1. unfold gets at 1.
  unfold bind at 1. rewrite lift_run.
  destruct (get_zone T (manager (details_screen s)) (zone_id (details_screen s))
              (sys s)) as [[e|[z|]] y1]; simpl in Hz, Hq; cbn [fst snd].
  - unfold notify, modify. cbn. exact Hq.
  - exfalso. apply (Hz z). reflexivity.
  - unfold bind at 1. rewrite lift_run, Hsub. unfold raise, notify, modify.
    cbn. exact Hq.
Qed.

End Details_facts.

Arguments workflow_mutations {W Client Api Server} T submit done failed s z c op _ _ _.
Arguments workflow_without_zone {W Client Api Server} T submit done failed s _ _.
Arguments preserves_load_records {W Client Api Server} T s.
Arguments lift_run {W Client Api Server A} g s.
Arguments preserves_lift_sys_read {W Client Api Server X A} obs self f _ s.
Arguments preserves_lift {W Client Api Server A} g _ s.

(** C2: when the gateway returns the zone, the edit of a row submits
    exactly one record-set, under the row's name and type, with the one
    record of the new content and the row's own disabled flag, and with the
    new TTL. *)
Theorem edit_record_resubmits_one_record
    {W Client Api Server : Type} (T : Transport W Client Api Server)
    (s : St W Client Api Server) (record : record_row)
    (result : EditRecordResult) (z : RemoteZone) :
  fst (get_zone T (manager (details_screen s)) (zone_id (details_screen s)) (sys s))
  = inr (Some z) ->
  app_mutations (snd (on_edit_record_result T (Some result) record s))
  = (app_mutations s
       ++ [CallCreateRecords z
             [mkRRSet (rec_name record) (rec_type record)
                      [(ed_content result, rec_disabled record)]
                      (Some (ed_ttl result))]])%list.
Proof.
  intro Hz. unfold on_edit_record_result.
  apply (workflow_mutations T
           (fun z => create_records T z
                       [mkRRSet (rec_name record) (rec_type record)
                                [(ed_content result, rec_disabled record)]
                                (Some (ed_ttl result))])
           _ _ s (Some z) _ _ Hz eq_refl eq_refl).
Qed.

Lemma edit_record_resubmits_one_record_witness :
  fst (get_zone Demo.transport 0%nat "example.com." (Demo.system []))
  = inr (Some Demo.zone_com)
  /\ app_mutations
       (snd (on_edit_record_result Demo.transport
               (Some {| ed_content := "hello"; ed_ttl := 120 |})
               Demo.row_bye (Demo.state [])))
     = [CallCreateRecords Demo.zone_com
          [mkRRSet "b." "TXT" [("hello", true)] (Some 120)]].
Proof.
  split.
  - reflexivity.
  - apply (edit_record_resubmits_one_record Demo.transport (Demo.state [])
             Demo.row_bye {| ed_content := "hello"; ed_ttl := 120 |}
             Demo.zone_com).
    reflexivity.
Defined.

(** C3: when the gateway returns the zone, a confirmed delete of a row
    submits one record-set for deletion, under the row's name and type and
    with no record, whatever the row's content, disabled flag and TTL. *)
Theorem delete_record_submits_empty_record_set
    {W Client Api Server : Type} (T : Transport W Client Api Server)
    (s : St W Client Api Server) (record : record_row) (z : RemoteZone) :
  fst (get_zone T (manager (details_screen s)) (zone_id (details_screen s)) (sys s))
  = inr (Some z) ->
  app_mutations (snd (on_delete_record_result T true record s))
  = (app_mutations s
       ++ [CallDeleteRecords z [mkRRSet (rec_name record) (rec_type record) [] None]])%list.
Proof.
  intro Hz. unfold on_delete_record_result, when.
  apply (workflow_mutations T
           (fun z => delete_records T z
                       [mkRRSet (rec_name record) (rec_type record) [] None])
           _ _ s (Some z) _ _ Hz eq_refl eq_refl).
Qed.

Lemma delete_record_submits_empty_record_set_witness :
  fst (get_zone Demo.transport 0%nat "example.com." (Demo.system []))
  = inr (Some Demo.zone_com)
  /\ app_mutations
       (snd (on_delete_record_result Demo.transport true Demo.row_hi (Demo.state [])))
     = [CallDeleteRecords Demo.zone_com [mkRRSet "b." "TXT" [] None]].
Proof.
  split.
  - reflexivity.
  - apply (delete_record_submits_empty_record_set Demo.transport (Demo.state [])
             Demo.row_hi Demo.zone_com).
    reflexivity.
Defined.

(** Without the zone, the edit and the delete submit nothing. *)
Lemma edit_record_without_zone
    {W Client Api Server : Type} (T : Transport W Client Api Server)
    (s : St W Client Api Server) (record : record_row) (result : EditRecordResult) :
  (forall z,
      fst (get_zone T (manager (details_screen s)) (zone_id (details_screen s)) (sys s))
      <> inr (Some z)) ->
  app_mutations (snd (on_edit_record_result T (Some result) record s))
  = app_mutations s.
Proof.
  intro Hz. unfold on_edit_record_result.
  apply (workflow_without_zone T
           (fun z => create_records T z
                       [mkRRSet (rec_name record) (rec_type record)
                                [(ed_content result, rec_disabled record)]
                                (Some (ed_ttl result))])
           _ _ s Hz).
  eexists. reflexivity.
Qed.

Lemma delete_record_without_zone
    {W Client Api Server : Type} (T : Transport W Client Api Server)
    (s : St W Client Api Server) (record : record_row) :
  (forall z,
      fst (get_zone T (manager (details_screen s)) (zone_id (details_screen s)) (sys s))
      <> inr (Some z)) ->
  app_mutations (snd (on_delete_record_result T true record s)) = app_mutations s.
Proof.
  intro Hz. unfold on_delete_record_result, when.
  apply (workflow_without_zone T
           (fun z => delete_records T z
                       [mkRRSet (rec_name record) (rec_type record) [] None])
           _ _ s Hz).
  eexists. reflexivity.
Qed.

(** A delete that is not confirmed does nothing. *)
Lemma delete_record_not_confirmed
    {W Client Api Server : Type} (T : Transport W Client Api Server)
    (s : St W Client Api Server) (record : record_row) :
  on_delete_record_result T false record s = (inr tt, s).
Proof. reflexivity. Qed.

(** The name under which a record is created: the given name, a dot and
    the zone name, or the zone name alone for the empty name, and then a
    dot unless there is one at the end already. *)
Lemma full_name_of_cases (name zone_name : string) :
  let joined := match name with
                | EmptyString => zone_name
                | _ => name ++ "." ++ zone_name
                end in
  ((exists p, joined = p ++ ".") -> full_name_of name zone_name = joined)
  /\ (~ (exists p, joined = p ++ ".") -> full_name_of name zone_name = joined ++ ".").
Proof.
  unfold full_name_of.
  replace (if Py.truthy name then name ++ "." ++ zone_name else zone_name)
    with (match name with
          | EmptyString => zone_name
          | _ => name ++ "." ++ zone_name
          end) by (destruct name; reflexivity).
  cbv zeta. split; intro H.
  - apply endswith_iff in H. rewrite H. reflexivity.
  - apply endswith_false_iff in H. rewrite H. reflexivity.
Qed.

(** The name always ends with a dot. *)
Lemma full_name_of_canonical (name zone_name : string) :
  exists p, full_name_of name zone_name = p ++ ".".
Proof.
  unfold full_name_of.
  destruct (Py.endswith (if Py.truthy name then name ++ "." ++ zone_name else zone_name) ".")
    eqn:E; simpl.
  - apply endswith_iff. exact E.
  - eexists. reflexivity.
Qed.

Example full_name_www : full_name_of "www" "example.com." = "www.example.com.".
Proof. reflexivity. Qed.

Example full_name_apex : full_name_of "" "example.com." = "example.com.".
Proof. reflexivity. Qed.

Example full_name_no_dot : full_name_of "www" "example.com" = "www.example.com.".
Proof. reflexivity. Qed.

(** C4: when the gateway returns the zone, the creation of a record
    submits one record-set with the one record of the given content, not
    disabled, under the name made of the given name, a dot and the zone
    name (of the zone name alone when the given name is empty), to which a
    dot is added exactly when it does not end with one. *)
Theorem create_record_submits_full_name
    {W Client Api Server : Type} (T : Transport W Client Api Server)
    (s : St W Client Api Server) (result : CreateRecordResult) (z : RemoteZone) :
  fst (get_zone T (manager (details_screen s)) (zone_id (details_screen s)) (sys s))
  = inr (Some z) ->
  exists full_name,
    app_mutations (snd (on_create_record_result T (Some result) s))
    = (app_mutations s
         ++ [CallCreateRecords z
               [mkRRSet full_name (cr_type result)
                        [(cr_content result, false)] (Some (cr_ttl result))]])%list
    /\ ((exists p,
            match cr_name result with
            | EmptyString => screen_zone_name (details_screen s)
            | _ => cr_name result ++ "." ++ screen_zone_name (details_screen s)
            end = p ++ ".") ->
        full_name = match cr_name result with
                    | EmptyString => screen_zone_name (details_screen s)
                    | _ => cr_name result ++ "." ++ screen_zone_name (details_screen s)
                    end)
    /\ (~ (exists p,
              match cr_name result with
              | EmptyString => screen_zone_name (details_screen s)
              | _ => cr_name result ++ "." ++ screen_zone_name (details_screen s)
              end = p ++ ".") ->
        full_name = match cr_name result with
                    | EmptyString => screen_zone_name (details_screen s)
                    | _ => cr_name result ++ "." ++ screen_zone_name (details_screen s)
                    end ++ ".").
Proof.
  intro Hz.
  exists (full_name_of (cr_name result) (screen_zone_name (details_screen s))).
  split; [|apply full_name_of_cases].
  unfold on_create_record_result.
  apply (workflow_mutations T
           (fun z => create_records T z
                       [mkRRSet (full_name_of (cr_name result)
                                              (screen_zone_name (details_screen s)))
                                (cr_type result) [(cr_content result, false)]
                                (Some (cr_ttl result))])
           _ _ s (Some z) _ _ Hz eq_refl eq_refl).
Qed.

Lemma create_record_submits_full_name_witness :
  fst (get_zone Demo.transport 0%nat "example.com." (Demo.system []))
  = inr (Some Demo.zone_com)
  /\ exists full_name,
       app_mutations
         (snd (on_create_record_result Demo.transport
                 (Some {| cr_name := "www"; cr_type := "A";
                          cr_content := "192.0.2.1"; cr_ttl := 3600 |})
                 (Demo.state [])))
       = [CallCreateRecords Demo.zone_com
            [mkRRSet full_name "A" [("192.0.2.1", false)] (Some 3600)]]
       /\ ((exists p, "www.example.com." = p ++ ".") ->
           full_name = "www.example.com.")
       /\ (~ (exists p, "www.example.com." = p ++ ".") ->
           full_name = "www.example.com..").
Proof.
  split.
  - reflexivity.
  - apply (create_record_submits_full_name Demo.transport (Demo.state [])
             {| cr_name := "www"; cr_type := "A";
                cr_content := "192.0.2.1"; cr_ttl := 3600 |}
             Demo.zone_com).
    reflexivity.
Defined.

(* ------------------------------------------------------------------ *)
(** ** The record forms *)

Lemma create_form_needs_ttl (button_id : string) (w : CreateRecordModal.widgets) :
  Py.int (CreateRecordModal.record_ttl w) = None ->
  CreateRecordModal.on_button_pressed button_id w = Dismissed None
  \/ exists msg,
       CreateRecordModal.on_button_pressed button_id w = Stays (Notice msg "error").
Proof.
  intro H. unfold CreateRecordModal.on_button_pressed.
  destruct (String.eqb button_id "create-btn"); [right | left; reflexivity].
  destruct (negb (Py.truthy (Py.strip (CreateRecordModal.record_name w)))
            || negb (Py.truthy (Py.strip (CreateRecordModal.record_content w)))).
  - eexists. reflexivity.
  - rewrite int_strip, H. eexists. reflexivity.
Qed.

Lemma edit_form_needs_ttl (button_id : string) (w : EditRecordModal.widgets) :
  Py.int (EditRecordModal.record_ttl w) = None ->
  EditRecordModal.on_button_pressed button_id w = Dismissed None
  \/ exists msg,
       EditRecordModal.on_button_pressed button_id w = Stays (Notice msg "error").
Proof.
  intro H. unfold EditRecordModal.on_button_pressed.
  destruct (String.eqb button_id "save-btn"); [right | left; reflexivity].
  destruct (negb (Py.truthy (Py.strip (EditRecordModal.record_content w)))).
  - eexists. reflexivity.
  - rewrite int_strip, H. eexists. reflexivity.
Qed.

(** A form that is filled in and whose TTL reads as the integer [ttl] is
    dismissed with that integer. *)
Lemma create_form_accepts (w : CreateRecordModal.widgets) (ttl : Z) :
  Py.strip (CreateRecordModal.record_name w) <> "" ->
  Py.strip (CreateRecordModal.record_content w) <> "" ->
  Py.int (CreateRecordModal.record_ttl w) = Some ttl ->
  CreateRecordModal.on_button_pressed "create-btn" w
  = Dismissed (Some {| cr_name := Py.strip (CreateRecordModal.record_name w);
                       cr_type := CreateRecordModal.record_type w;
                       cr_content := Py.strip (CreateRecordModal.record_content w);
                       cr_ttl := ttl |}).
Proof.
  intros Hn Hc Ht. unfold CreateRecordModal.on_button_pressed. simpl String.eqb.
  apply truthy_iff in Hn, Hc. rewrite Hn, Hc, int_strip, Ht. reflexivity.
Qed.

Lemma edit_form_accepts (w : EditRecordModal.widgets) (ttl : Z) :
  Py.strip (EditRecordModal.record_content w) <> "" ->
  Py.int (EditRecordModal.record_ttl w) = Some ttl ->
  EditRecordModal.on_button_pressed "save-btn" w
  = Dismissed (Some {| ed_content := Py.strip (EditRecordModal.record_content w);
                       ed_ttl := ttl |}).
Proof.
  intros Hc Ht. unfold EditRecordModal.on_button_pressed. simpl String.eqb.
  apply truthy_iff in Hc. rewrite Hc, int_strip, Ht. reflexivity.
Qed.

(** C9: a record form, for creation or for edit, whose TTL field does not
    read as an integer is rejected when submitted, with an error notice; no
    button dismisses it with a result; and a button press on it leaves the
    managers, the remote state and the calls made as they were. *)
Theorem unparsable_ttl_is_rejected
    {W Client Api Server : Type} (T : Transport W Client Api Server)
    (s : St W Client Api Server) (record : record_row)
    (cw : CreateRecordModal.widgets) (ew : EditRecordModal.widgets) :
  Py.int (CreateRecordModal.record_ttl cw) = None ->
  Py.int (EditRecordModal.record_ttl ew) = None ->
  (exists msg,
      CreateRecordModal.on_button_pressed "create-btn" cw = Stays (Notice msg "error"))
  /\ (exists msg,
         EditRecordModal.on_button_pressed "save-btn" ew = Stays (Notice msg "error"))
  /\ (forall button result,
         CreateRecordModal.on_button_pressed button cw <> Dismissed (Some result))
  /\ (forall button result,
         EditRecordModal.on_button_pressed button ew <> Dismissed (Some result))
  /\ (forall button, sys (snd (press_create_record T button cw s)) = sys s)
  /\ (forall button, sys (snd (press_edit_record T record button ew s)) = sys s).
Proof.
  intros Hc He. repeat split.
  - destruct (create_form_needs_ttl "create-btn" cw Hc) as [H|H]; [|exact H].
    unfold CreateRecordModal.on_button_pressed in H. simpl String.eqb in H.
    destruct (negb _ || negb _) in H; [discriminate|].
    rewrite int_strip, Hc in H. discriminate.
  - destruct (edit_form_needs_ttl "save-btn" ew He) as [H|H]; [|exact H].
    unfold EditRecordModal.on_button_pressed in H. simpl String.eqb in H.
    destruct (negb _) in H; [discriminate|].
    rewrite int_strip, He in H. discriminate.
  - intros button result H.
    destruct (create_form_needs_ttl button cw Hc) as [E|[msg E]];
      rewrite E in H; discriminate.
  - intros button result H.
    destruct (edit_form_needs_ttl button ew He) as [E|[msg E]];
      rewrite E in H; discriminate.
  - intro button. unfold press_create_record.
    destruct (create_form_needs_ttl button cw Hc) as [E|[msg E]];
      rewrite E; reflexivity.
  - intro button. unfold press_edit_record.
    destruct (edit_form_needs_ttl button ew He) as [E|[msg E]];
      rewrite E; reflexivity.
Qed.

Lemma unparsable_ttl_is_rejected_witness :
  Py.int "abc" = None
  /\ CreateRecordModal.on_button_pressed "create-btn"
       {| CreateRecordModal.record_name := "www";
          CreateRecordModal.record_type := "A";
          CreateRecordModal.record_content := "192.0.2.1";
          CreateRecordModal.record_ttl := "abc" |}
     <> Dismissed (Some {| cr_name := "www"; cr_type := "A";
                           cr_content := "192.0.2.1"; cr_ttl := 0 |})
  /\ sys (snd (press_edit_record Demo.transport Demo.row_hi "save-btn"
                 {| EditRecordModal.record_content := "hello";
                    EditRecordModal.record_ttl := "abc" |}
                 (Demo.state [])))
     = sys (Demo.state []).
Proof.
  pose proof (unparsable_ttl_is_rejected Demo.transport (Demo.state []) Demo.row_hi
                {| CreateRecordModal.record_name := "www";
                   CreateRecordModal.record_type := "A";
                   CreateRecordModal.record_content := "192.0.2.1";
                   CreateRecordModal.record_ttl := "abc" |}
                {| EditRecordModal.record_content := "hello";
                   EditRecordModal.record_ttl := "abc" |}
                eq_refl eq_refl) as (_ & _ & Hc & _ & _ & He).
  split; [reflexivity | split].
  - apply Hc.
  - apply He.
Defined.

Example ttl_abc_create :
  CreateRecordModal.on_button_pressed "create-btn"
    {| CreateRecordModal.record_name := "www";
       CreateRecordModal.record_type := "A";
       CreateRecordModal.record_content := "192.0.2.1";
       CreateRecordModal.record_ttl := "abc" |}
  = Stays (Notice "TTL must be a number" "error").
Proof. reflexivity. Qed.

Example ttl_abc_edit_makes_no_call :
  calls (sys (snd (press_edit_record Demo.transport Demo.row_hi "save-btn"
                     {| EditRecordModal.record_content := "hello";
                        EditRecordModal.record_ttl := "abc" |}
                     (Demo.state []))))
  = [].
Proof. reflexivity. Qed.

(* ------------------------------------------------------------------ *)
(** ** The zone aggregate: class ZonesScreen *)

Section Zones_facts.

Variables W Client Api Server : Type.
Variable T : Transport W Client Api Server.

#[local] Abbreviation Sys := (Sys W Client Api Server).
#[local] Abbreviation St := (St W Client Api Server).

(** The dictionary [load_zones] builds for a zone is the summary of the
    specification. *)
Lemma zone_data_of_spec (manager : ref) (zone : RemoteZone) (y : Sys) :
  zone_data_of T manager zone y = spec_zone_summary T manager zone y.
Proof.
  unfold zone_data_of, spec_zone_summary, zone_details, bind, call, ret.
  repeat match goal with
         | |- context [t_details T zone ?w] =>
             destruct (t_details T zone w) as [[?|?] ?]; cbn [world with_world]
         end;
    try reflexivity.
  unfold spec_summary, get_default, or_na.
  repeat match goal with
         | |- context [match ?x with Some _ => _ | None => _ end] => destruct x
         end;
    reflexivity.
Qed.

(** The summary of a zone carries the zone's name, for its manager; and
    making it leaves the manager objects alone. *)
Lemma spec_zone_summary_names (manager : ref) (zone : RemoteZone) (y y1 : Sys) zd :
  spec_zone_summary T manager zone y = (inr zd, y1) ->
  zd_manager zd = manager
  /\ zd_id zd = zone_name zone
  /\ zd_name zd = zone_name zone.
Proof.
  unfold spec_zone_summary, zone_details, bind, call, ret.
  repeat match goal with
         | |- context [t_details T zone ?w] =>
             destruct (t_details T zone w) as [[?|?] ?]; cbn [world with_world]
         end;
    intro H; try discriminate H.
  injection H as <- _. repeat split.
Qed.

Lemma spec_zone_summary_keeps_heap (manager : ref) (zone : RemoteZone) (y : Sys) :
  heap (snd (spec_zone_summary T manager zone y)) = heap y.
Proof.
  unfold spec_zone_summary, zone_details, bind, call, ret.
  repeat match goal with
         | |- context [t_details T zone ?w] =>
             destruct (t_details T zone w) as [[?|?] ?]; cbn [world with_world]
         end;
    reflexivity.
Qed.

(** The inner loop of [load_zones]: the zones listed by [manager] are
    appended to [all_zones] one by one, each after its details are
    read, and the loop stops at the first read that raises. *)
Lemma load_zones_of_manager (manager : ref) (zones : list RemoteZone) (s : St)
    zds failure y' :
  spec_summaries T manager zones (sys s) = (zds, failure, y') ->
  exists s',
    for_each zones (fun zone =>
      zd <- lift (zone_data_of T manager zone) ;;
      append_zone zd ;;
      name <- lift (attr manager (@m_name _ _ _)) ;;
      fqdn <- lift (attr manager (@m_fqdn _ _ _)) ;;
      add_zone_row
        [name; fqdn; zone_name zone; zd_kind zd;
         str_value (zd_serial zd);
         Py.str_int (Z.of_nat (zd_records zd));
         str_value (zd_notified_serial zd)]) s
    = (match failure with Some e => inl e | None => inr tt end, s')
    /\ sys s' = y'
    /\ notifications s' = notifications s
    /\ details_screen s' = details_screen s
    /\ managers (zones_screen s') = managers (zones_screen s)
    /\ all_zones (zones_screen s') = (all_zones (zones_screen s) ++ zds)%list.
Proof.
  revert s zds failure y'.
  induction zones as [|zone zones IH]; intros s zds failure y' Hspec.
  - cbn in Hspec. injection Hspec as <- <- <-.
    exists s. cbn. rewrite !app_nil_r. repeat split; reflexivity.
  - cbn [spec_summaries] in Hspec. cbn [for_each].
    unfold bind at 1. unfold bind at 1. rewrite lift_run, zone_data_of_spec.
    destruct (spec_zone_summary T manager zone (sys s)) as [[e|zd] y1].
    + injection Hspec as <- <- <-. cbn [fst snd].
      eexists. split; [reflexivity|].
      cbn. rewrite !app_nil_r. repeat split; reflexivity.
    + destruct (spec_summaries T manager zones y1) as [[zds1 failure1] y2] eqn:E.
      injection Hspec as <- <- <-. cbn [fst snd].
      unfold bind at 1. unfold append_zone at 1, on_zones at 1, modify at 1.
      unfold bind at 1. unfold lift at 1, attr at 1, gets at 1.
      unfold bind at 1. unfold lift at 1, attr at 1, gets at 1.
      unfold add_zone_row at 1, on_zones at 1, modify at 1.
      cbn -[append Py.str_int str_value for_each].
      match goal with
      | |- context [for_each zones ?body ?s1] =>
          destruct (IH s1 zds1 failure1 y2 E)
            as (s' & Hrun & Hsys & Hn & Hd & Hm & Hz)
      end.
      exists s'. split; [exact Hrun|]. rewrite Hsys, Hn, Hd, Hm, Hz.
      cbn -[append Py.str_int str_value].
      rewrite <- !app_assoc. repeat split; reflexivity.
Qed.

(** The loop of [load_zones] over the managers does what [loadZones]
    describes, and returns. *)
Lemma load_zones_loop (ms : list ref) (s : St) zs ws y' :
  spec_loadZones T ms (sys s) = (zs, ws, y') ->
  exists s',
    for_each ms (fun manager =>
      try_except
        (zones <- lift (get_zones T manager) ;;
         for_each zones (fun zone =>
           zd <- lift (zone_data_of T manager zone) ;;
           append_zone zd ;;
           name <- lift (attr manager (@m_name _ _ _)) ;;
           fqdn <- lift (attr manager (@m_fqdn _ _ _)) ;;
           add_zone_row
             [name; fqdn; zone_name zone; zd_kind zd;
              str_value (zd_serial zd);
              Py.str_int (Z.of_nat (zd_records zd));
              str_value (zd_notified_serial zd)]))
        (fun e =>
           name <- lift (attr manager (@m_name _ _ _)) ;;
           notify ("Error loading zones from " ++ name ++ ": " ++ str e) "error")) s
    = (inr tt, s')
    /\ sys s' = y'
    /\ notifications s' = (notifications s ++ ws)%list
    /\ details_screen s' = details_screen s
    /\ managers (zones_screen s') = managers (zones_screen s)
    /\ all_zones (zones_screen s') = (all_zones (zones_screen s) ++ zs)%list.
Proof.
  revert s zs ws y'. induction ms as [|g ms IH]; intros s zs ws y' Hspec.
  - simpl in Hspec. injection Hspec as <- <- <-.
    exists s. simpl. rewrite !app_nil_r. repeat split; reflexivity.
  - cbn [spec_loadZones] in Hspec. unfold spec_gateway in Hspec.
    cbn [for_each].
    unfold bind at 1. unfold try_except at 1. unfold bind at 1.
    rewrite lift_run.
    destruct (get_zones T g (sys s)) as [[e|zones] y1].
    + destruct (spec_loadZones T ms y1) as [[zs1 ws1] y2] eqn:E.
      injection Hspec as <- <- <-.
      cbn -[append for_each].
      unfold bind at 1, lift, attr, gets, notify, modify.
      cbn -[append for_each].
      match goal with
      | |- context [for_each ms ?body ?s1] =>
          destruct (IH s1 zs1 ws1 y2 E) as (s' & Hrun & Hsys & Hn & Hd & Hm & Hz)
      end.
      exists s'. split; [exact Hrun|]. rewrite Hsys, Hn, Hd, Hm, Hz.
      cbn -[append]. unfold load_warning. rewrite <- !app_assoc.
      repeat split; reflexivity.
    + destruct (spec_summaries T g zones y1) as [[zds failure] y2] eqn:E1.
      destruct (spec_loadZones T ms y2) as [[zs1 ws1] y3] eqn:E.
      injection Hspec as <- <- <-.
      cbn [fst snd].
      destruct (load_zones_of_manager g zones (with_sys y1 s) zds failure y2 E1)
        as (s1 & Hrun1 & Hsys1 & Hn1 & Hd1 & Hm1 & Hz1).
      match goal with
      | |- context [for_each zones ?body ?s0] =>
          assert (E0 : for_each zones body s0
                       = (match failure with Some e => inl e | None => inr tt end, s1))
            by exact Hrun1;
          rewrite E0
      end.
      destruct failure as [e|].
      * unfold bind at 1, lift, attr, gets, notify, modify.
        cbn -[append for_each].
        match goal with
        | |- context [for_each ms ?body ?s2] =>
            assert (E2 : spec_loadZones T ms (sys s2) = (zs1, ws1, y3))
              by (cbn [sys with_notification with_sys]; rewrite Hsys1; exact E);
            destruct (IH s2 zs1 ws1 y3 E2) as (s' & Hrun & Hsys & Hn & Hd & Hm & Hz)
        end.
        exists s'. split; [exact Hrun|]. rewrite Hsys, Hn, Hd, Hm, Hz.
        cbn -[append]. rewrite Hsys1, Hn1, Hd1, Hm1, Hz1.
        cbn -[append]. unfold load_warning. rewrite <- !app_assoc.
        repeat split; reflexivity.
      * assert (E2 : spec_loadZones T ms (sys s1) = (zs1, ws1, y3))
          by (rewrite Hsys1; exact E).
        destruct (IH s1 zs1 ws1 y3 E2) as (s' & Hrun & Hsys & Hn & Hd & Hm & Hz).
        exists s'. split; [exact Hrun|].
        rewrite Hsys, Hn, Hd, Hm, Hz, Hn1, Hd1, Hm1, Hz1.
        cbn -[append]. rewrite <- !app_assoc.
        repeat split; reflexivity.
Qed.

(** The whole of [load_zones]. *)
Lemma load_zones_run (s : St) zs ws y' :
  spec_loadZones T (managers (zones_screen s)) (sys s) = (zs, ws, y') ->
  exists s',
    load_zones T s = (inr tt, s')
    /\ sys s' = y'
    /\ all_zones (zones_screen s') = zs
    /\ notifications s'
       = (notifications s ++ ws
            ++ [Notice ("Loaded " ++ Py.str_int (Z.of_nat (length zs))
                          ++ " zones from "
                          ++ Py.str_int (Z.of_nat (length (managers (zones_screen s))))
                          ++ " server(s)") "information"])%list
    /\ managers (zones_screen s') = managers (zones_screen s)
    /\ details_screen s' = details_screen s.
Proof.
  intro Hspec. unfold load_zones.
  unfold bind at 1. unfold on_zones at 1, modify at 1.
  unfold bind at 1. unfold on_zones at 1, modify at 1.
  unfold bind at 1. unfold gets at 1.
  cbn [zones_screen with_zones_screen set_all_zones set_zones_table managers].
  unfold bind at 1.
  match goal with
  | |- context [for_each _ ?body ?s1] =>
      destruct (load_zones_loop (managers (zones_screen s)) s1 zs ws y' Hspec)
        as (s' & Hrun & Hsys & Hn & Hd & Hm & Hz)
  end.
  match goal with
  | |- context [for_each ?ms ?body ?s0] =>
      assert (E0 : for_each ms body s0 = (inr tt, s')) by exact Hrun;
      rewrite E0
  end.
  cbn in Hn, Hd, Hm, Hz.
  unfold bind, gets, notify, modify. cbn -[append Py.str_int].
  eexists. split; [reflexivity|].
  cbn -[append Py.str_int]. rewrite Hsys, Hn, Hd, Hm, Hz, app_assoc.
  repeat split; reflexivity.
Qed.

(** The summaries made for the zones a gateway listed are those of the
    first zones of the listing, in its order, under the zones' names;
    they are those of all the zones when no read failed. *)
Lemma spec_summaries_names (g : ref) (zones : list RemoteZone) (y : Sys) :
  map (fun zd => (zd_manager zd, zd_id zd, zd_name zd))
      (fst (fst (spec_summaries T g zones y)))
  = map (fun zone => (g, zone_name zone, zone_name zone))
        (firstn (length (fst (fst (spec_summaries T g zones y)))) zones)
  /\ (snd (fst (spec_summaries T g zones y)) = None ->
      length (fst (fst (spec_summaries T g zones y))) = length zones).
Proof.
  revert y. induction zones as [|zone zones IH]; intro y.
  - cbn. split; reflexivity.
  - cbn [spec_summaries].
    destruct (spec_zone_summary T g zone y) as [[e|zd] y1] eqn:E.
    + cbn. split; [reflexivity | discriminate].
    + destruct (spec_zone_summary_names g zone y y1 zd E) as (Hm & Hi & Hn).
      specialize (IH y1).
      destruct (spec_summaries T g zones y1) as [[zds failure] y2].
      cbn [fst snd] in *. cbn [length firstn map].
      destruct IH as [IH1 IH2]. split.
      * rewrite Hm, Hi, Hn, IH1. reflexivity.
      * intro H. rewrite (IH2 H). reflexivity.
Qed.

Lemma firstn_subset {A} (n : nat) (l : list A) (x : A) :
  In x (firstn n l) -> In x l.
Proof.
  revert l. induction n as [|n IH]; intros [|a l] H; cbn in H; try contradiction.
  destruct H as [H|H]; [left; exact H | right; apply IH; exact H].
Qed.

(** Every summary [loadZones] makes is that of a zone which the gateway
    of the summary listed, under the name of that zone. *)
Lemma spec_loadZones_names (gateways : list ref) (y : Sys) :
  Forall (fun zd =>
            In (zd_manager zd) gateways
            /\ exists y0 zones zone,
                 fst (get_zones T (zd_manager zd) y0) = inr zones
                 /\ In zone zones
                 /\ zd_id zd = zone_name zone
                 /\ zd_name zd = zone_name zone)
         (fst (fst (spec_loadZones T gateways y))).
Proof.
  revert y. induction gateways as [|g gs IH]; intro y.
  - constructor.
  - cbn [spec_loadZones]. unfold spec_gateway.
    destruct (get_zones T g y) as [[e|zones] y1] eqn:Eg.
    + specialize (IH y1).
      destruct (spec_loadZones T gs y1) as [[zs ws] y2]. cbn [fst snd app] in *.
      eapply Forall_impl; [|exact IH]. cbn beta.
      intros zd (Hin & H). split; [right; exact Hin | exact H].
    + pose proof (spec_summaries_names g zones y1) as [Hnames _].
      destruct (spec_summaries T g zones y1) as [[zds failure] y2].
      specialize (IH y2).
      destruct (spec_loadZones T gs y2) as [[zs ws] y3]. cbn [fst snd] in *.
      apply Forall_app. split.
      * apply Forall_forall. intros zd Hzd.
        assert (H : In (zd_manager zd, zd_id zd, zd_name zd)
                       (map (fun zone => (g, zone_name zone, zone_name zone))
                            (firstn (length zds) zones))).
        { rewrite <- Hnames.
          apply (in_map (fun zd => (zd_manager zd, zd_id zd, zd_name zd))).
          exact Hzd. }
        apply in_map_iff in H. destruct H as (zone & Heq & Hzone).
        injection Heq as Hm Hi Hn.
        split; [left; exact Hm|].
        exists y, zones, zone. rewrite <- Hm, Eg.
        split; [reflexivity|].
        split; [eapply firstn_subset; exact Hzone|].
        split; symmetry; assumption.
      * eapply Forall_impl; [|exact IH]. cbn beta.
        intros zd (Hin & H). split; [right; exact Hin | exact H].
Qed.

(** [loadZones] on a list of gateways in two parts: the second part is
    processed after the first, whatever happened there. *)
Lemma spec_loadZones_app (gs1 gs2 : list ref) (y : Sys) :
  spec_loadZones T (gs1 ++ gs2) y
  = let '(zs1, ws1, y1) := spec_loadZones T gs1 y in
    let '(zs2, ws2, y2) := spec_loadZones T gs2 y1 in
    ((zs1 ++ zs2)%list, (ws1 ++ ws2)%list, y2).
Proof.
  revert y. induction gs1 as [|g gs1 IH]; intro y.
  - change ([] ++ gs2)%list with gs2. cbn [spec_loadZones].
    destruct (spec_loadZones T gs2 y) as [[zs2 ws2] y2]. reflexivity.
  - change ((g :: gs1) ++ gs2)%list with (g :: (gs1 ++ gs2))%list.
    cbn [spec_loadZones].
    destruct (spec_gateway T g y) as [[zds failure] y0]. rewrite IH.
    destruct (spec_loadZones T gs1 y0) as [[zs1 ws1] y1];
      destruct (spec_loadZones T gs2 y1) as [[zs2 ws2] y2].
    rewrite <- app_assoc. destruct failure; reflexivity.
Qed.

(** At most one warning for each gateway. *)
Lemma spec_loadZones_warnings (gateways : list ref) (y : Sys) :
  (length (snd (fst (spec_loadZones T gateways y))) <= length gateways)%nat.
Proof.
  revert y. induction gateways as [|g gs IH]; intro y; cbn [spec_loadZones].
  - apply Nat.le_refl.
  - destruct (spec_gateway T g y) as [[zds failure] y1].
    specialize (IH y1).
    destruct (spec_loadZones T gs y1) as [[zs ws] y2].
    destruct failure; cbn [fst snd length] in *; lia.
Qed.

(** A method of a manager leaves what does not belong to the managers
    alone. *)
Lemma preserves_lift_screen {X A} (obs : St -> X)
    (g : Gateway W Client Api Server A) :
  (forall y s, obs (with_sys y s) = obs s) -> preserves obs (lift g).
Proof. intros H s. rewrite lift_run. simpl. apply H. Qed.

Ltac screen_effects :=
  repeat first
    [ apply preserves_lift;
      first [ apply preserves_get_zone | apply preserves_get_zones
            | apply preserves_zone_details | apply preserves_zone_data_of
            | apply preserves_gets ]
    | apply preserves_lift_screen; reflexivity
    | progress effects ].

(** Reloading the zones makes no mutating call. *)
Lemma preserves_load_zones : preserves app_mutations (load_zones T).
Proof.
  unfold load_zones, notify, append_zone, add_zone_row, on_zones, attr.
  screen_effects.
Qed.

(** Reloading the records does not change the zone the screen is on. *)
Lemma load_records_keeps_zone_id :
  preserves (fun s : St => zone_id (details_screen s)) (load_records T).
Proof.
  unfold load_records, notify, append_record, add_record_row, on_details.
  screen_effects.
Qed.

(** Filtering the zones changes the table only. *)
Lemma filter_zones_keeps_all_zones (search_term : string) :
  preserves (fun s : St => all_zones (zones_screen s)) (filter_zones search_term).
Proof.
  unfold filter_zones, add_zone_row, on_zones, attr. screen_effects.
Qed.

Lemma filter_zones_keeps_sys (search_term : string) :
  preserves (fun s : St => sys s) (filter_zones search_term).
Proof.
  unfold filter_zones, add_zone_row, on_zones, attr.
  repeat first
    [ apply preserves_lift_sys_read | progress effects ].
  all: intro s0; reflexivity.
Qed.

(** The loop of [filter_zones] for the empty term: every zone gets its
    row, in the order of [all_zones]. *)
Lemma filter_zones_empty_loop (zs : list zone_data) (s : St) :
  exists s',
    for_each zs (fun zone =>
      name <- lift (attr (zd_manager zone) (@m_name _ _ _)) ;;
      fqdn <- lift (attr (zd_manager zone) (@m_fqdn _ _ _)) ;;
      when (Py.contains (Py.lower "") (Py.lower (zd_name zone))
            || Py.contains (Py.lower "") (Py.lower (zd_kind zone))
            || Py.contains (Py.lower "") (Py.lower name)
            || Py.contains (Py.lower "") (Py.lower fqdn))
        (add_zone_row
           [name; fqdn; zd_name zone; zd_kind zone;
            str_value (zd_serial zone);
            Py.str_int (Z.of_nat (zd_records zone));
            str_value (zd_notified_serial zone)])) s
    = (inr tt, s')
    /\ sys s' = sys s
    /\ zones_table (zones_screen s')
       = (zones_table (zones_screen s) ++ map (zone_row (heap (sys s))) zs)%list.
Proof.
  revert s. induction zs as [|zone zs IH]; intro s.
  - exists s. simpl. rewrite app_nil_r. repeat split; reflexivity.
  - cbn [for_each]. unfold bind at 1.
    match goal with
    | |- context [match ?b s with _ => _ end] =>
        destruct (b s) as [r s1] eqn:E
    end.
    unfold bind, lift, attr, gets in E. cbn -[append Py.str_int str_value] in E.
    rewrite contains_empty_needle in E.
    cbn -[append Py.str_int str_value] in E.
    injection E as <- <-. cbv beta iota.
    match goal with
    | |- context [for_each zs ?body ?s1] =>
        destruct (IH s1) as (s' & Hrun & Hsys & Ht)
    end.
    exists s'. split; [exact Hrun|]. rewrite Hsys, Ht.
    cbn -[append Py.str_int str_value]. rewrite <- app_assoc.
    split; reflexivity.
Qed.

(** A connected manager's [delete_zone] makes one call, the deletion of
    the zone it was given. *)
Lemma delete_zone_connected (self : ref) (zone_id : string) (y : Sys) srv :
  m_connected (heap y self) = true ->
  m_api_server (heap y self) = Some srv ->
  exists r w,
    delete_zone T self zone_id y = (r, with_world w (CallDeleteZone srv zone_id) y).
Proof.
  intros Hc Hs. unfold delete_zone. unfold bind at 1.
  rewrite ensure_connected_connected by exact Hc.
  unfold try_except, bind.
  rewrite the_api_server_some with (srv := srv) by exact Hs.
  unfold call. destruct (t_delete_zone T srv zone_id (world y)) as [[e|[]] w];
    eexists; eexists; reflexivity.
Qed.

End Zones_facts.

Arguments load_zones_run {W Client Api Server} T s zs ws y' _.
Arguments spec_summaries_names {W Client Api Server} T g zones y.
Arguments spec_loadZones_names {W Client Api Server} T gateways y.
Arguments spec_zone_summary_keeps_heap {W Client Api Server} T manager zone y.
Arguments preserves_load_zones {W Client Api Server} T s.
Arguments load_records_keeps_zone_id {W Client Api Server} T s.
Arguments filter_zones_keeps_all_zones {W Client Api Server} search_term s.
Arguments filter_zones_keeps_sys {W Client Api Server} search_term s.
Arguments filter_zones_empty_loop {W Client Api Server} zs s.
Arguments delete_zone_connected {W Client Api Server} T self zone_id y srv _ _.

(** C6 as the specification has it, with exactly the zones of the
    gateways that succeeded in the aggregate, fails: server A lists its
    two zones, and the document of the second cannot be read.  The
    aggregate then holds the first zone of A alone, neither both zones
    nor none, and a warning for A is shown. *)
Lemma load_zones_keeps_zones_read_before_failure :
  ~ all_or_nothing Demo.transport
      (Demo.state_a [zone_url Demo.zone_org]) 0%nat.
Proof.
  intro H. specialize (H eq_refl). vm_compute in H.
  destruct H as [H|H]; discriminate H.
Qed.

Example load_zones_with_second_document_down :
  let run := load_zones Demo.transport (Demo.state_a [zone_url Demo.zone_org]) in
  fst (get_zones Demo.transport 0%nat (Demo.system [zone_url Demo.zone_org]))
  = inr [Demo.zone_com; Demo.zone_org]
  /\ fst run = inr tt
  /\ map zd_name (all_zones (zones_screen (snd run))) = ["example.com."]
  /\ notifications (snd run)
     = [Notice "Error loading zones from A: 503 Service Unavailable" "error";
        Notice "Loaded 1 zones from 1 server(s)" "information"].
Proof. cbv zeta. repeat split; reflexivity. Qed.

(** C6, amended: [load_zones] returns, whatever the gateways answer, and
    leaves what [loadZones] describes: the gateways asked in configured
    order; a warning shown for each gateway that failed, at listing its
    zones or at reading the details of one of them; the later gateways
    asked all the same; and in [all_zones], in this order, for each
    gateway the zones it listed up to the first whose details could not
    be read: all of them when nothing failed, none when the listing
    failed. *)
Theorem load_zones_tolerates_gateway_failures
    {W Client Api Server : Type} (T : Transport W Client Api Server)
    (s : St W Client Api Server) :
  exists s',
    load_zones T s = (inr tt, s')
    /\ all_zones (zones_screen s')
       = fst (fst (spec_loadZones T (managers (zones_screen s)) (sys s)))
    /\ sys s' = snd (spec_loadZones T (managers (zones_screen s)) (sys s))
    /\ exists loaded,
         notifications s'
         = (notifications s
              ++ snd (fst (spec_loadZones T (managers (zones_screen s)) (sys s)))
              ++ [Notice loaded "information"])%list.
Proof.
  destruct (spec_loadZones T (managers (zones_screen s)) (sys s))
    as [[zs ws] y'] eqn:E.
  destruct (load_zones_run T s zs ws y' E) as (s' & Hrun & Hsys & Hz & Hn & _).
  exists s'. simpl. repeat split; try assumption.
  eexists. exact Hn.
Qed.

(** Two servers, of which B does not answer: the zones of A, a warning
    for B, no exception. *)
Example load_zones_with_b_down :
  let run := load_zones Demo.transport (Demo.state [Demo.url_b]) in
  fst run = inr tt
  /\ map zd_name (all_zones (zones_screen (snd run)))
     = ["example.com."; "example.org."]
  /\ map zd_manager (all_zones (zones_screen (snd run))) = [0%nat; 0%nat]
  /\ notifications (snd run)
     = [Notice "Error loading zones from B: Failed to get zones: 503 Service Unavailable"
               "error";
        Notice "Loaded 2 zones from 2 server(s)" "information"]
  /\ filter (fun c => match c with CallDetails _ => false | _ => true end)
            (calls (sys (snd run)))
     = [CallZones Demo.url_a; CallZones Demo.url_b].
Proof. cbv zeta. repeat split; reflexivity. Qed.

(** With A down instead, the zones of B are still loaded. *)
Example load_zones_with_a_down :
  let run := load_zones Demo.transport (Demo.state [Demo.url_a]) in
  fst run = inr tt
  /\ map zd_name (all_zones (zones_screen (snd run))) = ["example.net."]
  /\ map message (notifications (snd run))
     = ["Error loading zones from A: Failed to get zones: 503 Service Unavailable";
        "Loaded 1 zones from 2 server(s)"].
Proof. cbv zeta. repeat split; reflexivity. Qed.

(** Both servers answer, and the document of the second zone of A cannot
    be read: the first zone of A stays in the aggregate, a warning for A
    is shown, and the zones of B are loaded all the same. *)
Example load_zones_with_a_document_down :
  let run := load_zones Demo.transport (Demo.state [zone_url Demo.zone_org]) in
  fst run = inr tt
  /\ map zd_name (all_zones (zones_screen (snd run)))
     = ["example.com."; "example.net."]
  /\ map message (notifications (snd run))
     = ["Error loading zones from A: 503 Service Unavailable";
        "Loaded 2 zones from 2 server(s)"]
  /\ calls (sys (snd run))
     = [CallZones Demo.url_a;
        CallDetails Demo.zone_com; CallDetails Demo.zone_com;
        CallDetails Demo.zone_com; CallDetails Demo.zone_com;
        CallDetails Demo.zone_org;
        CallZones Demo.url_b;
        CallDetails Demo.zone_net; CallDetails Demo.zone_net;
        CallDetails Demo.zone_net; CallDetails Demo.zone_net].
Proof. cbv zeta. repeat split; reflexivity. Qed.

(** C7: [filter_zones] with the empty term returns and shows one row for
    every zone of [all_zones], in the order of [all_zones]; and with any
    term it leaves [all_zones], and the managers, as they were. *)
Theorem filter_zones_empty_term_shows_all
    {W Client Api Server : Type} (s : St W Client Api Server) :
  fst (filter_zones "" s) = inr tt
  /\ zones_table (zones_screen (snd (filter_zones "" s)))
     = map (zone_row (heap (sys s))) (all_zones (zones_screen s))
  /\ (forall search_term,
        all_zones (zones_screen (snd (filter_zones search_term s)))
        = all_zones (zones_screen s))
  /\ (forall search_term, sys (snd (filter_zones search_term s)) = sys s).
Proof.
  assert (Hrun : exists s',
             filter_zones "" s = (inr tt, s')
             /\ zones_table (zones_screen s')
                = map (zone_row (heap (sys s))) (all_zones (zones_screen s))).
  { unfold filter_zones. unfold bind at 1. unfold on_zones at 1, modify at 1.
    unfold bind at 1. unfold gets at 1.
    cbn [zones_screen with_zones_screen set_zones_table all_zones].
    match goal with
    | |- context [for_each ?zs _ ?s1] =>
        destruct (filter_zones_empty_loop zs s1) as (s' & Hrun & _ & Ht)
    end.
    exists s'. split; [exact Hrun | exact Ht]. }
  destruct Hrun as (s' & Hrun & Ht). rewrite Hrun. simpl.
  repeat split.
  - exact Ht.
  - intro search_term. apply (filter_zones_keeps_all_zones search_term s).
  - intro search_term. apply (filter_zones_keeps_sys search_term s).
Qed.

Example filter_zones_empty_after_load :
  let loaded := snd (load_zones Demo.transport (Demo.state [])) in
  zones_table (zones_screen (snd (filter_zones "" loaded)))
  = [["A"; "a.example"; "example.com."; "Native"; "2024010100"; "2"; "N/A"];
     ["A"; "a.example"; "example.org."; "N/A"; "N/A"; "0"; "N/A"];
     ["B"; "b.example"; "example.net."; "Master"; "7"; "0"; "7"]]
  /\ zones_table (zones_screen (snd (filter_zones "" loaded)))
     = zones_table (zones_screen loaded).
Proof. cbv zeta. split; reflexivity. Qed.

Example filter_zones_case_insensitive :
  let loaded := snd (load_zones Demo.transport (Demo.state [])) in
  zones_table (zones_screen (snd (filter_zones "NET" loaded)))
  = [["B"; "b.example"; "example.net."; "Master"; "7"; "0"; "7"]]
  /\ map zd_name (all_zones (zones_screen (snd (filter_zones "NET" loaded))))
     = ["example.com."; "example.org."; "example.net."].
Proof. cbv zeta. split; reflexivity. Qed.

(** C10: every entry of [all_zones] that [load_zones] makes has as its id
    and as its name the name of a remote zone, one that the gateway of
    the entry listed; with one gateway, the ids and names of the entries
    are the names of the first zones the gateway lists, in its order.
    The details screen opened on such an entry is on the zone of that
    name; and the confirmed deletion of such an entry, on a manager
    connected to [srv], asks [srv] to delete the zone of that name. *)
Theorem loaded_zones_are_keyed_by_name
    {W Client Api Server : Type} (T : Transport W Client Api Server)
    (s : St W Client Api Server) :
  Forall (fun z =>
            zd_id z = zd_name z
            /\ In (zd_manager z) (managers (zones_screen s))
            /\ exists y0 zones zone,
                 fst (get_zones T (zd_manager z) y0) = inr zones
                 /\ In zone zones
                 /\ zd_id z = zone_name zone
                 /\ zd_name z = zone_name zone)
         (all_zones (zones_screen (snd (load_zones T s))))
  /\ (forall g zones,
        managers (zones_screen s) = [g] ->
        fst (get_zones T g (sys s)) = inr zones ->
        exists n,
          map (fun z => (zd_manager z, zd_id z, zd_name z))
              (all_zones (zones_screen (snd (load_zones T s))))
          = map (fun zone => (g, zone_name zone, zone_name zone)) (firstn n zones))
  /\ (forall i z,
        nth_error (all_zones (zones_screen (snd (load_zones T s)))) i = Some z ->
        zone_id (details_screen
                   (snd (on_data_table_row_selected T i (snd (load_zones T s)))))
        = zd_name z)
  /\ (forall z (s2 : St W Client Api Server) srv,
        In z (all_zones (zones_screen (snd (load_zones T s)))) ->
        m_connected (heap (sys s2) (zd_manager z)) = true ->
        m_api_server (heap (sys s2) (zd_manager z)) = Some srv ->
        app_mutations (snd (on_delete_zone_result T true z s2))
        = (app_mutations s2 ++ [CallDeleteZone srv (zd_name z)])%list).
Proof.
  assert (Hnames : Forall (fun z =>
                             zd_id z = zd_name z
                             /\ In (zd_manager z) (managers (zones_screen s))
                             /\ exists y0 zones zone,
                                  fst (get_zones T (zd_manager z) y0) = inr zones
                                  /\ In zone zones
                                  /\ zd_id z = zone_name zone
                                  /\ zd_name z = zone_name zone)
                          (all_zones (zones_screen (snd (load_zones T s))))).
  { destruct (spec_loadZones T (managers (zones_screen s)) (sys s))
      as [[zs ws] y'] eqn:E.
    destruct (load_zones_run T s zs ws y' E) as (s' & Hrun & _ & Hz & _).
    rewrite Hrun. simpl. rewrite Hz.
    pose proof (spec_loadZones_names T (managers (zones_screen s)) (sys s)) as H.
    rewrite E in H. cbn [fst] in H.
    eapply Forall_impl; [|exact H]. cbn beta.
    intros z (Hin & y0 & zones & zone & Hg & Hzone & Hi & Hn).
    split; [rewrite Hi, Hn; reflexivity|].
    split; [exact Hin|].
    exists y0, zones, zone. repeat split; assumption. }
  assert (Hids : Forall (fun z => zd_id z = zd_name z)
                        (all_zones (zones_screen (snd (load_zones T s))))).
  { eapply Forall_impl; [|exact Hnames]. cbn beta. intros z [H _]. exact H. }
  split; [exact Hnames | split; [|split]].
  - intros g zones Hms Hg.
    destruct (spec_loadZones T (managers (zones_screen s)) (sys s))
      as [[zs ws] y'] eqn:E.
    destruct (load_zones_run T s zs ws y' E) as (s' & Hrun & _ & Hz & _).
    rewrite Hrun. cbn [snd]. rewrite Hz.
    rewrite Hms in E. cbn [spec_loadZones] in E. unfold spec_gateway in E.
    destruct (get_zones T g (sys s)) as [r y1]. cbn [fst] in Hg. subst r.
    pose proof (spec_summaries_names T g zones y1) as [H _].
    destruct (spec_summaries T g zones y1) as [[zds failure] y2].
    injection E as <- _ _. cbn [fst] in H. rewrite app_nil_r.
    exists (length zds). exact H.
  - intros i z Hi.
    assert (Hid : zd_id z = zd_name z).
    { rewrite Forall_forall in Hids. apply Hids. eapply nth_error_In. exact Hi. }
    unfold on_data_table_row_selected. unfold bind at 1. unfold gets at 1.
    rewrite Hi. unfold bind at 1. unfold modify at 1. unfold details_on_mount.
    rewrite load_records_keeps_zone_id. simpl. exact Hid.
  - intros z s2 srv Hin Hc Hs.
    assert (Hid : zd_id z = zd_name z).
    { rewrite Forall_forall in Hids. apply Hids. exact Hin. }
    rewrite <- Hid.
    unfold on_delete_zone_result, when, try_except. unfold bind at 1.
    rewrite lift_run.
    destruct (delete_zone_connected T (zd_manager z) (zd_id z) (sys s2) srv Hc Hs)
      as (r & w & E).
    rewrite E. cbn [fst snd].
    assert (Hm : mutations (calls (with_world w (CallDeleteZone srv (zd_id z)) (sys s2)))
                 = (app_mutations s2 ++ [CallDeleteZone srv (zd_id z)])%list).
    { unfold with_world. cbn [calls]. rewrite mutations_app. reflexivity. }
    destruct r as [e|b].
    + unfold notify, modify. cbn. exact Hm.
    + unfold bind at 1. unfold notify at 1, modify at 1. cbv beta iota.
      match goal with
      | |- context [load_zones T ?s1] =>
          pose proof (preserves_load_zones T s1) as Hl;
          destruct (load_zones T s1) as [[e|a] s3]
      end;
        cbn [snd] in Hl; unfold notify, modify; cbn [snd];
        change (app_mutations s3
                = (app_mutations s2 ++ [CallDeleteZone srv (zd_id z)])%list);
        rewrite Hl; exact Hm.
Qed.

Example delete_zone_by_name :
  let loaded := snd (load_zones Demo.transport (Demo.state [])) in
  match nth_error (all_zones (zones_screen loaded)) 2 with
  | Some z =>
      app_mutations (snd (on_delete_zone_result Demo.transport true z loaded))
      = [CallDeleteZone Demo.url_b "example.net."]
  | None => False
  end.
Proof. vm_compute. reflexivity. Qed.

(* ------------------------------------------------------------------ *)
(** ** More on the gateway *)

Section Connection_facts.

Variables W Client Api Server : Type.
Variable T : Transport W Client Api Server.

#[local] Abbreviation Sys := (Sys W Client Api Server).

(** Runs [connect] through all the answers of the library. *)
Ltac run_connect :=
  unfold connect, try_except, bind, api_servers, attr, gets, update, modify,
    call, raise, ret;
  repeat (cbn -[append api_url_of]; rewrite ?Nat.eqb_refl;
          match goal with
          | |- context [match ?x with _ => _ end] =>
              lazymatch x with
              | context [match _ with _ => _ end] => fail
              | _ => destruct x eqn:?
              end
          end);
  cbn -[append api_url_of]; rewrite ?Nat.eqb_refl; cbn -[append api_url_of].

(** What [connect] leaves of the manager it is called on. *)
Lemma connect_outcome (self : ref) (y : Sys) :
  match fst (connect T self y) with
  | inr b =>
      b = true
      /\ m_connected (heap (snd (connect T self y)) self) = true
      /\ exists srv, m_api_server (heap (snd (connect T self y)) self) = Some srv
  | inl e => m_connected (heap (snd (connect T self y)) self) = false
  end.
Proof.
  run_connect; repeat split; try reflexivity; eexists; reflexivity.
Qed.

(** [connect] on one manager does not touch another. *)
Lemma connect_frame (self r : ref) (y : Sys) :
  r <> self -> heap (snd (connect T self y)) r = heap y r.
Proof.
  intro Hr. apply Nat.eqb_neq in Hr.
  run_connect; try discriminate; rewrite ?Hr; reflexivity.
Qed.

(** [connect] leaves the name, the URL, the key and the host name of
    every manager as they are. *)
Lemma connect_keeps_profile (self r : ref) (y : Sys) :
  m_name (heap (snd (connect T self y)) r) = m_name (heap y r)
  /\ m_url (heap (snd (connect T self y)) r) = m_url (heap y r)
  /\ m_api_key (heap (snd (connect T self y)) r) = m_api_key (heap y r)
  /\ m_fqdn (heap (snd (connect T self y)) r) = m_fqdn (heap y r).
Proof.
  destruct (Nat.eqb r self) eqn:Hr.
  - apply Nat.eqb_eq in Hr. subst r.
    run_connect; repeat split; reflexivity.
  - apply Nat.eqb_neq in Hr. rewrite (connect_frame self r y Hr).
    repeat split; reflexivity.
Qed.

End Connection_facts.

Arguments connect_outcome {W Client Api Server} T self y.
Arguments connect_frame {W Client Api Server} T self r y _.
Arguments connect_keeps_profile {W Client Api Server} T self r y.


Section Operation_facts.

Variables W Client Api Server : Type.
Variable T : Transport W Client Api Server.

#[local] Abbreviation Sys := (Sys W Client Api Server).

Lemma get_zones_connected (self : ref) (y : Sys) srv :
  m_connected (heap y self) = true ->
  m_api_server (heap y self) = Some srv ->
  snd (get_zones T self y)
  = with_world (snd (t_zones T srv (world y))) (CallZones srv) y.
Proof.
  intros Hc Hs. unfold get_zones, bind at 1.
  rewrite ensure_connected_connected by exact Hc.
  unfold try_except, bind.
  rewrite the_api_server_some with (srv := srv) by exact Hs.
  unfold call. destruct (t_zones T srv (world y)) as [[e|a] w]; reflexivity.
Qed.

(** When the implicit [connect] fails, what follows it is not run. *)
Lemma ensure_connected_fails {A} (self : ref) (y : Sys) (e : exn)
    (rest : Gateway W Client Api Server A) :
  m_connected (heap y self) = false ->
  fst (connect T self y) = inl e ->
  (ensure_connected T self ;; rest) y = (inl e, snd (connect T self y)).
Proof.
  intros Hc He. unfold bind at 1. unfold ensure_connected, bind, attr, gets.
  rewrite Hc. cbn [negb].
  destruct (connect T self y) as [[e0|b] y1]; simpl in He.
  - injection He as ->. reflexivity.
  - discriminate.
Qed.

End Operation_facts.

Arguments get_zones_connected {W Client Api Server} T self y srv _ _.
Arguments ensure_connected_fails {W Client Api Server} T {A} self y e rest _ _.

(** X2: on a manager that is connected, [get_zones], [get_zone] and
    [delete_zone] make one call to the library each, to the manager's
    server, and leave every manager as it was, whether the call returns or
    raises: a failure does not mark the manager as disconnected. *)
Theorem connected_manager_makes_one_call
    {W Client Api Server : Type} (T : Transport W Client Api Server)
    (self : ref) (zone_id : string) (y : Sys W Client Api Server) (srv : Server) :
  m_connected (heap y self) = true ->
  m_api_server (heap y self) = Some srv ->
  (calls (snd (get_zones T self y)) = (calls y ++ [CallZones srv])%list
   /\ heap (snd (get_zones T self y)) = heap y)
  /\ (calls (snd (get_zone T self zone_id y))
      = (calls y ++ [CallGetZone srv zone_id])%list
      /\ heap (snd (get_zone T self zone_id y)) = heap y)
  /\ (calls (snd (delete_zone T self zone_id y))
      = (calls y ++ [CallDeleteZone srv zone_id])%list
      /\ heap (snd (delete_zone T self zone_id y)) = heap y).
Proof.
  intros Hc Hs. repeat split.
  - rewrite (get_zones_connected T self y srv Hc Hs). reflexivity.
  - rewrite (get_zones_connected T self y srv Hc Hs). reflexivity.
  - rewrite (get_zone_connected T self zone_id y srv Hc Hs). reflexivity.
  - rewrite (get_zone_connected T self zone_id y srv Hc Hs). reflexivity.
  - destruct (delete_zone_connected T self zone_id y srv Hc Hs) as (r & w & E).
    rewrite E. reflexivity.
  - destruct (delete_zone_connected T self zone_id y srv Hc Hs) as (r & w & E).
    rewrite E. reflexivity.
Qed.

Lemma connected_manager_makes_one_call_witness :
  m_connected (heap (Demo.system [Demo.url_a]) 0%nat) = true
  /\ calls (snd (delete_zone Demo.transport 0%nat "example.com."
                   (Demo.system [Demo.url_a])))
     = [CallDeleteZone Demo.url_a "example.com."]
  /\ m_connected
       (heap (snd (delete_zone Demo.transport 0%nat "example.com."
                     (Demo.system [Demo.url_a]))) 0%nat)
     = true.
Proof.
  pose proof (connected_manager_makes_one_call Demo.transport 0%nat "example.com."
                (Demo.system [Demo.url_a]) Demo.url_a eq_refl eq_refl)
    as (_ & _ & Hcalls & Hheap).
  split; [reflexivity | split].
  - exact Hcalls.
  - rewrite Hheap. reflexivity.
Defined.

(** X3: on a manager that is not connected, an operation first connects,
    and when that fails the operation ends with the error of [connect] as
    it is and in the state [connect] left: its own call to the library is
    not made. *)
Theorem failed_connect_blocks_operation
    {W Client Api Server : Type} (T : Transport W Client Api Server)
    (self : ref) (zone_id name kind : string) (nameservers : option (list string))
    (y : Sys W Client Api Server) (e : exn) :
  m_connected (heap y self) = false ->
  fst (connect T self y) = inl e ->
  get_zones T self y = (inl e, snd (connect T self y))
  /\ get_zone T self zone_id y = (inl e, snd (connect T self y))
  /\ create_zone T self name kind nameservers y = (inl e, snd (connect T self y))
  /\ delete_zone T self zone_id y = (inl e, snd (connect T self y)).
Proof.
  intros Hc He. repeat split.
  - unfold get_zones. apply ensure_connected_fails; assumption.
  - unfold get_zone. apply ensure_connected_fails; assumption.
  - unfold create_zone. apply ensure_connected_fails; assumption.
  - unfold delete_zone. apply ensure_connected_fails; assumption.
Qed.

Lemma failed_connect_blocks_operation_witness :
  m_connected (heap (Offline.system [Demo.url_a]) 0%nat) = false
  /\ fst (get_zones Demo.transport 0%nat (Offline.system [Demo.url_a]))
     = inl (Exception "Failed to connect to A: 503 Service Unavailable")
  /\ calls (snd (get_zones Demo.transport 0%nat (Offline.system [Demo.url_a])))
     = [CallPDNSApiClient Demo.url_a "secret"; CallPDNSEndpoint Demo.url_a;
        CallServers Demo.url_a].
Proof.
  pose proof (failed_connect_blocks_operation Demo.transport 0%nat "example.com."
                "example.com." "Native" None (Offline.system [Demo.url_a])
                (Exception "Failed to connect to A: 503 Service Unavailable")
                eq_refl eq_refl) as (Hz & _).
  split; [reflexivity | split].
  - rewrite Hz. reflexivity.
  - rewrite Hz. reflexivity.
Defined.

(** An operation on a manager that is not connected and can connect goes
    through. *)
Example implicit_connect_then_list :
  fst (get_zones Demo.transport 0%nat (Offline.system []))
  = inr [Demo.zone_com; Demo.zone_org]
  /\ calls (snd (get_zones Demo.transport 0%nat (Offline.system [])))
     = [CallPDNSApiClient Demo.url_a "secret"; CallPDNSEndpoint Demo.url_a;
        CallServers Demo.url_a; CallServers Demo.url_a; CallZones Demo.url_a].
Proof. split; reflexivity. Qed.

(* ------------------------------------------------------------------ *)
(** ** More on the records screen *)

Section Records_facts.

Variables W Client Api Server : Type.
Variable T : Transport W Client Api Server.

#[local] Abbreviation Sys := (Sys W Client Api Server).
#[local] Abbreviation St := (St W Client Api Server).

(** The inner loop of [load_records], over the records of a record-set. *)
Lemma load_records_of_rrset (rrset : RRSetDoc) (records : list RecordDoc)
    (s : St) (y : Sys) z rs table :
  for_each records (fun record =>
    let content := get_default (r_content record) "" in
    let disabled := get_default (r_disabled record) false in
    append_record
      {| rec_name := get_default (rs_name rrset) "";
         rec_type := get_default (rs_type rrset) "";
         rec_content := content;
         rec_ttl := get_default (rs_ttl rrset) 3600;
         rec_disabled := disabled; rec_rrset := rrset |} ;;
    add_record_row
      [get_default (rs_name rrset) ""; get_default (rs_type rrset) "";
       shown_content content;
       match rs_ttl rrset with
       | Some ttl => Py.str_int ttl
       | None => ""
       end;
       yes_no disabled]) (loaded_state s y z rs table)
  = (inr tt,
     loaded_state s y z
       (rs ++ map (fun record =>
                     {| rec_name := get_default (rs_name rrset) "";
                        rec_type := get_default (rs_type rrset) "";
                        rec_content := get_default (r_content record) "";
                        rec_ttl := get_default (rs_ttl rrset) 3600;
                        rec_disabled := get_default (r_disabled record) false;
                        rec_rrset := rrset |}) records)
       (table ++ map loaded_record_row
                     (map (fun record =>
                             {| rec_name := get_default (rs_name rrset) "";
                                rec_type := get_default (rs_type rrset) "";
                                rec_content := get_default (r_content record) "";
                                rec_ttl := get_default (rs_ttl rrset) 3600;
                                rec_disabled := get_default (r_disabled record) false;
                                rec_rrset := rrset |}) records))).
Proof.
  revert rs table. induction records as [|record records IH]; intros rs table.
  - simpl. rewrite !app_nil_r. reflexivity.
  - etransitivity; [|etransitivity]; [ | eapply IH | ].
    + cbn [for_each]. unfold bind at 1. reflexivity.
    + cbn -[append Py.str_int]. rewrite <- !app_assoc. reflexivity.
Qed.

(** The outer loop, over the record-sets of the zone document. *)
Lemma load_records_of_zone (rrsets : list RRSetDoc) (s : St) (y : Sys) z rs table :
  for_each rrsets (fun rrset =>
    let name := get_default (rs_name rrset) "" in
    let rtype := get_default (rs_type rrset) "" in
    for_each (get_default (rs_records rrset) []) (fun record =>
      let content := get_default (r_content record) "" in
      let disabled := get_default (r_disabled record) false in
      append_record
        {| rec_name := name; rec_type := rtype; rec_content := content;
           rec_ttl := get_default (rs_ttl rrset) 3600;
           rec_disabled := disabled; rec_rrset := rrset |} ;;
      add_record_row
        [name; rtype; shown_content content;
         match rs_ttl rrset with
         | Some ttl => Py.str_int ttl
         | None => ""
         end;
         yes_no disabled])) (loaded_state s y z rs table)
  = (inr tt,
     loaded_state s y z
       (rs ++ flat_map rows_of_rrset rrsets)
       (table ++ map loaded_record_row (flat_map rows_of_rrset rrsets))).
Proof.
  revert rs table. induction rrsets as [|rrset rrsets IH]; intros rs table.
  - simpl. rewrite !app_nil_r. reflexivity.
  - cbn [for_each]. unfold bind at 1. cbv zeta.
    match goal with
    | |- context [for_each (get_default (rs_records rrset) []) ?body ?s0] =>
        assert (E : for_each (get_default (rs_records rrset) []) body s0
                    = (inr tt,
                       loaded_state s y z (rs ++ rows_of_rrset rrset)
                         (table ++ map loaded_record_row (rows_of_rrset rrset))))
          by exact (load_records_of_rrset rrset _ s y z rs table);
        rewrite E
    end.
    etransitivity; [apply IH|].
    simpl. rewrite map_app, <- !app_assoc. reflexivity.
Qed.

(** [load_records], whatever the gateway answers. *)
Lemma load_records_run (s : St) :
  load_records T s
  = match get_zone T (manager (details_screen s)) (zone_id (details_screen s))
                   (sys s) with
    | (inl e, y) =>
        (inr tt,
         with_notification (Notice ("Error loading records: " ++ str e) "error")
                           (with_sys y s))
    | (inr None, y) =>
        (inr tt,
         with_notification
           (Notice ("Error loading records: "
                      ++ str (none_has_no_attribute "details")) "error")
           (loaded_state s y None [] []))
    | (inr (Some z), y) =>
        match zone_details T z y with
        | (inl e, y1) =>
            (inr tt,
             with_notification (Notice ("Error loading records: " ++ str e) "error")
                               (loaded_state s y1 (Some z) [] []))
        | (inr details, y1) =>
            (inr tt,
             with_notification
               (Notice ("Loaded "
                          ++ Py.str_int
                               (Z.of_nat (length (flat_map rows_of_rrset
                                                    (get_default (d_rrsets details) []))))
                          ++ " records") "information")
               (loaded_state s y1 (Some z)
                  (flat_map rows_of_rrset (get_default (d_rrsets details) []))
                  (map loaded_record_row
                       (flat_map rows_of_rrset (get_default (d_rrsets details) [])))))
        end
    end.
Proof.
  unfold load_records, try_except. unfold bind at 1. unfold gets at 1.
  unfold bind at 1. rewrite lift_run.
  destruct (get_zone T (manager (details_screen s)) (zone_id (details_screen s))
              (sys s)) as [[e|[z|]] y]; cbn [fst snd].
  - reflexivity.
  - unfold bind at 1. unfold on_details at 1, modify at 1.
    unfold bind at 1. unfold on_details at 1, modify at 1.
    unfold bind at 1. unfold on_details at 1, modify at 1.
    unfold bind at 1. unfold bind at 1. rewrite lift_run.
    cbn [sys with_details_screen with_sys].
    destruct (zone_details T z y) as [[e|details] y1]; cbn [fst snd];
      [reflexivity|].
    match goal with
    | |- context [for_each ?rrsets ?body ?s0] =>
        assert (E : for_each rrsets body s0
                    = (inr tt,
                       loaded_state s y1 (Some z)
                         ([] ++ flat_map rows_of_rrset rrsets)
                         ([] ++ map loaded_record_row
                                    (flat_map rows_of_rrset rrsets))))
          by exact (load_records_of_zone rrsets s y1 (Some z) [] []);
        rewrite E
    end.
    reflexivity.
  - reflexivity.
Qed.

(** The loop of [filter_records]. *)
Lemma filter_records_loop (search_term : string) (rs : list record_row)
    (s : St) (y : Sys) z all table :
  for_each rs (fun record =>
    when (Py.contains (Py.lower search_term) (Py.lower (rec_name record))
          || Py.contains (Py.lower search_term) (Py.lower (rec_type record))
          || Py.contains (Py.lower search_term) (Py.lower (rec_content record)))
      (add_record_row
         [rec_name record; rec_type record; shown_content (rec_content record);
          Py.str_int (rec_ttl record); yes_no (rec_disabled record)]))
    (loaded_state s y z all table)
  = (inr tt,
     loaded_state s y z all
       (table ++ map record_table_row (filter (record_matches search_term) rs))).
Proof.
  revert table. induction rs as [|record rs IH]; intro table.
  - simpl. rewrite app_nil_r. reflexivity.
  - cbn [for_each filter]. unfold record_matches at 1.
    destruct (Py.contains (Py.lower search_term) (Py.lower (rec_name record))
              || Py.contains (Py.lower search_term) (Py.lower (rec_type record))
              || Py.contains (Py.lower search_term) (Py.lower (rec_content record))).
    + etransitivity; [|etransitivity]; [ | eapply IH | ].
      * reflexivity.
      * cbn -[append Py.str_int]. rewrite <- app_assoc. reflexivity.
    + etransitivity; [|apply (IH table)]. reflexivity.
Qed.

Lemma filter_records_run (search_term : string) (s : St) :
  filter_records search_term s
  = (inr tt,
     loaded_state s (sys s) (zone (details_screen s))
       (all_records (details_screen s))
       (map record_table_row
            (filter (record_matches search_term) (all_records (details_screen s))))).
Proof.
  unfold filter_records. unfold bind at 1. unfold on_details at 1, modify at 1.
  unfold bind at 1. unfold gets at 1.
  etransitivity;
    [apply (filter_records_loop search_term (all_records (details_screen s)) s
              (sys s) (zone (details_screen s)) (all_records (details_screen s)) [])|].
  reflexivity.
Qed.

(** The loop of [filter_zones]. *)
Lemma filter_zones_loop (search_term : string) (zs : list zone_data)
    (s : St) table :
  for_each zs (fun zone =>
    name <- lift (attr (zd_manager zone) (@m_name _ _ _)) ;;
    fqdn <- lift (attr (zd_manager zone) (@m_fqdn _ _ _)) ;;
    when (Py.contains (Py.lower search_term) (Py.lower (zd_name zone))
          || Py.contains (Py.lower search_term) (Py.lower (zd_kind zone))
          || Py.contains (Py.lower search_term) (Py.lower name)
          || Py.contains (Py.lower search_term) (Py.lower fqdn))
      (add_zone_row
         [name; fqdn; zd_name zone; zd_kind zone;
          str_value (zd_serial zone);
          Py.str_int (Z.of_nat (zd_records zone));
          str_value (zd_notified_serial zone)])) (zones_shown s table)
  = (inr tt,
     zones_shown s
       (table ++ map (zone_row (heap (sys s)))
                     (filter (zone_matches (heap (sys s)) search_term) zs))).
Proof.
  revert table. induction zs as [|zone zs IH]; intro table.
  - simpl. rewrite app_nil_r. reflexivity.
  - cbn [for_each filter]. unfold zone_matches at 1.
    destruct (Py.contains (Py.lower search_term) (Py.lower (zd_name zone))
              || Py.contains (Py.lower search_term) (Py.lower (zd_kind zone))
              || Py.contains (Py.lower search_term)
                   (Py.lower (m_name (heap (sys s) (zd_manager zone))))
              || Py.contains (Py.lower search_term)
                   (Py.lower (m_fqdn (heap (sys s) (zd_manager zone))))) eqn:E.
    + etransitivity; [|etransitivity]; [ | eapply IH | ].
      * unfold bind, lift, attr, gets. cbn -[append Py.str_int str_value Py.contains Py.lower].
        rewrite E. reflexivity.
      * cbn -[append Py.str_int str_value]. rewrite <- app_assoc. reflexivity.
    + etransitivity; [|apply (IH table)].
      unfold bind, lift, attr, gets. cbn -[append Py.str_int str_value Py.contains Py.lower].
      rewrite E. reflexivity.
Qed.

Lemma filter_zones_run (search_term : string) (s : St) :
  filter_zones search_term s
  = (inr tt,
     zones_shown s
       (map (zone_row (heap (sys s)))
            (filter (zone_matches (heap (sys s)) search_term)
                    (all_zones (zones_screen s))))).
Proof.
  unfold filter_zones. unfold bind at 1. unfold on_zones at 1, modify at 1.
  unfold bind at 1. unfold gets at 1.
  etransitivity;
    [apply (filter_zones_loop search_term (all_zones (zones_screen s)) s [])|].
  reflexivity.
Qed.

End Records_facts.

Arguments load_records_run {W Client Api Server} T s.
Arguments filter_records_run {W Client Api Server} search_term s.
Arguments filter_zones_run {W Client Api Server} search_term s.

(** [in] on strings finds a substring. *)
Lemma prefix_iff (p s : string) :
  String.prefix p s = true <-> exists post, s = p ++ post.
Proof.
  revert s. induction p as [|a p IH]; intro s.
  - split; [intros _; exists s; reflexivity | destruct s; reflexivity].
  - destruct s as [|b s]; simpl.
    + split; [discriminate | intros [post H]; discriminate].
    + destruct (ascii_dec a b) as [->|Hab].
      * rewrite IH. split; intros [post H]; exists post.
        -- rewrite H. reflexivity.
        -- injection H as ->. reflexivity.
      * split; [discriminate|]. intros [post H]. injection H as H _.
        exfalso. apply Hab. symmetry. exact H.
Qed.

Lemma contains_cons (needle : string) (c : ascii) (hay : string) :
  Py.contains needle (String c hay)
  = if String.prefix needle (String c hay) then true else Py.contains needle hay.
Proof. reflexivity. Qed.

Lemma contains_iff (needle hay : string) :
  Py.contains needle hay = true <-> exists pre post, hay = pre ++ needle ++ post.
Proof.
  induction hay as [|c hay IH].
  - destruct needle as [|a needle]; simpl.
    + split; [intros _; exists "", ""; reflexivity | reflexivity].
    + split; [discriminate|]. intros (pre & post & H).
      destruct pre; discriminate.
  - rewrite contains_cons. destruct (String.prefix needle (String c hay)) eqn:E.
    + apply prefix_iff in E. destruct E as [post E].
      split; [intros _; exists "", post; exact E | reflexivity].
    + rewrite IH. split; intros (pre & post & H).
      * exists (String c pre), post. rewrite H. reflexivity.
      * destruct pre as [|d pre]; simpl in H.
        -- assert (String.prefix needle (String c hay) = true)
             by (apply prefix_iff; exists post; exact H).
           congruence.
        -- injection H as _ H. exists pre, post. exact H.
Qed.

(** Lower case is lower case already. *)
Lemma lower_char_idempotent (c : ascii) :
  Py.lower_char (Py.lower_char c) = Py.lower_char c.
Proof.
  destruct c as [[] [] [] [] [] [] [] []]; reflexivity.
Qed.

Lemma lower_idempotent (s : string) : Py.lower (Py.lower s) = Py.lower s.
Proof.
  induction s as [|c s IH]; simpl; [reflexivity|].
  rewrite lower_char_idempotent, IH. reflexivity.
Qed.

(** X4: what reads does not write: [connect], [get_zones] and [get_zone]
    on a manager, the loading of the zones and of the records and both
    searches make no call that creates or deletes a zone or a
    record-set. *)
Theorem reads_make_no_mutating_call
    {W Client Api Server : Type} (T : Transport W Client Api Server)
    (s : St W Client Api Server) (self : ref) (zone_id search_term : string) :
  sys_mutations (snd (connect T self (sys s))) = sys_mutations (sys s)
  /\ sys_mutations (snd (get_zones T self (sys s))) = sys_mutations (sys s)
  /\ sys_mutations (snd (get_zone T self zone_id (sys s))) = sys_mutations (sys s)
  /\ app_mutations (snd (load_zones T s)) = app_mutations s
  /\ app_mutations (snd (load_records T s)) = app_mutations s
  /\ app_mutations (snd (filter_zones search_term s)) = app_mutations s
  /\ app_mutations (snd (filter_records search_term s)) = app_mutations s.
Proof.
  repeat split.
  - apply (preserves_connect W Client Api Server T self).
  - apply (preserves_get_zones T self).
  - apply (preserves_get_zone T self zone_id).
  - apply (preserves_load_zones T).
  - apply (preserves_load_records T).
  - rewrite filter_zones_run. reflexivity.
  - rewrite filter_records_run. reflexivity.
Qed.

(** X5: when the gateway returns the zone and the zone document is read,
    [load_records] makes one entry
    of [all_records] for every record of every record-set of the zone
    document, in the order of the document, each with the name, type and
    TTL of its record-set (3600 without one) and the content and disabled
    flag of the record; it shows one row for each entry and tells their
    number. *)
Theorem load_records_flattens
    {W Client Api Server : Type} (T : Transport W Client Api Server)
    (s : St W Client Api Server) (z : RemoteZone) (details : Details) :
  fst (get_zone T (manager (details_screen s)) (zone_id (details_screen s)) (sys s))
  = inr (Some z) ->
  fst (zone_details T z
         (snd (get_zone T (manager (details_screen s)) (zone_id (details_screen s))
                 (sys s))))
  = inr details ->
  fst (load_records T s) = inr tt
  /\ all_records (details_screen (snd (load_records T s)))
     = flat_map rows_of_rrset (get_default (d_rrsets details) [])
  /\ records_table (details_screen (snd (load_records T s)))
     = map loaded_record_row (all_records (details_screen (snd (load_records T s))))
  /\ zone (details_screen (snd (load_records T s))) = Some z
  /\ notifications (snd (load_records T s))
     = (notifications s
          ++ [Notice ("Loaded "
                        ++ Py.str_int
                             (Z.of_nat
                                (length (all_records
                                           (details_screen (snd (load_records T s))))))
                        ++ " records") "information"])%list.
Proof.
  intros Hz Hd. rewrite load_records_run.
  destruct (get_zone T (manager (details_screen s)) (zone_id (details_screen s))
              (sys s)) as [r y].
  cbn [fst snd] in Hz, Hd. subst r.
  destruct (zone_details T z y) as [r y1]. cbn [fst] in Hd. subst r.
  repeat split; reflexivity.
Qed.

Lemma load_records_flattens_witness :
  fst (get_zone Demo.transport 0%nat "example.com." (Demo.system []))
  = inr (Some Demo.zone_com)
  /\ map (fun r => (rec_name r, rec_type r, rec_content r, rec_ttl r, rec_disabled r))
         (all_records (details_screen (snd (load_records Demo.transport (Demo.state [])))))
     = [("a.", "A", "1.1.1.1", 300, false);
        ("b.", "TXT", "hi", 60, false);
        ("b.", "TXT", "bye", 60, true)].
Proof.
  pose proof (load_records_flattens Demo.transport (Demo.state []) Demo.zone_com
                Demo.details_com eq_refl eq_refl) as (_ & Hall & _).
  split; [reflexivity|].
  rewrite Hall. reflexivity.
Defined.

(** X6: when the gateway does not return the zone, [load_records] does
    not raise.  When the gateway raises instead of
    returning the zone, an error is shown and the screen keeps the records
    and the table it had; when the gateway returns no zone, an error is
    shown and the records and the table are left empty. *)
Theorem load_records_without_zone
    {W Client Api Server : Type} (T : Transport W Client Api Server)
    (s : St W Client Api Server) :
  (forall z,
      fst (get_zone T (manager (details_screen s)) (zone_id (details_screen s)) (sys s))
      <> inr (Some z)) ->
  fst (load_records T s) = inr tt
  /\ (exists cause,
         notifications (snd (load_records T s))
         = (notifications s
              ++ [Notice ("Error loading records: " ++ cause) "error"])%list)
  /\ (forall e,
         fst (get_zone T (manager (details_screen s)) (zone_id (details_screen s))
                (sys s)) = inl e ->
         details_screen (snd (load_records T s)) = details_screen s)
  /\ (fst (get_zone T (manager (details_screen s)) (zone_id (details_screen s))
             (sys s)) = inr None ->
      all_records (details_screen (snd (load_records T s))) = []
      /\ records_table (details_screen (snd (load_records T s))) = []).
Proof.
  intro Hz. rewrite load_records_run.
  destruct (get_zone T (manager (details_screen s)) (zone_id (details_screen s))
              (sys s)) as [[e|[z|]] y]; simpl in Hz |- *.
  - repeat split; try reflexivity; try discriminate. eexists. reflexivity.
  - exfalso. apply (Hz z). reflexivity.
  - repeat split; try reflexivity; try discriminate. eexists. reflexivity.
Qed.

Lemma load_records_without_zone_witness :
  (forall z,
      fst (get_zone Demo.transport 0%nat "example.com." (Demo.system [Demo.url_a]))
      <> inr (Some z))
  /\ fst (load_records Demo.transport (Demo.state [Demo.url_a])) = inr tt
  /\ details_screen (snd (load_records Demo.transport (Demo.state [Demo.url_a])))
     = details_screen (Demo.state [Demo.url_a]).
Proof.
  assert (H : forall z,
             fst (get_zone Demo.transport 0%nat "example.com."
                    (Demo.system [Demo.url_a])) <> inr (Some z))
    by (intro z; discriminate).
  pose proof (load_records_without_zone Demo.transport (Demo.state [Demo.url_a]) H)
    as (Hr & _ & Hkeep & _).
  split; [exact H | split].
  - exact Hr.
  - apply (Hkeep Demo.unavailable). reflexivity.
Defined.

Lemma record_matches_iff (search_term : string) (record : record_row) :
  record_matches search_term record = true
  <-> exists field,
        In field [rec_name record; rec_type record; rec_content record]
        /\ exists pre post,
             Py.lower field = pre ++ Py.lower search_term ++ post.
Proof.
  unfold record_matches. rewrite !orb_true_iff, !contains_iff. split.
  - intros [[H|H]|H]; eexists; (split; [|exact H]); simpl; auto.
  - intros (field & [<-|[<-|[<-|[]]]] & H); auto.
Qed.

Lemma zone_matches_iff {Client Api Server : Type}
    (h : ref -> PDNSManager Client Api Server) (search_term : string)
    (zone : zone_data) :
  zone_matches h search_term zone = true
  <-> exists field,
        In field [zd_name zone; zd_kind zone; m_name (h (zd_manager zone));
                  m_fqdn (h (zd_manager zone))]
        /\ exists pre post,
             Py.lower field = pre ++ Py.lower search_term ++ post.
Proof.
  unfold zone_matches. rewrite !orb_true_iff, !contains_iff. split.
  - intros [[[H|H]|H]|H]; eexists; (split; [|exact H]); simpl; auto.
  - intros (field & [<-|[<-|[<-|[<-|[]]]]] & H); auto.
Qed.

(** X7: [filter_records] returns and shows, in the order of [all_records],
    a row for exactly the records whose name, type or content, in lower
    case, has the search term in lower case as a substring; [all_records],
    the zone object, the notices and the managers stay as they were. *)
Theorem filter_records_shows_the_matches
    {W Client Api Server : Type} (search_term : string)
    (s : St W Client Api Server) :
  fst (filter_records search_term s) = inr tt
  /\ records_table (details_screen (snd (filter_records search_term s)))
     = map record_table_row
           (filter (record_matches search_term) (all_records (details_screen s)))
  /\ (forall record,
         record_matches search_term record = true
         <-> exists field,
               In field [rec_name record; rec_type record; rec_content record]
               /\ exists pre post,
                    Py.lower field = pre ++ Py.lower search_term ++ post)
  /\ all_records (details_screen (snd (filter_records search_term s)))
     = all_records (details_screen s)
  /\ zone (details_screen (snd (filter_records search_term s)))
     = zone (details_screen s)
  /\ notifications (snd (filter_records search_term s)) = notifications s
  /\ sys (snd (filter_records search_term s)) = sys s.
Proof.
  rewrite filter_records_run. cbn [fst snd].
  split; [reflexivity|]. split; [reflexivity|].
  split; [intro record; apply record_matches_iff|].
  split; [reflexivity|]. split; [reflexivity|]. split; reflexivity.
Qed.

(** X8: [filter_zones] returns and shows, in the order of [all_zones], a
    row for exactly the zones whose name or kind, or whose manager's name
    or host name, in lower case, has the search term in lower case as a
    substring; the notices stay as they were. *)
Theorem filter_zones_shows_the_matches
    {W Client Api Server : Type} (search_term : string)
    (s : St W Client Api Server) :
  fst (filter_zones search_term s) = inr tt
  /\ zones_table (zones_screen (snd (filter_zones search_term s)))
     = map (zone_row (heap (sys s)))
           (filter (zone_matches (heap (sys s)) search_term)
                   (all_zones (zones_screen s)))
  /\ (forall zone,
         zone_matches (heap (sys s)) search_term zone = true
         <-> exists field,
               In field [zd_name zone; zd_kind zone;
                         m_name (heap (sys s) (zd_manager zone));
                         m_fqdn (heap (sys s) (zd_manager zone))]
               /\ exists pre post,
                    Py.lower field = pre ++ Py.lower search_term ++ post)
  /\ notifications (snd (filter_zones search_term s)) = notifications s.
Proof.
  rewrite filter_zones_run. cbn [fst snd].
  split; [reflexivity|]. split; [reflexivity|].
  split; [intro zone; apply zone_matches_iff | reflexivity].
Qed.

(** X9: the searches do not see the case of the term: two terms that are
    the same in lower case, such as a term and its lower case, leave the
    same state behind on both screens. *)
Theorem searches_ignore_case_of_term
    {W Client Api Server : Type} (term other : string)
    (s : St W Client Api Server) :
  Py.lower other = Py.lower term ->
  filter_zones other s = filter_zones term s
  /\ filter_records other s = filter_records term s
  /\ filter_zones (Py.lower term) s = filter_zones term s
  /\ filter_records (Py.lower term) s = filter_records term s.
Proof.
  intro H. unfold filter_zones, filter_records.
  rewrite H, lower_idempotent. repeat split; reflexivity.
Qed.

Lemma searches_ignore_case_of_term_witness :
  Py.lower "EXAMPLE.Net" = Py.lower "example.net"
  /\ filter_zones "EXAMPLE.Net" (Demo.state [])
     = filter_zones "example.net" (Demo.state []).
Proof.
  pose proof (searches_ignore_case_of_term "example.net" "EXAMPLE.Net"
                (Demo.state []) eq_refl) as (H & _).
  split; [reflexivity | exact H].
Defined.

(** A row made from a record-set with a TTL is shown by the search as
    the loading showed it. *)
Lemma rows_with_ttl (rrsets : list RRSetDoc) :
  Forall (fun rrset => rs_ttl rrset <> None) rrsets ->
  map record_table_row (flat_map rows_of_rrset rrsets)
  = map loaded_record_row (flat_map rows_of_rrset rrsets).
Proof.
  induction 1 as [|rrset rrsets Httl _ IH]; [reflexivity|].
  simpl. rewrite !map_app, IH. f_equal.
  unfold rows_of_rrset. rewrite !map_map. apply map_ext. intro record.
  unfold record_table_row, loaded_record_row. simpl.
  destruct (rs_ttl rrset); [reflexivity | exfalso; apply Httl; reflexivity].
Qed.

Lemma filter_all {A} (f : A -> bool) (l : list A) :
  (forall x, f x = true) -> filter f l = l.
Proof.
  intro H. induction l as [|x l IH]; simpl; [reflexivity|].
  rewrite H, IH. reflexivity.
Qed.

(** X10: after the records are loaded from a zone document in which every
    record-set has a TTL, the search for the empty term shows the table
    as the loading showed it. *)
Theorem empty_search_restores_loaded_table
    {W Client Api Server : Type} (T : Transport W Client Api Server)
    (s : St W Client Api Server) (z : RemoteZone) (details : Details) :
  fst (get_zone T (manager (details_screen s)) (zone_id (details_screen s)) (sys s))
  = inr (Some z) ->
  fst (zone_details T z
         (snd (get_zone T (manager (details_screen s)) (zone_id (details_screen s))
                 (sys s))))
  = inr details ->
  Forall (fun rrset => rs_ttl rrset <> None) (get_default (d_rrsets details) []) ->
  records_table (details_screen (snd (filter_records "" (snd (load_records T s)))))
  = records_table (details_screen (snd (load_records T s))).
Proof.
  intros Hz Hd Httl. rewrite filter_records_run, load_records_run.
  destruct (get_zone T (manager (details_screen s)) (zone_id (details_screen s))
              (sys s)) as [r y].
  cbn [fst snd] in Hz, Hd. subst r.
  destruct (zone_details T z y) as [r y1]. cbn [fst] in Hd. subst r.
  cbn [fst snd details_screen with_notification loaded_state loaded_screen
       all_records records_table].
  rewrite filter_all.
  - apply rows_with_ttl. exact Httl.
  - intro record. unfold record_matches.
    change (Py.lower "") with "". rewrite contains_empty_needle.
    reflexivity.
Qed.

Lemma empty_search_restores_loaded_table_witness :
  fst (get_zone Demo.transport 0%nat "example.com." (Demo.system []))
  = inr (Some Demo.zone_com)
  /\ Forall (fun rrset => rs_ttl rrset <> None)
            (get_default (d_rrsets Demo.details_com) [])
  /\ records_table
       (details_screen
          (snd (filter_records "" (snd (load_records Demo.transport (Demo.state []))))))
     = [["a."; "A"; "1.1.1.1"; "300"; "No"];
        ["b."; "TXT"; "hi"; "60"; "No"];
        ["b."; "TXT"; "bye"; "60"; "Yes"]].
Proof.
  assert (Httl : Forall (fun rrset => rs_ttl rrset <> None)
                        (get_default (d_rrsets Demo.details_com) []))
    by (repeat constructor; discriminate).
  split; [reflexivity | split; [exact Httl|]].
  rewrite (empty_search_restores_loaded_table Demo.transport (Demo.state [])
             Demo.zone_com Demo.details_com eq_refl eq_refl Httl).
  reflexivity.
Defined.

(* ------------------------------------------------------------------ *)
(** ** More on the built-ins: numbers and lists of names *)

Lemma int_digits_digit (c : ascii) (s : string) (acc d : Z) (b : bool) :
  Py.digit_of c = Some d ->
  Py.int_digits (String c s) acc b = Py.int_digits s (10 * acc + d) true.
Proof. intro H. cbn [Py.int_digits]. rewrite H. reflexivity. Qed.

Lemma digits_of_uint_acc (u : Decimal.uint) (acc : positive) :
  Py.int_digits (NilEmpty.string_of_uint u) (Z.pos acc) true
  = Some (Z.pos (Pos.of_uint_acc u acc)).
Proof.
  revert acc. induction u; intro acc;
    cbn [NilEmpty.string_of_uint Pos.of_uint_acc];
    [reflexivity
    | erewrite int_digits_digit by (vm_compute; reflexivity); rewrite <- IHu; f_equal; lia ..].
Qed.

Lemma digits_of_uint (u : Decimal.uint) :
  Py.int_digits (NilEmpty.string_of_uint u) 0 true = Some (Z.of_N (Pos.of_uint u)).
Proof.
  induction u; cbn [NilEmpty.string_of_uint Pos.of_uint];
    [reflexivity
    | erewrite int_digits_digit by (vm_compute; reflexivity); exact IHu
    | erewrite int_digits_digit by (vm_compute; reflexivity); apply (digits_of_uint_acc u) ..].
Qed.

(** The first character of a number decides nothing for [int_digits]. *)
Lemma digits_first (u : Decimal.uint) (acc : Z) :
  u <> Decimal.Nil ->
  Py.int_digits (NilEmpty.string_of_uint u) acc false
  = Py.int_digits (NilEmpty.string_of_uint u) acc true.
Proof. destruct u; intro H; [exfalso; apply H; reflexivity | reflexivity ..]. Qed.

Lemma no_space_uint (u : Decimal.uint) :
  no_space (NilEmpty.string_of_uint u) = true.
Proof. induction u; simpl; [reflexivity | exact IHu ..]. Qed.

Lemma lstrip_no_space (s : string) : no_space s = true -> Py.lstrip s = s.
Proof.
  destruct s as [|c s]; [reflexivity|].
  unfold no_space. simpl. intro H. apply andb_true_iff in H. destruct H as [H _].
  apply negb_true_iff in H. rewrite H. reflexivity.
Qed.

Lemma rstrip_no_space (s : string) : no_space s = true -> Py.rstrip s = s.
Proof.
  induction s as [|c s IH]; [reflexivity|].
  intro H. unfold no_space in H. cbn [string_forall] in H.
  apply andb_true_iff in H. destruct H as [Hc Hs].
  apply negb_true_iff in Hc. rewrite rstrip_cons, (IH Hs).
  destruct s; [rewrite Hc|]; reflexivity.
Qed.

Lemma strip_no_space (s : string) : no_space s = true -> Py.strip s = s.
Proof.
  intro H. unfold Py.strip. rewrite (lstrip_no_space s H). apply rstrip_no_space, H.
Qed.

(** [int(str(n))] is [n]. *)
Lemma int_str_int (n : Z) : Py.int (Py.str_int n) = Some n.
Proof.
  unfold Py.str_int, Py.int. destruct n as [|p|p]; [reflexivity | |].
  - simpl Z.to_int. simpl NilZero.string_of_int.
    pose proof (DecimalPos.Unsigned.to_uint_nonnil p) as Hnil.
    pose proof (DecimalPos.Unsigned.of_to p) as Hof.
    pose proof (no_space_uint (Pos.to_uint p)) as Hsp.
    pose proof (digits_of_uint (Pos.to_uint p)) as Hd.
    pose proof (digits_first (Pos.to_uint p) 0 Hnil) as Hf.
    unfold NilZero.string_of_uint.
    destruct (Pos.to_uint p) eqn:E; try (exfalso; apply Hnil; reflexivity);
      rewrite (strip_no_space _ Hsp);
      cbn [NilEmpty.string_of_uint]; cbn [NilEmpty.string_of_uint] in Hf, Hd;
      rewrite Hf, Hd, Hof; reflexivity.
  - simpl Z.to_int. simpl NilZero.string_of_int.
    pose proof (DecimalPos.Unsigned.to_uint_nonnil p) as Hnil.
    pose proof (DecimalPos.Unsigned.of_to p) as Hof.
    pose proof (no_space_uint (Pos.to_uint p)) as Hsp.
    pose proof (digits_of_uint (Pos.to_uint p)) as Hd.
    pose proof (digits_first (Pos.to_uint p) 0 Hnil) as Hf.
    assert (Hs : Py.strip (String "-" (NilZero.string_of_uint (Pos.to_uint p)))
                 = String "-" (NilEmpty.string_of_uint (Pos.to_uint p))).
    { unfold NilZero.string_of_uint.
      destruct (Pos.to_uint p) eqn:E; try (exfalso; apply Hnil; reflexivity);
        apply strip_no_space; unfold no_space; simpl; exact Hsp. }
    rewrite Hs, Hf, Hd, Hof. reflexivity.
Qed.

Lemma split_cons (sep c : ascii) (s : string) :
  py_split sep (String c s)
  = if Ascii.eqb c sep then EmptyString :: py_split sep s
    else match py_split sep s with
         | piece :: pieces => String c piece :: pieces
         | [] => [String c EmptyString]
         end.
Proof. reflexivity. Qed.

(** A string without comma is one piece, and a comma ends the piece. *)
Lemma split_no_comma (x : string) :
  no_comma x = true -> py_split "," x = [x].
Proof.
  induction x as [|c x IH]; [reflexivity|].
  intro H. unfold no_comma in H. cbn [string_forall] in H.
  apply andb_true_iff in H. destruct H as [Hc Hx]. apply negb_true_iff in Hc.
  rewrite split_cons, Hc, (IH Hx). reflexivity.
Qed.

Lemma split_at_comma (x rest : string) :
  no_comma x = true ->
  py_split "," (x ++ String "," rest) = x :: py_split "," rest.
Proof.
  induction x as [|c x IH]; [reflexivity|].
  intro H. unfold no_comma in H. cbn [string_forall] in H.
  apply andb_true_iff in H. destruct H as [Hc Hx]. apply negb_true_iff in Hc.
  cbn [append]. rewrite split_cons, Hc, (IH Hx). reflexivity.
Qed.

Lemma no_comma_app (a b : string) :
  no_comma (a ++ b) = no_comma a && no_comma b.
Proof.
  unfold no_comma. induction a as [|c a IH]; [reflexivity|].
  cbn [append string_forall]. rewrite IH. apply andb_assoc.
Qed.

Lemma plain_name_parts (x : string) :
  plain_name x = true -> x <> "" /\ no_space x = true /\ no_comma x = true.
Proof.
  unfold plain_name. rewrite !andb_true_iff, truthy_iff. tauto.
Qed.

(** The pieces of a list of names joined with a comma and a space. *)
Lemma split_join (pre x : string) (l : list string) :
  no_comma pre = true -> plain_name x = true ->
  Forall (fun y => plain_name y = true) l ->
  py_split "," (pre ++ py_join ", " (x :: l))
  = (pre ++ x) :: map (append " ") l.
Proof.
  revert pre x. induction l as [|y l IH]; intros pre x Hpre Hx Hl.
  - apply plain_name_parts in Hx. destruct Hx as (_ & _ & Hx).
    cbn [py_join map]. apply split_no_comma. rewrite no_comma_app, Hpre, Hx.
    reflexivity.
  - inversion Hl as [|? ? Hy Hl']; subst.
    pose proof (plain_name_parts x Hx) as (_ & _ & Hcx).
    change (py_join ", " (x :: y :: l)) with (x ++ ", " ++ py_join ", " (y :: l)).
    rewrite <- string_app_assoc.
    change (", " ++ py_join ", " (y :: l))
      with (String "," (" " ++ py_join ", " (y :: l))).
    rewrite split_at_comma by (rewrite no_comma_app, Hpre, Hcx; reflexivity).
    rewrite (IH " " y eq_refl Hy Hl'). reflexivity.
Qed.

Lemma strip_leading_space (s : string) : Py.strip (String " " s) = Py.strip s.
Proof. reflexivity. Qed.

Lemma rstrip_app (a b : string) :
  Py.rstrip b = b -> b <> "" -> Py.rstrip (a ++ b) = a ++ b.
Proof.
  intros Hb Hne. induction a as [|c a IH]; [exact Hb|].
  cbn [append]. rewrite rstrip_cons, IH.
  destruct (a ++ b) eqn:E; [|reflexivity].
  destruct a; simpl in E; [contradiction | discriminate].
Qed.

Lemma join_nonempty (x : string) (l : list string) :
  x <> "" -> py_join ", " (x :: l) <> "".
Proof.
  intro Hx. destruct l; cbn [py_join]; [exact Hx|].
  destruct x; [contradiction | discriminate].
Qed.

Lemma rstrip_join (x : string) (l : list string) :
  plain_name x = true -> Forall (fun y => plain_name y = true) l ->
  Py.rstrip (py_join ", " (x :: l)) = py_join ", " (x :: l).
Proof.
  revert x. induction l as [|y l IH]; intros x Hx Hl.
  - apply plain_name_parts in Hx. destruct Hx as (_ & Hs & _).
    apply rstrip_no_space, Hs.
  - inversion Hl as [|? ? Hy Hl']; subst.
    change (py_join ", " (x :: y :: l)) with (x ++ ", " ++ py_join ", " (y :: l)).
    rewrite <- string_app_assoc. apply rstrip_app.
    + apply IH; assumption.
    + apply join_nonempty. apply plain_name_parts in Hy. tauto.
Qed.

Lemma strip_join (l : list string) :
  Forall (fun y => plain_name y = true) l ->
  Py.strip (py_join ", " l) = py_join ", " l.
Proof.
  intro Hl. destruct l as [|x l]; [reflexivity|].
  inversion Hl as [|? ? Hx Hl']; subst.
  unfold Py.strip.
  assert (Hls : Py.lstrip (py_join ", " (x :: l)) = py_join ", " (x :: l)).
  { pose proof (plain_name_parts x Hx) as (Hne & Hs & _).
    destruct x as [|c x]; [contradiction|].
    unfold no_space in Hs. cbn [string_forall] in Hs.
    apply andb_true_iff in Hs. destruct Hs as [Hc _]. apply negb_true_iff in Hc.
    destruct l; cbn [py_join append Py.lstrip]; rewrite Hc; reflexivity. }
  rewrite Hls. apply rstrip_join; assumption.
Qed.

(** What [nameservers_of] keeps is not empty and has no space around. *)
Lemma nameservers_clean (ns_input : string) :
  Forall (fun ns => ns <> "" /\ Py.strip ns = ns)
         (CreateZoneModal.nameservers_of ns_input).
Proof.
  unfold CreateZoneModal.nameservers_of.
  apply Forall_map. apply Forall_forall. intros piece Hin.
  apply filter_In in Hin. destruct Hin as [_ Ht].
  split; [apply truthy_iff, Ht | apply strip_idempotent].
Qed.

(** X11: a list of names, none empty and none with white space or a comma
    in it, written with [", "] between the names, is read back as it was
    by the zone form. *)
Theorem nameservers_round_trip (l : list string) :
  Forall (fun name => plain_name name = true) l ->
  CreateZoneModal.nameservers_of (Py.strip (py_join ", " l)) = l.
Proof.
  intro Hl. rewrite (strip_join l Hl).
  destruct l as [|x l]; [reflexivity|].
  inversion Hl as [|? ? Hx Hl']; subst.
  unfold CreateZoneModal.nameservers_of.
  pose proof (split_join "" x l eq_refl Hx Hl') as Esplit.
  cbn [append] in Esplit. rewrite Esplit. cbn [filter].
  pose proof (plain_name_parts x Hx) as (Hne & Hs & _).
  rewrite (strip_no_space x Hs).
  apply truthy_iff in Hne. rewrite Hne. cbn [map].
  rewrite (strip_no_space x Hs). f_equal.
  clear Esplit Hl Hx Hne Hs. induction Hl' as [|y l Hy Hl' IH]; [reflexivity|].
  pose proof (plain_name_parts y Hy) as (Hne & Hs & _).
  cbn [map filter]. rewrite strip_leading_space, (strip_no_space y Hs).
  apply truthy_iff in Hne. rewrite Hne. cbn [map].
  rewrite strip_leading_space, (strip_no_space y Hs), IH. reflexivity.
Qed.

Lemma nameservers_round_trip_witness :
  Forall (fun name => plain_name name = true) ["ns1.example.com."; "ns2.example.com."]
  /\ CreateZoneModal.nameservers_of "ns1.example.com., ns2.example.com."
     = ["ns1.example.com."; "ns2.example.com."].
Proof.
  assert (H : Forall (fun name => plain_name name = true)
                     ["ns1.example.com."; "ns2.example.com."])
    by (repeat constructor).
  split; [exact H|].
  apply (nameservers_round_trip ["ns1.example.com."; "ns2.example.com."] H).
Defined.

Example nameservers_with_gaps :
  CreateZoneModal.nameservers_of " ns1.example.com. ,, ns2.example.com.,  ,"
  = ["ns1.example.com."; "ns2.example.com."].
Proof. reflexivity. Qed.

Example nameservers_none : CreateZoneModal.nameservers_of "" = [].
Proof. reflexivity. Qed.

(** X12: the zone form is dismissed with a result by its Create button
    only, and only with a name that is not empty and has no space around;
    the nameservers of the result are not empty and have no space around
    either, and with a single manager the server index is 0.  With an
    empty name the form shows an error and stays. *)
Theorem create_zone_form_result
    (n_managers : nat) (button_id : string) (w : CreateZoneModal.widgets)
    (result : CreateZoneResult) :
  CreateZoneModal.on_button_pressed n_managers button_id w
  = inr (Dismissed (Some result)) ->
  button_id = "create-btn"
  /\ cz_name result = Py.strip (CreateZoneModal.zone_name w)
  /\ cz_name result <> ""
  /\ cz_kind result = CreateZoneModal.zone_kind w
  /\ Forall (fun ns => ns <> "" /\ Py.strip ns = ns) (cz_nameservers result)
  /\ ((n_managers <= 1)%nat -> cz_server_idx result = 0)
  /\ ((1 < n_managers)%nat ->
      exists selected,
        CreateZoneModal.server_select w = Some selected
        /\ Py.int selected = Some (cz_server_idx result)).
Proof.
  unfold CreateZoneModal.on_button_pressed.
  destruct (String.eqb button_id "create-btn") eqn:Hb; [|discriminate].
  apply String.eqb_eq in Hb.
  destruct (Py.truthy (Py.strip (CreateZoneModal.zone_name w))) eqn:Hn;
    cbn [negb]; [|discriminate].
  apply truthy_iff in Hn.
  destruct (Nat.ltb 1 n_managers) eqn:Hm.
  - apply Nat.ltb_lt in Hm.
    destruct (CreateZoneModal.server_select w) as [selected|]; [|discriminate].
    destruct (Py.int selected) as [idx|] eqn:Hi; [|discriminate].
    intro H. injection H as <-. cbn.
    repeat split; try assumption; try apply nameservers_clean; try lia.
    intros _. exists selected. split; [reflexivity | exact Hi].
  - apply Nat.ltb_ge in Hm.
    intro H. injection H as <-. cbn.
    repeat split; try assumption; try apply nameservers_clean; try lia.
Qed.

Lemma create_zone_form_result_witness :
  CreateZoneModal.on_button_pressed 1 "create-btn"
    {| CreateZoneModal.zone_name := " example.org. ";
       CreateZoneModal.zone_kind := "Native";
       CreateZoneModal.nameservers := "ns1.example.org., ";
       CreateZoneModal.server_select := None |}
  = inr (Dismissed (Some {| cz_name := "example.org."; cz_kind := "Native";
                            cz_nameservers := ["ns1.example.org."];
                            cz_server_idx := 0 |}))
  /\ "create-btn" = "create-btn".
Proof.
  split; [reflexivity|].
  apply (create_zone_form_result 1 "create-btn"
           {| CreateZoneModal.zone_name := " example.org. ";
              CreateZoneModal.zone_kind := "Native";
              CreateZoneModal.nameservers := "ns1.example.org., ";
              CreateZoneModal.server_select := None |}
           {| cz_name := "example.org."; cz_kind := "Native";
              cz_nameservers := ["ns1.example.org."];
              cz_server_idx := 0 |} eq_refl).
Defined.

(** A zone form without a name is never dismissed with a result: it
    stays, with an error, on Create. *)
Lemma create_zone_form_needs_name (n_managers : nat) (w : CreateZoneModal.widgets) :
  Py.strip (CreateZoneModal.zone_name w) = "" ->
  CreateZoneModal.on_button_pressed n_managers "create-btn" w
  = inr (Stays (Notice "Zone name is required" "error")).
Proof.
  intro H. unfold CreateZoneModal.on_button_pressed. rewrite H. reflexivity.
Qed.

(** X13: an edit dialog saved as it opened gives back the record's TTL
    and its content without the space around it; it cannot be saved when
    the content is empty or white space only. *)
Theorem edit_dialog_saved_unchanged (record : record_row) :
  EditRecordModal.on_button_pressed "save-btn" (edit_modal_compose record)
  = if Py.truthy (Py.strip (rec_content record))
    then Dismissed (Some {| ed_content := Py.strip (rec_content record);
                            ed_ttl := rec_ttl record |})
    else Stays (Notice "Content is required" "error").
Proof.
  unfold EditRecordModal.on_button_pressed, edit_modal_compose.
  cbn [String.eqb EditRecordModal.record_content EditRecordModal.record_ttl].
  change (String.eqb "save-btn" "save-btn") with true. cbv iota.
  destruct (Py.truthy (Py.strip (rec_content record))); cbn [negb];
    [|reflexivity].
  rewrite int_strip, int_str_int. reflexivity.
Qed.

(* ------------------------------------------------------------------ *)
(** ** The actions of the screens *)

Lemma py_index_nat {A} (l : list A) (i : nat) :
  py_index l (Z.of_nat i) = nth_error l i.
Proof.
  unfold py_index. replace (0 <=? Z.of_nat i) with true
    by (symmetry; apply Z.leb_le; lia).
  rewrite Nat2Z.id. reflexivity.
Qed.

Lemma py_index_beyond {A} (l : list A) (i : Z) :
  Z.of_nat (length l) <= i -> py_index l i = None.
Proof.
  intro H. unfold py_index. replace (0 <=? i) with true
    by (symmetry; apply Z.leb_le; lia).
  apply nth_error_None. lia.
Qed.

(** A handler that returns makes the whole [try] return. *)
Lemma try_except_returns {S} (body : M S unit) (handler : exn -> M S unit) (s : S) :
  (forall e s', fst (handler e s') = inr tt) ->
  fst (try_except body handler s) = inr tt.
Proof.
  intro H. unfold try_except. destruct (body s) as [[e|[]] s'].
  - apply H.
  - reflexivity.
Qed.

Section Action_facts.

Variables W Client Api Server : Type.
Variable T : Transport W Client Api Server.

#[local] Abbreviation St := (St W Client Api Server).

Lemma action_delete_record_at (i : nat) (s : St) :
  action_delete_record (Z.of_nat i) s
  = match nth_error (all_records (details_screen s)) i with
    | Some record =>
        (inr (Some ("Delete record " ++ rec_name record ++ " ("
                      ++ rec_type record ++ ")?", record)), s)
    | None => (inl (IndexError "list index out of range"), s)
    end.
Proof.
  unfold action_delete_record.
  replace (Z.of_nat i <? 0) with false by (symmetry; apply Z.ltb_ge; lia).
  unfold bind, gets. rewrite py_index_nat.
  destruct (nth_error (all_records (details_screen s)) i); reflexivity.
Qed.

Lemma action_edit_record_at (i : nat) (s : St) :
  action_edit_record (Z.of_nat i) s
  = match nth_error (all_records (details_screen s)) i with
    | Some record => (inr (Some record), s)
    | None => (inl (IndexError "list index out of range"), s)
    end.
Proof.
  unfold action_edit_record.
  replace (Z.of_nat i <? 0) with false by (symmetry; apply Z.ltb_ge; lia).
  unfold bind, gets. rewrite py_index_nat.
  destruct (nth_error (all_records (details_screen s)) i); reflexivity.
Qed.

Lemma action_delete_zone_at (i : nat) (s : St) :
  action_delete_zone (Z.of_nat i) s
  = match nth_error (all_zones (zones_screen s)) i with
    | Some zone => (inr (Some ("Delete zone " ++ zd_name zone ++ "?", zone)), s)
    | None => (inl (IndexError "list index out of range"), s)
    end.
Proof.
  unfold action_delete_zone.
  replace (Z.of_nat i <? 0) with false by (symmetry; apply Z.ltb_ge; lia).
  unfold bind, gets. rewrite py_index_nat.
  destruct (nth_error (all_zones (zones_screen s)) i); reflexivity.
Qed.

(** The edit dialog as it opens on a record, saved. *)
Lemma edit_form_as_opened (record : record_row) :
  EditRecordModal.on_button_pressed "save-btn" (edit_modal_compose record)
  = if Py.truthy (Py.strip (rec_content record))
    then Dismissed (Some {| ed_content := Py.strip (rec_content record);
                            ed_ttl := rec_ttl record |})
    else Stays (Notice "Content is required" "error").
Proof.
  unfold EditRecordModal.on_button_pressed, edit_modal_compose.
  cbn [String.eqb EditRecordModal.record_content EditRecordModal.record_ttl].
  change (String.eqb "save-btn" "save-btn") with true. cbv iota.
  destruct (Py.truthy (Py.strip (rec_content record))); cbn [negb];
    [|reflexivity].
  rewrite int_strip, int_str_int. reflexivity.
Qed.

End Action_facts.

Arguments action_delete_record_at {W Client Api Server} i s.
Arguments action_edit_record_at {W Client Api Server} i s.
Arguments action_delete_zone_at {W Client Api Server} i s.

(** X14: the key [e] on a row whose content is not blank, and Save on the
    dialog as it opened: when
    the gateway returns the zone, the record-set of the row is replaced by
    one that holds this record alone, with its content without the space
    around it, its disabled flag and its TTL. *)
Theorem edit_saved_unchanged_resubmits_the_row
    {W Client Api Server : Type} (T : Transport W Client Api Server)
    (s : St W Client Api Server) (i : nat) (record : record_row) (z : RemoteZone) :
  nth_error (all_records (details_screen s)) i = Some record ->
  Py.strip (rec_content record) <> "" ->
  fst (get_zone T (manager (details_screen s)) (zone_id (details_screen s)) (sys s))
  = inr (Some z) ->
  app_mutations (snd (edit_record_at T (Z.of_nat i) (fun w => w) "save-btn" s))
  = (app_mutations s
       ++ [CallCreateRecords z
             [mkRRSet (rec_name record) (rec_type record)
                      [(Py.strip (rec_content record), rec_disabled record)]
                      (Some (rec_ttl record))]])%list.
Proof.
  intros Hi Hc Hz. unfold edit_record_at. unfold bind at 1.
  rewrite action_edit_record_at, Hi. unfold press_edit_record.
  rewrite edit_form_as_opened. apply truthy_iff in Hc. rewrite Hc.
  unfold on_edit_record_result.
  apply (workflow_mutations T
           (fun z => create_records T z
                       [mkRRSet (rec_name record) (rec_type record)
                                [(Py.strip (rec_content record), rec_disabled record)]
                                (Some (rec_ttl record))])
           _ _ s (Some z) _ _ Hz eq_refl eq_refl).
Qed.

Lemma edit_saved_unchanged_resubmits_the_row_witness :
  nth_error (all_records (details_screen
                            (snd (load_records Demo.transport (Demo.state []))))) 2
  = Some Demo.row_bye
  /\ Py.strip (rec_content Demo.row_bye) <> ""
  /\ app_mutations
       (snd (edit_record_at Demo.transport 2 (fun w => w) "save-btn"
               (snd (load_records Demo.transport (Demo.state [])))))
     = [CallCreateRecords Demo.zone_com
          [mkRRSet "b." "TXT" [("bye", true)] (Some 60)]].
Proof.
  assert (Hc : Py.strip (rec_content Demo.row_bye) <> "") by discriminate.
  split; [reflexivity | split; [exact Hc|]].
  apply (edit_saved_unchanged_resubmits_the_row Demo.transport
           (snd (load_records Demo.transport (Demo.state []))) 2 Demo.row_bye
           Demo.zone_com eq_refl Hc eq_refl).
Defined.

(** X15: the actions test the cursor for a row below zero only.  On such a
    row they push nothing and make no call; on a row at or beyond the
    number of entries they raise [IndexError], and the state is left as it
    was. *)
Theorem actions_on_a_row_out_of_range
    {W Client Api Server : Type} (s : St W Client Api Server) (cursor_row : Z) :
  (cursor_row < 0 ->
   fst (action_delete_record cursor_row s) = inr None
   /\ fst (action_edit_record cursor_row s) = inr None
   /\ fst (action_delete_zone cursor_row s) = inr None
   /\ sys (snd (action_delete_record cursor_row s)) = sys s
   /\ sys (snd (action_delete_zone cursor_row s)) = sys s)
  /\ (Z.of_nat (length (all_records (details_screen s))) <= cursor_row ->
      action_delete_record cursor_row s
      = (inl (IndexError "list index out of range"), s)
      /\ action_edit_record cursor_row s
         = (inl (IndexError "list index out of range"), s))
  /\ (Z.of_nat (length (all_zones (zones_screen s))) <= cursor_row ->
      action_delete_zone cursor_row s
      = (inl (IndexError "list index out of range"), s)).
Proof.
  split; [|split].
  - intro H. apply Z.ltb_lt in H.
    unfold action_delete_record, action_edit_record, action_delete_zone.
    rewrite H. repeat split; reflexivity.
  - intro H.
    assert (Hn : (cursor_row <? 0) = false) by (apply Z.ltb_ge; lia).
    unfold action_delete_record, action_edit_record. rewrite Hn.
    unfold bind, gets. rewrite (py_index_beyond _ _ H). split; reflexivity.
  - intro H.
    assert (Hn : (cursor_row <? 0) = false) by (apply Z.ltb_ge; lia).
    unfold action_delete_zone. rewrite Hn.
    unfold bind, gets. rewrite (py_index_beyond _ _ H). reflexivity.
Qed.

(** X16: the row under the cursor is looked up in [all_records], and in
    [all_zones], not in the table: after a search the actions still take
    entry [i] of the full list for row [i]. *)
Theorem actions_index_the_full_list
    {W Client Api Server : Type} (s : St W Client Api Server)
    (search_term : string) (i : nat) :
  fst (action_edit_record (Z.of_nat i) (snd (filter_records search_term s)))
  = match nth_error (all_records (details_screen s)) i with
    | Some record => inr (Some record)
    | None => inl (IndexError "list index out of range")
    end
  /\ fst (action_delete_record (Z.of_nat i) (snd (filter_records search_term s)))
     = fst (action_delete_record (Z.of_nat i) s)
  /\ fst (action_delete_zone (Z.of_nat i) (snd (filter_zones search_term s)))
     = match nth_error (all_zones (zones_screen s)) i with
       | Some zone => inr (Some ("Delete zone " ++ zd_name zone ++ "?", zone))
       | None => inl (IndexError "list index out of range")
       end.
Proof.
  rewrite !action_edit_record_at, !action_delete_record_at, !action_delete_zone_at.
  rewrite filter_records_run, filter_zones_run. cbn [snd].
  cbn [details_screen loaded_state loaded_screen all_records
       zones_screen zones_shown all_zones].
  split; [|split].
  - destruct (nth_error (all_records (details_screen s)) i); reflexivity.
  - destruct (nth_error (all_records (details_screen s)) i); reflexivity.
  - destruct (nth_error (all_zones (zones_screen s)) i); reflexivity.
Qed.

(** After the search for "bye" the only row shown is that of the record
    "bye", and the key [e] on it opens the dialog on the first record of
    the zone. *)
Example edit_after_search :
  let loaded := snd (load_records Demo.transport (Demo.state [])) in
  let searched := snd (filter_records "bye" loaded) in
  records_table (details_screen searched) = [["b."; "TXT"; "bye"; "60"; "Yes"]]
  /\ option_map rec_content
       (match fst (action_edit_record 0 searched) with
        | inr pushed => pushed
        | inl _ => None
        end)
     = Some "1.1.1.1".
Proof. cbv zeta. split; reflexivity. Qed.

(** X17: a confirmation that is closed by another button than Yes deletes
    nothing: the managers, the remote state and the calls stay as they
    were, for a record and for a zone, whatever row the cursor is on. *)
Theorem declined_confirmation_deletes_nothing
    {W Client Api Server : Type} (T : Transport W Client Api Server)
    (s : St W Client Api Server) (cursor_row : Z) (button_id : string) :
  button_id <> "yes-btn" ->
  sys (snd (confirm_delete_record T cursor_row button_id s)) = sys s
  /\ sys (snd (confirm_delete_zone T cursor_row button_id s)) = sys s.
Proof.
  intro Hb. apply String.eqb_neq in Hb.
  unfold confirm_delete_record, confirm_delete_zone, ConfirmModal.on_button_pressed.
  rewrite Hb. split.
  - unfold bind, action_delete_record.
    destruct (cursor_row <? 0); [reflexivity|].
    unfold bind, gets.
    destruct (py_index (all_records (details_screen s)) cursor_row); reflexivity.
  - unfold bind, action_delete_zone.
    destruct (cursor_row <? 0); [reflexivity|].
    unfold bind, gets.
    destruct (py_index (all_zones (zones_screen s)) cursor_row); reflexivity.
Qed.

Lemma declined_confirmation_deletes_nothing_witness :
  "no-btn" <> "yes-btn"
  /\ sys (snd (confirm_delete_zone Demo.transport 0 "no-btn"
                 (snd (load_zones Demo.transport (Demo.state [])))))
     = sys (snd (load_zones Demo.transport (Demo.state []))).
Proof.
  assert (H : "no-btn" <> "yes-btn") by discriminate.
  pose proof (declined_confirmation_deletes_nothing Demo.transport
                (snd (load_zones Demo.transport (Demo.state []))) 0 "no-btn" H)
    as (_ & Hz).
  split; [exact H | exact Hz].
Defined.

(* ------------------------------------------------------------------ *)
(** ** The start of the application *)

Section Startup_facts.

Variables W Client Api Server : Type.
Variable T : Transport W Client Api Server.
Variable urlparse_fqdn : string -> exn + string.

#[local] Abbreviation Sys := (Sys W Client Api Server).
#[local] Abbreviation St := (St W Client Api Server).
#[local] Abbreviation AppSt := (AppSt W Client Api Server).

(** A connected manager's [get_zones] leaves the managers as they are. *)
Lemma get_zones_keeps_heap (self : ref) (y : Sys) :
  m_connected (heap y self) = true ->
  heap (snd (get_zones T self y)) = heap y.
Proof.
  intro Hc. unfold get_zones. unfold bind at 1.
  rewrite ensure_connected_connected by exact Hc.
  cbv beta iota zeta delta [try_except bind the_api_server attr gets].
  destruct (m_api_server (heap y self)) as [srv|]; [|reflexivity].
  unfold ret, call. destruct (t_zones T srv (world y)) as [[e|zs] w]; reflexivity.
Qed.

(** Reading the details of zones leaves the managers as they are. *)
Lemma spec_summaries_keeps_heap (g : ref) (zones : list RemoteZone) (y : Sys) :
  heap (snd (spec_summaries T g zones y)) = heap y.
Proof.
  revert y. induction zones as [|zone zones IH]; intro y; [reflexivity|].
  cbn [spec_summaries].
  pose proof (spec_zone_summary_keeps_heap T g zone y) as Hh.
  destruct (spec_zone_summary T g zone y) as [[e|zd] y1]; cbn [snd] in Hh |- *;
    [exact Hh|].
  specialize (IH y1).
  destruct (spec_summaries T g zones y1) as [[zds failure] y2]; cbn [snd] in *.
  rewrite IH. exact Hh.
Qed.

Lemma spec_loadZones_keeps_heap (gateways : list ref) (y : Sys) :
  Forall (fun r => m_connected (heap y r) = true) gateways ->
  heap (snd (spec_loadZones T gateways y)) = heap y.
Proof.
  revert y. induction gateways as [|g gs IH]; intros y H; [reflexivity|].
  inversion H as [|? ? Hg Hgs]; subst.
  assert (Hh : heap (snd (spec_gateway T g y)) = heap y).
  { unfold spec_gateway.
    pose proof (get_zones_keeps_heap g y Hg) as Hh.
    destruct (get_zones T g y) as [[e|zones] y1]; cbn [snd] in Hh |- *;
      [exact Hh|].
    rewrite spec_summaries_keeps_heap. exact Hh. }
  cbn [spec_loadZones].
  destruct (spec_gateway T g y) as [[zds failure] y1]; cbn [snd] in Hh.
  assert (H1 : Forall (fun r => m_connected (heap y1 r) = true) gs)
    by (rewrite Hh; exact Hgs).
  specialize (IH y1 H1).
  destruct (spec_loadZones T gs y1) as [[zs ws] y2]; cbn [snd] in *.
  rewrite IH. exact Hh.
Qed.

(** The loop of [on_mount] over the configured servers. *)
Lemma connect_all (servers : list server_entry) (a : AppSt) :
  managers_connected a ->
  exists a',
    for_each servers (fun server =>
      try_except
        (manager <- PDNSManager_init urlparse_fqdn (se_url server)
                                     (se_api_key server) (se_name server) ;;
         lift_st (lift (connect T manager)) ;;
         append_manager manager ;;
         lift_st (notify ("Connected to " ++ se_name server) "information"))
        (fun e =>
           lift_st (notify ("Failed to connect to " ++ se_name server ++ ": "
                              ++ str e) "error"))) a
    = (inr tt, a')
    /\ managers_connected a'
    /\ config (app a') = config (app a)
    /\ zones_screen (st a') = zones_screen (st a)
    /\ details_screen (st a') = details_screen (st a)
    /\ (length (tui_managers (app a'))
        <= length (tui_managers (app a)) + length servers)%nat
    /\ length (notifications (st a'))
       = (length (notifications (st a)) + length servers)%nat.
Proof.
  revert a. induction servers as [|server servers IH]; intros a Ha.
  - exists a. cbn [for_each length]. rewrite !Nat.add_0_r.
    repeat split; try reflexivity; try exact Ha.
  - cbn [for_each]. unfold bind at 1.
    match goal with
    | |- context [match ?b a with _ => _ end] =>
        assert (Hstep : exists a1,
                   b a = (inr tt, a1)
                   /\ managers_connected a1
                   /\ config (app a1) = config (app a)
                   /\ zones_screen (st a1) = zones_screen (st a)
                   /\ details_screen (st a1) = details_screen (st a)
                   /\ (length (tui_managers (app a1))
                       <= length (tui_managers (app a)) + 1)%nat
                   /\ length (notifications (st a1))
                      = (length (notifications (st a)) + 1)%nat)
    end.
    { unfold try_except. unfold bind at 1. unfold PDNSManager_init.
      destruct (urlparse_fqdn (se_url server)) as [e|fqdn].
      - (* urlparse raises *)
        eexists. split; [reflexivity|].
        cbn -[append]. rewrite length_app. cbn [length].
        repeat split; try reflexivity; try exact Ha. lia.
      - unfold bind at 1. unfold gets at 1. unfold bind at 1. unfold modify at 1.
        unfold ret at 1. cbv beta iota. unfold bind at 1.
        unfold lift_st at 1. rewrite lift_run. cbn [st sys with_sys].
        set (y1 := with_manager (next_ref a)
                     (new_manager Client Api Server (se_url server)
                        (se_api_key server) (se_name server) fqdn)
                     (sys (st a))).
        pose proof (connect_outcome T (next_ref a) y1) as Hout.
        assert (Hframe : forall r, (r < next_ref a)%nat ->
                                   heap (snd (connect T (next_ref a) y1)) r
                                   = heap (sys (st a)) r).
        { intros r Hr. rewrite (connect_frame T (next_ref a) r y1) by lia.
          unfold y1, with_manager. cbn [heap].
          replace (Nat.eqb r (next_ref a)) with false
            by (symmetry; apply Nat.eqb_neq; lia).
          reflexivity. }
        destruct (connect T (next_ref a) y1) as [[e|b] y2];
          cbn [fst snd] in Hout, Hframe |- *.
        + (* connect raises *)
          eexists. split; [reflexivity|].
          cbn -[append]. rewrite length_app. cbn [length].
          repeat split; try reflexivity; try lia.
          unfold managers_connected in *. cbn -[append].
          eapply Forall_impl; [|exact Ha]. cbn beta.
          intros r [Hr Hc]. split; [lia|]. rewrite Hframe by exact Hr. exact Hc.
        + (* connect returns *)
          destruct Hout as (_ & Hconn & _).
          eexists. split; [reflexivity|].
          cbn -[append]. rewrite !length_app. cbn [length].
          repeat split; try reflexivity; try lia.
          unfold managers_connected in *. cbn -[append].
          apply Forall_app. split.
          * eapply Forall_impl; [|exact Ha]. cbn beta.
            intros r [Hr Hc]. split; [lia|]. rewrite Hframe by exact Hr. exact Hc.
          * constructor; [|constructor]. split; [lia | exact Hconn]. }
    destruct Hstep as (a1 & Hrun1 & Ha1 & Hc1 & Hz1 & Hd1 & Hl1 & Hn1).
    rewrite Hrun1.
    destruct (IH a1 Ha1) as (a' & Hrun & Ha' & Hc & Hz & Hd & Hl & Hn).
    exists a'. split; [exact Hrun|].
    rewrite Hc, Hz, Hd, Hn, Hc1, Hz1, Hd1, Hn1. cbn [length].
    repeat split; try reflexivity; try exact Ha'; lia.
Qed.

End Startup_facts.

Arguments get_zones_keeps_heap {W Client Api Server} T self y _.
Arguments spec_loadZones_keeps_heap {W Client Api Server} T gateways y _.
Arguments connect_all {W Client Api Server} T urlparse_fqdn servers a _.

(** X18: [PowerDNSTUI.on_mount] never raises.  When the managers the
    application holds are connected ones (at its start it holds none),
    they are so afterwards too: only a manager whose [connect] returned
    is kept, at most one for each configured server.  When none is
    kept, no zones screen is made and the last notification says that
    no server is connected; otherwise the zones screen is made on
    exactly the managers kept. *)
Theorem on_mount_keeps_connected_managers {W Client Api Server : Type}
    (T : Transport W Client Api Server) (urlparse_fqdn : string -> exn + string)
    (a : AppSt W Client Api Server) :
  managers_connected a ->
  exists a',
    app_on_mount T urlparse_fqdn a = (inr tt, a')
    /\ managers_connected a'
    /\ config (app a') = config (app a)
    /\ (length (tui_managers (app a'))
        <= length (tui_managers (app a)) + length (config (app a)))%nat
    /\ (tui_managers (app a') = [] ->
        zones_screen (st a') = zones_screen (st a)
        /\ exists ns,
             notifications (st a')
             = (ns ++ [Notice "No servers connected. Please check your configuration."
                              "error"])%list
             /\ length ns = (length (notifications (st a))
                             + length (config (app a)))%nat)
    /\ (tui_managers (app a') <> [] ->
        managers (zones_screen (st a')) = tui_managers (app a')).
Proof.
  intro Ha. unfold app_on_mount, try_except.
  unfold bind at 1. unfold gets at 1. unfold bind at 1.
  destruct (connect_all T urlparse_fqdn (config (app a)) a Ha)
    as (a1 & Hrun & Ha1 & Hc & Hz & Hd & Hl & Hn).
  match goal with
  | |- context [for_each ?xs ?body ?s0] =>
      assert (E : for_each xs body s0 = (inr tt, a1)) by exact Hrun;
      rewrite E
  end.
  unfold bind at 1. unfold gets at 1.
  destruct (tui_managers (app a1)) as [|m ms] eqn:Hms.
  - (* no manager *)
    unfold lift_st, notify, modify. cbn -[append].
    eexists. split; [reflexivity|]. cbn -[append].
    split; [unfold managers_connected; cbn -[append]; rewrite Hms; constructor|].
    split; [exact Hc|]. rewrite Hms. cbn [length].
    split; [lia|]. split.
    + intros _. split; [exact Hz|]. eexists. split; [reflexivity | exact Hn].
    + intro H. contradiction H. reflexivity.
  - (* the zones screen is pushed and mounted *)
    unfold bind at 1. unfold lift_st at 1, modify at 1.
    unfold lift_st, zones_on_mount.
    set (s2 := with_zones_screen (new_zones_screen (m :: ms)) (st a1)).
    assert (Hconn : Forall (fun r => m_connected (heap (sys s2) r) = true)
                           (managers (zones_screen s2))).
    { unfold s2. cbn. unfold managers_connected in Ha1. rewrite Hms in Ha1.
      eapply Forall_impl; [|exact Ha1]. cbn beta. intros r [_ H]. exact H. }
    pose proof (spec_loadZones_keeps_heap T _ _ Hconn) as Hheap.
    destruct (spec_loadZones T (managers (zones_screen s2)) (sys s2))
      as [[zs ws] y'] eqn:Hspec.
    destruct (load_zones_run T s2 zs ws y' Hspec)
      as (s' & Hload & Hsys & _ & _ & Hm & _).
    cbn [snd] in Hheap.
    match goal with
    | |- context [load_zones T ?s0] =>
        assert (E2 : load_zones T s0 = (inr tt, s')) by exact Hload;
        rewrite E2
    end.
    eexists. split; [reflexivity|].
    unfold with_st. cbn [app next_ref st].
    split.
    { unfold managers_connected in *. cbn [app next_ref st].
      rewrite Hsys, Hheap. unfold s2. cbn [sys with_zones_screen].
      exact Ha1. }
    split; [exact Hc|]. rewrite Hms, Hm.
    split; [exact Hl|]. split.
    + intro H. discriminate H.
    + intros _. reflexivity.
Qed.

(** The two servers of the installation with B down: only A's manager is
    kept, and the zones screen shows A's zones. *)
Lemma on_mount_keeps_connected_managers_witness :
  managers_connected (Startup.state [Demo.url_b])
  /\ exists a',
       app_on_mount Demo.transport Startup.urlparse_fqdn
                    (Startup.state [Demo.url_b]) = (inr tt, a')
       /\ managers_connected a'.
Proof.
  assert (H : managers_connected (Startup.state [Demo.url_b]))
    by (unfold managers_connected; cbn; constructor).
  split; [exact H|].
  pose proof (on_mount_keeps_connected_managers Demo.transport
                Startup.urlparse_fqdn (Startup.state [Demo.url_b]) H)
    as (a' & Hrun & Ha' & _).
  exists a'. split; [exact Hrun | exact Ha'].
Defined.

Example on_mount_with_one_server_down :
  let run := app_on_mount Demo.transport Startup.urlparse_fqdn
               (Startup.state [Demo.url_b]) in
  fst run = inr tt
  /\ tui_managers (app (snd run)) = [2%nat]
  /\ notifications (st (snd run))
     = [Notice "Connected to A" "information";
        Notice "Failed to connect to B: Failed to connect to B: 503 Service Unavailable"
               "error";
        Notice "Loaded 2 zones from 1 server(s)" "information"].
Proof. vm_compute. repeat split. Qed.

(* ------------------------------------------------------------------ *)
(** ** The creation of a zone from the zones screen *)

Section Create_zone_facts.

Variables W Client Api Server : Type.
Variable T : Transport W Client Api Server.

#[local] Abbreviation Sys := (Sys W Client Api Server).
#[local] Abbreviation St := (St W Client Api Server).

(** On a connected manager, [create_zone] makes its one call, whatever
    the server answers. *)
Lemma create_zone_connected (self : ref) (name kind : string)
    (nameservers : list string) (y : Sys) srv :
  m_connected (heap y self) = true ->
  m_api_server (heap y self) = Some srv ->
  1 <= year (local_date (clock y)) <= 9999 ->
  exists r w,
    create_zone T self name kind (Some nameservers) y
    = (r, with_world w
            (CallCreateZone srv name kind
               [mkRRSet name "SOA"
                  [(soa_content name (yyyymmdd (local_date (clock y)) ++ "00"),
                    false)]
                  (Some 86400)]
               nameservers) y).
Proof.
  intros Hc Hs Hy. unfold create_zone. unfold bind at 1.
  rewrite ensure_connected_connected by exact Hc.
  unfold try_except, bind, date_today, gets.
  cbn -[append yyyymmdd local_date the_api_server soa_content].
  replace (1 <=? year (local_date (clock y))) with true
    by (symmetry; apply Z.leb_le; lia).
  replace (year (local_date (clock y)) <=? 9999) with true
    by (symmetry; apply Z.leb_le; lia).
  cbn -[append yyyymmdd local_date the_api_server soa_content].
  rewrite the_api_server_some with (srv := srv) by exact Hs.
  unfold call.
  replace (match nameservers with n :: ns => n :: ns | [] => [] end)
    with nameservers by (destruct nameservers; reflexivity).
  destruct (t_create_zone T srv name kind _ _ (world y)) as [[e|z] w];
    eexists; eexists; reflexivity.
Qed.

End Create_zone_facts.

Arguments create_zone_connected {W Client Api Server} T self name kind nameservers y srv _ _ _.

(** X19: [on_create_zone_result] never raises.  With a server index
    beyond the managers of the screen, nothing is done but the error
    notice of the [IndexError].  With the index of a connected manager,
    exactly one mutating call is made: the creation, on that manager's
    server, of the zone of the form's name and kind with its
    nameservers and the default SOA record; this also when the server
    refuses it, and the reload that follows adds none. *)
Theorem create_zone_result_makes_one_creation {W Client Api Server : Type}
    (T : Transport W Client Api Server) (result : CreateZoneResult)
    (s : St W Client Api Server) :
  fst (on_create_zone_result T (Some result) s) = inr tt
  /\ (py_index (managers (zones_screen s)) (cz_server_idx result) = None ->
      snd (on_create_zone_result T (Some result) s)
      = with_notification
          (Notice "Error creating zone: list index out of range" "error") s)
  /\ (forall manager srv,
        py_index (managers (zones_screen s)) (cz_server_idx result) = Some manager ->
        m_connected (heap (sys s) manager) = true ->
        m_api_server (heap (sys s) manager) = Some srv ->
        1 <= year (local_date (clock (sys s))) <= 9999 ->
        app_mutations (snd (on_create_zone_result T (Some result) s))
        = (app_mutations s
             ++ [CallCreateZone srv (cz_name result) (cz_kind result)
                   [mkRRSet (cz_name result) "SOA"
                      [(soa_content (cz_name result)
                          (yyyymmdd (local_date (clock (sys s))) ++ "00"), false)]
                      (Some 86400)]
                   (cz_nameservers result)])%list).
Proof.
  split; [|split].
  - unfold on_create_zone_result. apply try_except_returns.
    intros e s'. reflexivity.
  - intro H. unfold on_create_zone_result, try_except.
    unfold bind at 1. unfold gets at 1. rewrite H.
    unfold bind at 1. reflexivity.
  - intros manager srv H Hc Hs Hy.
    unfold on_create_zone_result, try_except.
    unfold bind at 1. unfold gets at 1. rewrite H.
    unfold bind at 1. unfold ret at 1. unfold bind at 1. rewrite lift_run.
    destruct (create_zone_connected T manager (cz_name result) (cz_kind result)
                (cz_nameservers result) (sys s) srv Hc Hs Hy) as (r & w & E).
    rewrite E. cbn [fst snd].
    set (c := CallCreateZone srv (cz_name result) (cz_kind result) _ _).
    assert (Hm : mutations (calls (with_world w c (sys s)))
                 = (app_mutations s ++ [c])%list).
    { unfold with_world. cbn [calls]. rewrite mutations_app. reflexivity. }
    destruct r as [e|z].
    + unfold notify, modify. cbn -[append]. exact Hm.
    + unfold bind at 1. rewrite lift_run. unfold attr at 1, gets at 1.
      cbn [fst snd sys with_sys].
      unfold bind at 1. unfold notify at 1, modify at 1. cbv beta iota.
      match goal with
      | |- context [load_zones T ?s1] =>
          pose proof (preserves_load_zones T s1) as Hl;
          destruct (load_zones T s1) as [[e|a] s2]
      end;
        cbn [snd] in Hl; unfold notify, modify; cbn [snd];
        change (app_mutations s2 = (app_mutations s ++ [c])%list);
        rewrite Hl; exact Hm.
Qed.

Example create_zone_from_the_form :
  app_mutations
    (snd (press_create_zone Demo.transport "create-btn"
            {| CreateZoneModal.zone_name := " new.example. ";
               CreateZoneModal.zone_kind := "Native";
               CreateZoneModal.nameservers := "ns1.new.example., ,ns2.new.example.";
               CreateZoneModal.server_select := Some " 1 " |}
            (Demo.state [])))
  = [CallCreateZone Demo.url_b "new.example." "Native"
       [mkRRSet "new.example." "SOA"
          [("ns1.new.example. hostmaster.new.example. 2024010200 28800 7200 604800 86400",
            false)]
          (Some 86400)]
       ["ns1.new.example."; "ns2.new.example."]].
Proof. vm_compute. reflexivity. Qed.

(* ------------------------------------------------------------------ *)
(** ** The configuration *)

(** The loop of [Config.__init__] over the entries of the document. *)
Lemma config_loop (docs : list ServerDoc) (acc : list server_entry) :
  match for_each docs (fun server =>
          let name := get_default (sd_name server) "Unnamed Server" in
          url <- required "url" (sd_url server) ;;
          api_key <- required "api_key" (sd_api_key server) ;;
          modify (fun servers =>
                    (servers ++ [{| se_name := name; se_url := url;
                                    se_api_key := api_key |}])%list)) acc with
  | (inr _, servers) =>
      exists made, servers = (acc ++ made)%list /\ Forall2 entry_made_of docs made
  | (inl e, _) =>
      Exists incomplete docs /\ (e = KeyError "url" \/ e = KeyError "api_key")
  end.
Proof.
  revert acc. induction docs as [|d docs IH]; intro acc.
  - cbn. exists []. rewrite app_nil_r. split; [reflexivity | constructor].
  - cbn [for_each]. unfold bind at 1.
    destruct d as [n [u|] k].
    + destruct k as [k|].
      * cbn -[for_each append KeyError].
        match goal with
        | |- context [for_each docs ?body ?acc1] =>
            specialize (IH acc1);
            destruct (for_each docs body acc1) as [[e|[]] servers]
        end.
        -- destruct IH as [Hex He]. split; [right; exact Hex | exact He].
        -- destruct IH as (made & -> & Hmade).
           eexists (_ :: made). rewrite <- app_assoc. split; [reflexivity|].
           constructor; [|exact Hmade]. repeat split.
      * cbn -[for_each append KeyError].
        split; [left; right; reflexivity | right; reflexivity].
    + cbn -[for_each append KeyError].
      split; [left; left; reflexivity | left; reflexivity].
Qed.

(** X20: of a configuration document with a list of servers, [Config]
    makes one server for each entry, in order, with the entry's URL and
    API key and its name, or [Unnamed Server] without one; the URL and
    the API key of the command line are not used.  When an entry lacks
    its URL or its API key, [Config] raises a [KeyError], of the key
    [url] or of the key [api_key], instead. *)
Theorem config_of_document (docs : list ServerDoc) (other_keys : bool)
    (url api_key : option string) :
  match Config (Some {| cd_servers := Some docs; cd_other_keys := other_keys |})
               url api_key with
  | inr servers => Forall2 entry_made_of docs servers
  | inl e => Exists incomplete docs /\ (e = KeyError "url" \/ e = KeyError "api_key")
  end.
Proof.
  unfold Config, Config_init. cbn [cd_servers get_default].
  pose proof (config_loop docs []) as H.
  match goal with
  | |- context [for_each docs ?body []] =>
      destruct (for_each docs body []) as [[e|[]] servers]
  end.
  - exact H.
  - destruct H as (made & -> & Hmade). exact Hmade.
Qed.

Example config_two_servers :
  Config (Some {| cd_servers :=
                    Some [{| sd_name := Some "A"; sd_url := Some "http://a.example:8081";
                             sd_api_key := Some "secret" |};
                          {| sd_name := None; sd_url := Some "http://b.example:8081";
                             sd_api_key := Some "secret" |}];
                  cd_other_keys := false |}) None None
  = inr [{| se_name := "A"; se_url := "http://a.example:8081"; se_api_key := "secret" |};
         {| se_name := "Unnamed Server"; se_url := "http://b.example:8081";
            se_api_key := "secret" |}].
Proof. reflexivity. Qed.

Example config_without_api_key :
  Config (Some {| cd_servers :=
                    Some [{| sd_name := Some "A"; sd_url := Some "http://a.example:8081";
                             sd_api_key := None |}];
                  cd_other_keys := false |}) None None
  = inl (KeyError "api_key").
Proof. reflexivity. Qed.

(** The configuration of the command line is one server, [Default
    Server], when both the URL and the API key are given and not empty,
    and no server otherwise. *)
Lemma from_args_servers (url api_key : string) :
  from_args url api_key
  = inr (if Py.truthy url && Py.truthy api_key
         then [{| se_name := "Default Server"; se_url := url;
                  se_api_key := api_key |}]
         else []).
Proof.
  unfold from_args, Config, Config_init, when.
  destruct (Py.truthy url && Py.truthy api_key); reflexivity.
Qed.
